(** * tf2onnx.rewriter.custom_rnn_rewriter: the custom RNN loop rewriter

    A shallow embedding of [CustomRnnRewriter] and of the part of the graph
    collaborator it drives, followed by the properties of the pass. *)

From Stdlib Require Import String Ascii List ZArith Bool Arith Lia.
From Stdlib Require Import DecimalString DecimalNat.
Import ListNotations.
Local Open Scope list_scope.
Local Open Scope string_scope.


(** ** Python values used by the pass *)

Module Py.

(** [s.split(sep)] for a one-character separator. *)
Fixpoint split (sep : ascii) (s : string) : list string :=
  match s with
  | EmptyString => [EmptyString]
  | String c rest =>
      if Ascii.eqb c sep then EmptyString :: split sep rest
      else match split sep rest with
           | [] => [String c EmptyString]
           | p :: ps => String c p :: ps
           end
  end.

(** [sep.join(parts)]. *)
Definition join (sep : string) (parts : list string) : string :=
  String.concat sep parts.

(** [l[0:-2]]: everything but the last two elements. *)
Definition drop_last_two {A : Type} (l : list A) : list A :=
  firstn (length l - 2) l.

(** [l[1:]]. *)
Definition from_1 {A : Type} (l : list A) : list A := skipn 1 l.

(** [s.startswith(p)]. *)
Definition startswith (s p : string) : bool := String.prefix p s.

(** [l.count(x)] on a list of integers. *)
Definition count (l : list Z) (x : Z) : nat := count_occ Z.eq_dec l x.

(** [str(n)] for a natural number. *)
Definition str (n : nat) : string := NilEmpty.string_of_uint (Nat.to_uint n).

(** Truth value of an optional string: [None] and [""] are falsy. *)
Definition truthy (s : option string) : bool :=
  match s with
  | Some (String _ _) => true
  | _ => false
  end.

(** [sys.maxsize] on a 64-bit interpreter. *)
Definition maxsize : Z := 9223372036854775807.

End Py.

(** Faults the pass can meet.  The first three are raised by the
    interpreter on the pass's own code (attribute access on [None],
    list arithmetic on [None], indexing past the end); [GraphError] stands
    for any exception raised inside the graph collaborator. *)
Inductive Fault : Type :=
| AttributeError
| TypeError
| IndexError
| GraphError.

(** ** Tensors, nodes and the graph *)

Definition Shape : Type := list Z.

(** [onnx_pb.TensorProto] element types used by the pass. *)
Module TensorProto.
Definition FLOAT : Z := 1.
Definition INT64 : Z := 7.
End TensorProto.

(** Modelled from the spec: a tensor as the loop framework describes it
    (id, dtype and shape), each of which may be [None]. *)
Record TensorValueInfo : Type := {
  tvi_id : option string;
  tvi_dtype : option Z;
  tvi_shape : option Shape
}.

(** The body graph of a Scan node: the cell nodes (referred to by name),
    the designated outputs and the declared inputs, in declaration order. *)
Record BodyGraph : Type := {
  body_nodes : list string;
  body_outputs : list TensorValueInfo;
  body_inputs : list TensorValueInfo
}.

Inductive AttrValue : Type :=
| AttrInt (i : Z)
| AttrInts (l : list Z)
| AttrBytes (s : string)
| AttrTensor (dtype : Z) (value : list Z)
| AttrGraph (g : BodyGraph).

Record Node : Type := {
  node_name : string;
  node_type : string;
  node_input : list string;
  node_output : list string;
  node_attr : list (string * AttrValue)
}.

(** Modelled from the spec: the graph object is an external collaborator
    (node lookup by output id, node removal, node creation with declared
    output count, shapes and dtypes, constant creation, shape and dtype
    introspection, bulk consumer rewiring, and a supply of unique node
    identifiers).  The node list is kept in creation order; declared shapes
    and dtypes live in two dictionaries keyed by tensor id, the most recent
    binding first; [g_counter] is the name supply. *)
Record Graph : Type := {
  g_nodes : list Node;
  g_shapes : list (string * option Shape);
  g_dtypes : list (string * option Z);
  g_counter : nat
}.

Fixpoint lookup {A : Type} (k : string) (d : list (string * A)) : option A :=
  match d with
  | [] => None
  | (k', v) :: rest => if String.eqb k k' then Some v else lookup k rest
  end.

Definition flatten {A : Type} (o : option (option A)) : option A :=
  match o with
  | Some v => v
  | None => None
  end.

(** Modelled from the spec: shape and dtype introspection,
    [g.get_shape(id)] and [g.get_dtype(id)]; [None] when nothing is
    known. *)
Definition get_shape (g : Graph) (id : string) : option Shape :=
  flatten (lookup id (g_shapes g)).

Definition get_dtype (g : Graph) (id : string) : option Z :=
  flatten (lookup id (g_dtypes g)).

Definition produces (id : string) (n : Node) : bool :=
  existsb (String.eqb id) (node_output n).

(** Modelled from the spec: node lookup by output id,
    [g.get_node_by_output(id)]; the node producing [id], or [None]. *)
Definition get_node_by_output (g : Graph) (id : string) : option Node :=
  find (produces id) (g_nodes g).

Definition get_node_by_name (g : Graph) (name : string) : option Node :=
  find (fun n => String.eqb (node_name n) name) (g_nodes g).

(** Modelled from the spec: [node.get_attr(name)], [None] when the node
    has no such attribute. *)
Definition get_attr (n : Node) (name : string) : option AttrValue :=
  lookup name (node_attr n).

(** The [.s] field of an attribute: the bytes of a string attribute, empty
    for the others.  Strings stand for their UTF-8 encoding, so
    [.decode("utf-8")] is the identity on them. *)
Definition attr_s (a : AttrValue) : string :=
  match a with
  | AttrBytes s => s
  | _ => EmptyString
  end.

(** *** Generated identifiers *)

(** Modelled from the spec: the identifier [utils.make_name(base)] hands
    out when the supply is at [k]. *)
Definition generated_name (base : string) (k : nat) : string :=
  base ++ "__" ++ Py.str k.

(** The id of output [i] of the node called [name]. *)
Definition output_id (name : string) (i : nat) : string :=
  name ++ ":" ++ Py.str i.

Definition is_digit (c : ascii) : bool :=
  ((48 <=? nat_of_ascii c) && (nat_of_ascii c <=? 57))%nat.

Fixpoint span_digits (l : list ascii) : list ascii * list ascii :=
  match l with
  | c :: rest =>
      if is_digit c then
        let (d, r) := span_digits rest in (c :: d, r)
      else ([], l)
  | [] => ([], [])
  end.

(** Reads a tensor id from its end: [Some k] when it has the form
    [<anything>__<k>:<i>] of an output of a node named by the supply. *)
Definition supply_index (id : string) : option nat :=
  let (_, r1) := span_digits (rev (list_ascii_of_string id)) in
  match r1 with
  | ":"%char :: r2 =>
      match span_digits r2 with
      | (c :: dk, "_"%char :: "_"%char :: _) =>
          option_map Nat.of_uint
            (NilEmpty.uint_of_string (string_of_list_ascii (rev (c :: dk))))
      | _ => None
      end
  | _ => None
  end.

(** A tensor id is foreign to the supply from [k] on when the supply will
    never hand it out again. *)
Definition foreign (k : nat) (id : string) : bool :=
  match supply_index id with
  | Some j => (j <? k)%nat
  | None => true
  end.

(** ** Computations on the shared graph

    The pass mutates one graph in place and may raise at any point; whatever
    was done before a fault stays done.  A computation therefore maps the
    graph to the graph after it and either a value or the fault raised. *)

Inductive outcome (A : Type) : Type :=
| Return (a : A)
| Raise (e : Fault).

Arguments Return {A} a.
Arguments Raise {A} e.

Definition M (A : Type) : Type := Graph -> Graph * outcome A.

Definition ret {A : Type} (a : A) : M A := fun g => (g, Return a).

Definition raise {A : Type} (e : Fault) : M A := fun g => (g, Raise e).

Definition bind {A B : Type} (m : M A) (k : A -> M B) : M B :=
  fun g =>
    match m g with
    | (g', Return a) => k a g'
    | (g', Raise e) => (g', Raise e)
    end.

(** [try: m except Exception: h]. *)
Definition try_except {A : Type} (m : M A) (h : Fault -> M A) : M A :=
  fun g =>
    match m g with
    | (g', Return a) => (g', Return a)
    | (g', Raise e) => h e g'
    end.

Definition read {A : Type} (f : Graph -> A) : M A := fun g => (g, Return (f g)).

Definition update (f : Graph -> Graph) : M unit := fun g => (f g, Return tt).

Declare Scope graph_scope.
Delimit Scope graph_scope with graph.
Notation "x <- m ;; k" := (bind m (fun x => k))
  (at level 61, m at next level, right associativity) : graph_scope.
Notation "' pat <- m ;; k" := (bind m (fun x => match x with pat => k end))
  (at level 61, pat pattern, m at next level, right associativity) : graph_scope.
Notation "m ;; k" := (bind m (fun _ => k))
  (at level 61, right associativity) : graph_scope.
Local Open Scope graph_scope.

(** [for x in l: acc = f(acc, x)], stopping at the first fault. *)
Fixpoint for_each {A B : Type} (f : B -> A -> M B) (l : list A) (acc : B) : M B :=
  match l with
  | [] => ret acc
  | x :: rest => acc' <- f acc x ;; for_each f rest acc'
  end.

(** What the graph answers to a request for a new node. *)
Inductive creation : Type :=
| Created    (* the node is built and returned *)
| Declined   (* nothing is built and a falsy value is returned *)
| Refused.   (* an exception is raised *)

(** Declared shapes (or dtypes) of a new node's outputs enter the
    dictionary; the ids of one node are pairwise distinct, so the order of
    the new bindings among themselves is immaterial. *)
Definition bind_outputs {A : Type} (ids : list string) (vals : option (list A))
           (d : list (string * A)) : list (string * A) :=
  match vals with
  | Some vs => combine ids vs ++ d
  | None => d
  end.

(** [if op_name_scope: name = "_".join([op_name_scope, name])]. *)
Definition scoped_name (op_name_scope : option string) (name : string) : string :=
  match op_name_scope with
  | Some (String c s) => String c s ++ "_" ++ name
  | _ => name
  end.

Definition replace_input (old new : string) (n : Node) : Node :=
  {| node_name := node_name n;
     node_type := node_type n;
     node_input := map (fun i => if String.eqb i old then new else i) (node_input n);
     node_output := node_output n;
     node_attr := node_attr n |}.

Definition with_attr (target key : string) (v : AttrValue) (n : Node) : Node :=
  if String.eqb (node_name n) target then
    {| node_name := node_name n;
       node_type := node_type n;
       node_input := node_input n;
       node_output := node_output n;
       node_attr := (key, v) :: node_attr n |}
  else n.

(** The graph with its supply advanced by one. *)
Definition bump (g : Graph) : Graph :=
  {| g_nodes := g_nodes g;
     g_shapes := g_shapes g;
     g_dtypes := g_dtypes g;
     g_counter := S (g_counter g) |}.

(** Modelled from the spec: [utils.make_name], the supply of unique
    identifiers shared by all passes. *)
Definition make_name (base : string) : M string :=
  fun g => (bump g, Return (generated_name base (g_counter g))).

(** The node that node creation builds when the supply is at [k]. *)
Definition new_node (k : nat) (op_type : string) (inputs : list string)
           (attr : list (string * AttrValue)) (output_count : nat)
           (op_name_scope : option string) : Node :=
  let name := scoped_name op_name_scope (generated_name op_type k) in
  {| node_name := name;
     node_type := op_type;
     node_input := inputs;
     node_output := map (output_id name) (seq 0 output_count);
     node_attr := attr |}.

(** The graph once [n] is created: [n] goes to the end of the node list,
    its declared shapes and dtypes enter the dictionaries, the supply
    advances. *)
Definition add_node (g : Graph) (n : Node)
           (shapes : option (list (option Shape)))
           (dtypes : option (list (option Z))) : Graph :=
  {| g_nodes := g_nodes g ++ [n];
     g_shapes := bind_outputs (node_output n) shapes (g_shapes g);
     g_dtypes := bind_outputs (node_output n) dtypes (g_dtypes g);
     g_counter := S (g_counter g) |}.

(** The constant node called [name] holding the int64 vector [value]. *)
Definition const_node (name : string) (value : list Z) : Node :=
  {| node_name := name;
     node_type := "Const";
     node_input := [];
     node_output := [output_id name 0];
     node_attr := [("value", AttrTensor TensorProto.INT64 value)] |}.

(** The graph once the constant [n] of [len] elements is created. *)
Definition add_const (g : Graph) (n : Node) (len : nat) : Graph :=
  {| g_nodes := g_nodes g ++ [n];
     g_shapes :=
       bind_outputs (node_output n) (Some [Some [Z.of_nat len]]) (g_shapes g);
     g_dtypes :=
       bind_outputs (node_output n) (Some [Some TensorProto.INT64]) (g_dtypes g);
     g_counter := g_counter g |}.

(** Modelled from the spec: node removal by name. *)
Definition remove_node (name : string) : M unit :=
  update (fun g =>
    {| g_nodes := filter (fun n => negb (String.eqb (node_name n) name)) (g_nodes g);
       g_shapes := g_shapes g;
       g_dtypes := g_dtypes g;
       g_counter := g_counter g |}).

(** Modelled from the spec: bulk consumer rewiring, every reference to
    tensor [old] in the nodes of the graph becomes [new]. *)
Definition replace_all_inputs (old new : string) : M unit :=
  update (fun g =>
    {| g_nodes := map (replace_input old new) (g_nodes g);
       g_shapes := g_shapes g;
       g_dtypes := g_dtypes g;
       g_counter := g_counter g |}).

(** Modelled from the spec: attaching a body graph as a typed sub-graph
    attribute.  The node object is shared with the graph, so the node
    stored under that name is the one that changes. *)
Definition set_body_graph_as_attr (n : Node) (key : string) (body : BodyGraph) : M unit :=
  update (fun g =>
    {| g_nodes := map (with_attr (node_name n) key (AttrGraph body)) (g_nodes g);
       g_shapes := g_shapes g;
       g_dtypes := g_dtypes g;
       g_counter := g_counter g |}).

(** Modelled from the spec: the extracted body-subgraph construction, a
    graph of the given interior nodes and designated outputs that declares
    no input yet. *)
Definition construct_graph_from_nodes (nodes : list string)
           (outputs : list TensorValueInfo) : M BodyGraph :=
  ret {| body_nodes := nodes; body_outputs := outputs; body_inputs := [] |}.

(** Modelled from the spec: declaring one more input of a body graph. *)
Definition add_graph_input (b : BodyGraph) (id : option string)
           (dtype : option Z) (shape : option Shape) : BodyGraph :=
  {| body_nodes := body_nodes b;
     body_outputs := body_outputs b;
     body_inputs := body_inputs b
                    ++ [{| tvi_id := id; tvi_dtype := dtype; tvi_shape := shape |}] |}.

(** [n.output[i]] on a value that may be [None]. *)
Definition output_at (n : option Node) (i : nat) : M string :=
  match n with
  | None => raise AttributeError
  | Some n =>
      match nth_error (node_output n) i with
      | Some o => ret o
      | None => raise IndexError
      end
  end.

(** [nodes[-1].output[0]]. *)
Definition last_output (nodes : list (option Node)) : M string :=
  match rev nodes with
  | [] => raise IndexError
  | n :: _ => output_at n 0
  end.

(** ** The loop context handed over by the loop framework *)

(** Modelled from the spec: a loop-carried variable, with the fields this
    pass reads. *)
Record LoopVariable : Type := {
  enter_name : string;
  enter_input_id : string;
  is_tensor_array : bool;
  switch_true_identity_output : TensorValueInfo
}.

(** Modelled from the spec: the attributes of [LoopProperties] this pass
    reads.  [all_variables] is an ordered dictionary; only the emptiness of
    [tensor_array_inputs] is observed, so its elements are represented by
    their names. *)
Record LoopProperties : Type := {
  all_variables : list (string * LoopVariable);
  tensor_array_inputs : list string;
  state_inputs : list TensorValueInfo;
  state_inputs_initial_values : list string;
  state_outputs : list TensorValueInfo;
  state_outputs_exits : list TensorValueInfo;
  scan_inputs : list TensorValueInfo;
  scan_inputs_initial_values : list string;
  scan_outputs : list TensorValueInfo;
  scan_outputs_exits : list TensorValueInfo
}.

(** Modelled from the spec: the cell graph, interior nodes (by name) and
    designated outputs. *)
Record GraphInfo : Type := {
  gi_nodes : list string;
  gi_outputs : list TensorValueInfo
}.

(** The context of one loop region: the fields of the framework's
    [Context] this pass reads, then the three [CustomRnnContext] adds. *)
Record CustomRnnContext : Type := {
  while_context_scope : string;
  loop_properties : LoopProperties;
  cell_graph : GraphInfo;
  rnn_scope : option string;
  time_var : option LoopVariable;
  iteration_var : option LoopVariable
}.

(** A context as the framework passes it to [need_rewrite]: the fields
    [CustomRnnContext.__init__] adds are still [None]. *)
Definition loop_context (scope : string) (props : LoopProperties)
           (cell : GraphInfo) : CustomRnnContext :=
  {| while_context_scope := scope;
     loop_properties := props;
     cell_graph := cell;
     rnn_scope := None;
     time_var := None;
     iteration_var := None |}.

Definition set_rnn_scope (c : CustomRnnContext) (s : string) : CustomRnnContext :=
  {| while_context_scope := while_context_scope c;
     loop_properties := loop_properties c;
     cell_graph := cell_graph c;
     rnn_scope := Some s;
     time_var := time_var c;
     iteration_var := iteration_var c |}.

Definition set_time_var (c : CustomRnnContext) (v : LoopVariable) : CustomRnnContext :=
  {| while_context_scope := while_context_scope c;
     loop_properties := loop_properties c;
     cell_graph := cell_graph c;
     rnn_scope := rnn_scope c;
     time_var := Some v;
     iteration_var := iteration_var c |}.

Definition set_iteration_var (c : CustomRnnContext) (v : LoopVariable) : CustomRnnContext :=
  {| while_context_scope := while_context_scope c;
     loop_properties := loop_properties c;
     cell_graph := cell_graph c;
     rnn_scope := rnn_scope c;
     time_var := time_var c;
     iteration_var := Some v |}.

(** Modelled from the spec: the two-valued result of [rewrite]. *)
Inductive REWRITER_RESULT : Type :=
| OK
| FAIL.

(** ** The pattern classifier *)

Definition _get_rnn_scope_name (while_scope_name : string) : string :=
  let parts := Py.split "/" while_scope_name in
  Py.join "/" (Py.drop_last_two parts) ++ "/".

(** The local variables of [_parse_rnn_loop] together with the context the
    loop writes to. *)
Record ParseState : Type := {
  ps_context : CustomRnnContext;
  found_time : bool;
  is_rnn_out_ta : option bool
}.

(** One turn of the loop over [all_variables.values()].  A fault leaves the
    state as it was when the fault was raised. *)
Definition parse_variable (g : Graph) (time_name ta_array_name_prefix
                                       iteration_counter_name : string)
           (st : ParseState) (val : LoopVariable) : ParseState * option Fault :=
  let enter_input_node := get_node_by_output g (enter_input_id val) in
  if is_tensor_array val then
    match enter_input_node with
    | None => (st, Some AttributeError)
    | Some n =>
        match get_attr n "tensor_array_name" with
        | None => (st, Some AttributeError)
        | Some a =>
            let ta_name := attr_s a in
            if negb (Py.startswith ta_name ta_array_name_prefix) then
              ({| ps_context := ps_context st;
                  found_time := found_time st;
                  is_rnn_out_ta := Some false |}, None)
            else (st, None)
        end
    end
  else
    match enter_input_node with
    | None => (st, Some AttributeError)
    | Some n =>
        if String.eqb (node_name n) time_name then
          ({| ps_context := set_time_var (ps_context st) val;
              found_time := true;
              is_rnn_out_ta := is_rnn_out_ta st |}, None)
        else if String.eqb (node_name n) iteration_counter_name then
          ({| ps_context := set_iteration_var (ps_context st) val;
              found_time := found_time st;
              is_rnn_out_ta := is_rnn_out_ta st |}, None)
        else (st, None)
    end.

Fixpoint parse_variables (g : Graph) (time_name ta_array_name_prefix
                                        iteration_counter_name : string)
         (vals : list LoopVariable) (st : ParseState) : ParseState * option Fault :=
  match vals with
  | [] => (st, None)
  | val :: rest =>
      match parse_variable g time_name ta_array_name_prefix
                           iteration_counter_name st val with
      | (st', None) =>
          parse_variables g time_name ta_array_name_prefix
                          iteration_counter_name rest st'
      | (st', Some e) => (st', Some e)
      end
  end.

Definition _parse_rnn_loop (g : Graph) (context : CustomRnnContext)
  : CustomRnnContext * outcome bool :=
  match rnn_scope context with
  | None => (context, Raise TypeError)
  | Some scope =>
      let time_name := scope ++ "time" in
      let ta_array_name_prefix := scope ++ "dynamic_rnn/output_" in
      let iteration_counter_name :=
        while_context_scope context ++ "iteration_counter" in
      let vals := map snd (all_variables (loop_properties context)) in
      match parse_variables g time_name ta_array_name_prefix
                            iteration_counter_name vals
                            {| ps_context := context;
                               found_time := false;
                               is_rnn_out_ta := None |} with
      | (st, Some e) => (ps_context st, Raise e)
      | (st, None) =>
          if negb (found_time st)
             || match is_rnn_out_ta st with Some false => true | _ => false end
          then (ps_context st, Return false)
          else (ps_context st, Return true)
      end
  end.

(** [_parse_time_var] only logs; reading the attributes of the time
    variable faults when there is none. *)
Definition _parse_time_var (context : CustomRnnContext) : outcome unit :=
  match time_var context with
  | None => Raise AttributeError
  | Some _ => Return tt
  end.

Definition need_rewrite (g : Graph) (context : CustomRnnContext)
  : CustomRnnContext * outcome bool :=
  let context :=
    set_rnn_scope context (_get_rnn_scope_name (while_context_scope context)) in
  match _parse_rnn_loop g context with
  | (context, Raise e) => (context, Raise e)
  | (context, Return false) => (context, Return false)
  | (context, Return true) =>
      match _parse_time_var context with
      | Raise e => (context, Raise e)
      | Return _ =>
          match tensor_array_inputs (loop_properties context) with
          | [] => (context, Return false)
          | _ :: _ => (context, Return true)
          end
      end
  end.

(** ** The shape adapter, the scan synthesizer and the output reconnector *)

Section Collaborator.

(** When the graph builds a node, when it declines and when it raises is
    not this pass's business: it is a parameter of the development. *)
Variable factory : Graph -> string -> list string -> creation.

(** Modelled from the spec: node creation (op type, inputs, attributes,
    declared output count, shapes and dtypes) under an identifier taken
    from the supply and prefixed by the name scope when one is given. *)
Definition make_node (op_type : string) (inputs : list string)
           (attr : list (string * AttrValue)) (output_count : nat)
           (shapes : option (list (option Shape)))
           (dtypes : option (list (option Z)))
           (op_name_scope : option string) : M (option Node) :=
  fun g =>
    match factory g op_type inputs with
    | Refused => (g, Raise GraphError)
    | Declined => (g, Return None)
    | Created =>
        let n := new_node (g_counter g) op_type inputs attr output_count
                          op_name_scope in
        (add_node g n shapes dtypes, Return (Some n))
    end.

(** Modelled from the spec: constant-tensor creation, a one-dimensional
    int64 constant under the given name. *)
Definition make_const (name : string) (value : list Z) : M (option Node) :=
  fun g =>
    match factory g "Const" [] with
    | Refused => (g, Raise GraphError)
    | Declined => (g, Return None)
    | Created =>
        let n := const_node name value in
        (add_const g n (length value), Return (Some n))
    end.

(** [inferred_shape is not None and l.count(-1) <= 1], where [l] is the
    shape or its tail. *)
Definition static_enough (inferred_shape : option Shape)
           (part : Shape -> Shape) : bool :=
  match inferred_shape with
  | None => false
  | Some s => (Py.count (part s) (-1) <=? 1)%nat
  end.

(** An operation on a list applied to a value that may be [None]. *)
Definition on_list {A : Type} (f : Shape -> A) (s : option Shape) : M A :=
  match s with
  | None => raise TypeError
  | Some l => ret (f l)
  end.

Definition _adapt_scan_sequence_input_or_output (target_name input_id : string)
           (handle_output : bool) : M (list (option Node)) :=
  shape_node <- make_node "Shape" [input_id] [] 1 None None None ;;
  let nodes_to_add := [shape_node] in
  inferred_shape <- read (fun g => get_shape g input_id) ;;
  '(nodes_to_add, new_shape_node, new_shape) <-
    (if handle_output then
       '(nodes_to_add, new_shape_node) <-
         (if static_enough inferred_shape Py.from_1 then
            value <- on_list Py.from_1 inferred_shape ;;
            name <- make_name (target_name ++ "_target_shape") ;;
            new_shape_node <- make_const name value ;;
            ret ((nodes_to_add ++ [new_shape_node])%list, new_shape_node)
          else
            shape_out <- output_at shape_node 0 ;;
            origin_shape_node <-
              make_node "Cast" [shape_out]
                        [("to", AttrInt TensorProto.FLOAT)] 1 None None None ;;
            origin_out <- output_at origin_shape_node 0 ;;
            sliced_shape_node <-
              make_node "Slice" [origin_out]
                        [("axes", AttrInts [0%Z]); ("starts", AttrInts [1%Z]);
                         ("ends", AttrInts [Py.maxsize])] 1 None None None ;;
            sliced_out <- output_at sliced_shape_node 0 ;;
            new_shape_node <-
              make_node "Cast" [sliced_out]
                        [("to", AttrInt TensorProto.INT64)] 1 None None None ;;
            ret ((nodes_to_add
                    ++ [origin_shape_node; sliced_shape_node; new_shape_node])%list,
                 new_shape_node)) ;;
       new_shape <- on_list Py.from_1 inferred_shape ;;
       ret (nodes_to_add, new_shape_node, new_shape)
     else
       '(nodes_to_add, new_shape_node) <-
         (if static_enough inferred_shape (fun s => s) then
            value <- on_list (cons 1%Z) inferred_shape ;;
            name <- make_name (target_name ++ "_target_shape") ;;
            new_shape_node <- make_const name value ;;
            ret ((nodes_to_add ++ [new_shape_node])%list, new_shape_node)
          else
            name <- make_name (target_name ++ "_target_shape") ;;
            fake_batch_size_node <- make_const name [1%Z] ;;
            fake_out <- output_at fake_batch_size_node 0 ;;
            shape_out <- output_at shape_node 0 ;;
            new_shape_node <-
              make_node "Concat" [fake_out; shape_out]
                        [("axis", AttrInt 0)] 1 None None None ;;
            ret ((nodes_to_add ++ [fake_batch_size_node; new_shape_node])%list,
                 new_shape_node)) ;;
       new_shape <- on_list (cons 1%Z) inferred_shape ;;
       ret (nodes_to_add, new_shape_node, new_shape)) ;;
  new_shape_out <- output_at new_shape_node 0 ;;
  dtype <- read (fun g => get_dtype g input_id) ;;
  reshape_node <-
    make_node "Reshape" [input_id; new_shape_out] [] 1
              (Some [Some new_shape]) (Some [dtype]) (Some target_name) ;;
  ret (nodes_to_add ++ [reshape_node])%list.

(** One turn of the loop of [_create_scan_node] over the exit tensors:
    the declared shape and dtype are appended, and the exit node of a
    tensor with an id leaves the graph. *)
Definition collect_exit (acc : list (option Shape) * list (option Z))
           (tensor_value_info : TensorValueInfo)
  : M (list (option Shape) * list (option Z)) :=
  let (loop_outputs_shapes, loop_outputs_dtypes) := acc in
  if Py.truthy (tvi_id tensor_value_info) then
    shape <- on_list (cons 1%Z) (tvi_shape tensor_value_info) ;;
    let loop_outputs_shapes := (loop_outputs_shapes ++ [Some shape])%list in
    let loop_outputs_dtypes :=
      (loop_outputs_dtypes ++ [tvi_dtype tensor_value_info])%list in
    n <- read (fun g => flatten (option_map (get_node_by_output g)
                                            (tvi_id tensor_value_info))) ;;
    match n with
    | None => raise AttributeError
    | Some n =>
        remove_node (node_name n) ;;
        ret (loop_outputs_shapes, loop_outputs_dtypes)
    end
  else
    ret ((loop_outputs_shapes ++ [None])%list,
         (loop_outputs_dtypes ++ [None])%list).

Definition _create_scan_node (context : CustomRnnContext)
           (scan_props : LoopProperties) (init_values : list string)
  : M (option Node) :=
  '(loop_outputs_shapes, loop_outputs_dtypes) <-
    for_each collect_exit
             (state_outputs_exits scan_props ++ scan_outputs_exits scan_props)%list
             ([], []) ;;
  make_node "Scan" ("" :: init_values)
            [("num_scan_inputs",
              AttrInt (Z.of_nat (length (scan_inputs scan_props))))]
            (length (state_outputs scan_props ++ scan_outputs scan_props)%list)
            (Some loop_outputs_shapes) (Some loop_outputs_dtypes)
            (Some "custom_rnn_scan").

(** One turn of either loop of [_connect_scan_with_output]; the
    accumulator is [index]. *)
Definition connect_exit (target_name : string) (scan_node : Node)
           (index : nat) (out_tensor_value_info : TensorValueInfo) : M nat :=
  (if Py.truthy (tvi_id out_tensor_value_info) then
     scan_out <- output_at (Some scan_node) index ;;
     nodes <- _adapt_scan_sequence_input_or_output target_name scan_out true ;;
     new_id <- last_output nodes ;;
     match tvi_id out_tensor_value_info with
     | Some old_id => replace_all_inputs old_id new_id
     | None => ret tt
     end
   else ret tt) ;;
  ret (S index).

Definition _connect_scan_with_output (context : CustomRnnContext)
           (scan_node : Node) : M unit :=
  index <- for_each (connect_exit "state_output_reshape" scan_node)
                    (state_outputs_exits (loop_properties context)) 0 ;;
  for_each (connect_exit "scan_output_reshape" scan_node)
           (scan_outputs_exits (loop_properties context)) index ;;
  ret tt.

(** One turn of the loops of [rewrite] over the initial values. *)
Definition adapt_initial_value (acc : list string) (input_id : string)
  : M (list string) :=
  nodes <- _adapt_scan_sequence_input_or_output "input" input_id false ;;
  out <- last_output nodes ;;
  ret (acc ++ [out])%list.

Definition declare_inputs (b : BodyGraph) (inputs : list TensorValueInfo)
  : BodyGraph :=
  fold_left (fun b input_tensor_info =>
               add_graph_input b (tvi_id input_tensor_info)
                               (tvi_dtype input_tensor_info)
                               (tvi_shape input_tensor_info))
            inputs b.

(** The body of the [try] block of [rewrite]. *)
Definition rewrite_body (context : CustomRnnContext) : M REWRITER_RESULT :=
  let scan_props := loop_properties context in
  state_inputs_initial_values <-
    for_each adapt_initial_value (state_inputs_initial_values scan_props) [] ;;
  scan_inputs_initial_values <-
    for_each adapt_initial_value (scan_inputs_initial_values scan_props) [] ;;
  let cell_g_info := cell_graph context in
  scan_body_g <-
    construct_graph_from_nodes (gi_nodes cell_g_info) (gi_outputs cell_g_info) ;;
  let scan_body_g := declare_inputs scan_body_g (state_inputs scan_props) in
  let scan_body_g := declare_inputs scan_body_g (scan_inputs scan_props) in
  scan_node <-
    _create_scan_node context scan_props
      (state_inputs_initial_values ++ scan_inputs_initial_values)%list ;;
  match scan_node with
  | None => ret FAIL
  | Some scan_node =>
      set_body_graph_as_attr scan_node "body" scan_body_g ;;
      _connect_scan_with_output context scan_node ;;
      ret OK
  end.

Definition rewrite (context : CustomRnnContext) : M REWRITER_RESULT :=
  try_except (rewrite_body context) (fun _ => ret FAIL).

End Collaborator.

(** ** Vocabulary of the statements *)

(** The name of the node that feeds the Enter node of a loop variable. *)
Definition enter_input_name (g : Graph) (val : LoopVariable) : option string :=
  option_map node_name (get_node_by_output g (enter_input_id val)).

Definition named (g : Graph) (name : string) (val : LoopVariable) : bool :=
  match enter_input_name g val with
  | Some n => String.eqb n name
  | None => false
  end.

(** The declared tensor-array name of a sequence accumulator. *)
Definition declared_ta_name (g : Graph) (val : LoopVariable) : option string :=
  match get_node_by_output g (enter_input_id val) with
  | Some n => option_map attr_s (get_attr n "tensor_array_name")
  | None => None
  end.

(** The loop framework hands over variables whose Enter input is a node of
    the graph, and accumulators whose tensor array declares its name. *)
Definition resolved (g : Graph) (val : LoopVariable) : bool :=
  if is_tensor_array val then
    match declared_ta_name g val with Some _ => true | None => false end
  else
    match enter_input_name g val with Some _ => true | None => false end.

Definition loop_variables (context : CustomRnnContext) : list LoopVariable :=
  map snd (all_variables (loop_properties context)).

Definition well_formed_loop (g : Graph) (context : CustomRnnContext) : bool :=
  forallb (resolved g) (loop_variables context).

(** The scope the classifier derives for a loop. *)
Definition derived_scope (context : CustomRnnContext) : string :=
  _get_rnn_scope_name (while_context_scope context).

(** Not an accumulator, fed by the node called [time_name]. *)
Definition time_match (g : Graph) (time_name : string) (val : LoopVariable) : bool :=
  negb (is_tensor_array val) && named g time_name val.

(** Not an accumulator, fed by the node called [counter_name], and not
    taken by the earlier test for [time_name]. *)
Definition counter_match (g : Graph) (time_name counter_name : string)
           (val : LoopVariable) : bool :=
  negb (is_tensor_array val) && negb (named g time_name val)
  && named g counter_name val.

(** An accumulator whose declared name does not start with [prefix]. *)
Definition ta_mismatch (g : Graph) (prefix : string) (val : LoopVariable) : bool :=
  is_tensor_array val
  && match declared_ta_name g val with
     | Some ta_name => negb (Py.startswith ta_name prefix)
     | None => false
     end.

(** A step counter: not an accumulator, fed by the node [<scope>time]. *)
Definition is_step_counter (g : Graph) (scope : string) (val : LoopVariable) : bool :=
  time_match g (scope ++ "time") val.

(** An accumulator whose declared name lacks the prefix
    [<scope>dynamic_rnn/output_]. *)
Definition prefix_mismatch (g : Graph) (scope : string) (val : LoopVariable) : bool :=
  ta_mismatch g (scope ++ "dynamic_rnn/output_") val.

(** An accumulator whose declared name carries the prefix. *)
Definition prefix_match (g : Graph) (scope : string) (val : LoopVariable) : bool :=
  is_tensor_array val
  && match declared_ta_name g val with
     | Some ta_name => Py.startswith ta_name (scope ++ "dynamic_rnn/output_")
     | None => false
     end.

(** Not an accumulator, fed by the node [<where>iteration_counter]. *)
Definition is_iteration_counter (g : Graph) (where_ : string)
           (val : LoopVariable) : bool :=
  negb (is_tensor_array val) && named g (where_ ++ "iteration_counter") val.

(** The last element of a list that passes a test. *)
Definition find_last {A : Type} (f : A -> bool) (l : list A) : option A :=
  find f (rev l).

Fixpoint last_char (s : string) : option ascii :=
  match s with
  | EmptyString => None
  | String c EmptyString => Some c
  | String _ rest => last_char rest
  end.

(** The context once the loop of [_parse_rnn_loop] has gone through
    [vals]: the last step counter and the last iteration counter met are
    the ones recorded. *)
Definition classified (g : Graph) (time_name counter_name : string)
           (c : CustomRnnContext) (vals : list LoopVariable) : CustomRnnContext :=
  {| while_context_scope := while_context_scope c;
     loop_properties := loop_properties c;
     cell_graph := cell_graph c;
     rnn_scope := rnn_scope c;
     time_var := match find_last (time_match g time_name) vals with
                 | Some v => Some v
                 | None => time_var c
                 end;
     iteration_var :=
       match find_last (counter_match g time_name counter_name) vals with
       | Some v => Some v
       | None => iteration_var c
       end |}.

(** ** A dynamic_rnn loop

    The loop of the end-to-end scenario: a step counter, an iteration
    counter, one per-step state of shape [[4]] and one output accumulator
    of per-step shape [[4]], in a graph whose while loop lives in the scope
    [rnn/while/]. *)

Module Scenario.

Definition float_4 (id : string) : TensorValueInfo :=
  {| tvi_id := Some id;
     tvi_dtype := Some TensorProto.FLOAT;
     tvi_shape := Some [4%Z] |}.

Definition plain (name op_type : string) (inputs : list string) : Node :=
  {| node_name := name;
     node_type := op_type;
     node_input := inputs;
     node_output := [output_id name 0];
     node_attr := [] |}.

Definition tensor_array (name ta_name : string) : Node :=
  {| node_name := name;
     node_type := "TensorArrayV3";
     node_input := [];
     node_output := [output_id name 0; output_id name 1];
     node_attr := [("tensor_array_name", AttrBytes ta_name)] |}.

Definition graph : Graph :=
  {| g_nodes :=
       [ plain "rnn/time" "Const" [];
         plain "rnn/while/iteration_counter" "Const" [];
         plain "rnn/zeros" "Const" [];
         tensor_array "rnn/TensorArray" "rnn/dynamic_rnn/output_0";
         tensor_array "other/TensorArray" "other/dynamic_rnn/output_0";
         plain "rnn/iteration_counter" "Const" [];
         plain "x" "Placeholder" [];
         plain "batch" "Placeholder" [];
         plain "rnn/while/add" "Add" ["rnn/while/Identity_2:0";
                                      "rnn/while/TensorArrayReadV3:0"];
         plain "rnn/while/Exit_2" "Exit" ["rnn/while/Switch_2:0"];
         plain "rnn/while/Exit_3" "Exit" ["rnn/while/Switch_3:0"];
         plain "result" "Concat" ["rnn/while/Exit_2:0"; "rnn/while/Exit_3:0"] ];
     g_shapes :=
       [ ("rnn/zeros:0", Some [4%Z]);
         ("x:0", Some [5%Z; 4%Z]);
         ("batch:0", Some [2%Z; 5%Z; 4%Z]);
         ("ragged:0", Some [1%Z; (-1)%Z; (-1)%Z; 4%Z]);
         ("rnn/while/Exit_2:0", Some [4%Z]);
         ("rnn/while/Exit_3:0", Some [4%Z]) ];
     g_dtypes :=
       [ ("rnn/zeros:0", Some TensorProto.FLOAT);
         ("x:0", Some TensorProto.FLOAT) ];
     g_counter := 7 |}.

Definition variable (name input : string) (ta : bool) : LoopVariable :=
  {| enter_name := name;
     enter_input_id := input;
     is_tensor_array := ta;
     switch_true_identity_output :=
       {| tvi_id := None; tvi_dtype := None; tvi_shape := None |} |}.

Definition time : LoopVariable :=
  variable "rnn/while/Enter" "rnn/time:0" false.
Definition counter : LoopVariable :=
  variable "rnn/while/Enter_1" "rnn/while/iteration_counter:0" false.
Definition state : LoopVariable :=
  variable "rnn/while/Enter_2" "rnn/zeros:0" false.
Definition accumulator : LoopVariable :=
  variable "rnn/while/Enter_3" "rnn/TensorArray:0" true.

(** An accumulator declared in another scope. *)
Definition stranger : LoopVariable :=
  variable "rnn/while/Enter_4" "other/TensorArray:0" true.

(** A counter named after the derived scope instead of the while scope. *)
Definition misplaced_counter : LoopVariable :=
  variable "rnn/while/Enter_1" "rnn/iteration_counter:0" false.

Definition properties (vars : list LoopVariable)
           (state_exit scan_exit : TensorValueInfo) : LoopProperties :=
  {| all_variables := map (fun v => (enter_name v, v)) vars;
     tensor_array_inputs := ["rnn/TensorArray_1"];
     state_inputs := [float_4 "rnn/while/Identity_2:0"];
     state_inputs_initial_values := ["rnn/zeros:0"];
     state_outputs := [float_4 "rnn/while/add:0"];
     state_outputs_exits := [state_exit];
     scan_inputs := [float_4 "rnn/while/TensorArrayReadV3:0"];
     scan_inputs_initial_values := ["x:0"];
     scan_outputs := [float_4 "rnn/while/add:0"];
     scan_outputs_exits := [scan_exit] |}.

Definition cell : GraphInfo :=
  {| gi_nodes := ["rnn/while/add"];
     gi_outputs := [float_4 "rnn/while/add:0"; float_4 "rnn/while/add:0"] |}.

Definition context_of (vars : list LoopVariable)
           (state_exit scan_exit : TensorValueInfo) : CustomRnnContext :=
  loop_context "rnn/while/" (properties vars state_exit scan_exit) cell.

(** The loop of the scenario, both exits consumed. *)
Definition context : CustomRnnContext :=
  context_of [time; counter; state; accumulator]
             (float_4 "rnn/while/Exit_2:0") (float_4 "rnn/while/Exit_3:0").

(** The same loop produced by an older graph producer: no iteration
    counter. *)
Definition old_context : CustomRnnContext :=
  context_of [time; state; accumulator]
             (float_4 "rnn/while/Exit_2:0") (float_4 "rnn/while/Exit_3:0").

(** The loop with a second accumulator that belongs to another scope. *)
Definition mixed_context : CustomRnnContext :=
  context_of [time; counter; state; accumulator; stranger]
             (float_4 "rnn/while/Exit_2:0") (float_4 "rnn/while/Exit_3:0").

(** The loop with its counter named after the derived scope. *)
Definition misplaced_context : CustomRnnContext :=
  context_of [time; misplaced_counter; state; accumulator]
             (float_4 "rnn/while/Exit_2:0") (float_4 "rnn/while/Exit_3:0").

(** The loop whose final state nobody reads: the state exit has no id. *)
Definition unread_state_context : CustomRnnContext :=
  context_of [time; counter; state; accumulator]
             {| tvi_id := None;
                tvi_dtype := Some TensorProto.FLOAT;
                tvi_shape := Some [4%Z] |}
             (float_4 "rnn/while/Exit_3:0").

(** A graph that builds every node it is asked for. *)
Definition obliging : Graph -> string -> list string -> creation :=
  fun _ _ _ => Created.

(** A graph that raises when asked for a Scan node. *)
Definition scan_raises : Graph -> string -> list string -> creation :=
  fun _ op_type _ => if String.eqb op_type "Scan" then Refused else Created.

End Scenario.

(** The loop carries at least one sequence input. *)
Definition has_sequence_input (context : CustomRnnContext) : bool :=
  match tensor_array_inputs (loop_properties context) with
  | [] => false
  | _ :: _ => true
  end.

(** ** What the shape adapter builds

    The adapter first creates the nodes that compute the target shape (one
    of three stages, each starting with the Shape node on the input
    tensor), then the closing Reshape. *)

Definition first_output (n : Node) : string := hd EmptyString (node_output n).

Definition shape_node (g : Graph) (input_id : string) : Node :=
  new_node (g_counter g) "Shape" [input_id] [] 1 None.

(** Constant path: Shape, then the constant target shape [value]. *)
Definition constant_stage (g : Graph) (target_name input_id : string)
           (value : list Z) : Graph * list Node :=
  let sh := shape_node g input_id in
  let g1 := add_node g sh None None in
  let c := const_node
             (generated_name (target_name ++ "_target_shape") (g_counter g1))
             value in
  (add_const (bump g1) c (length value), [sh; c]).

(** Dynamic input path: Shape, the constant [[1]], and their Concat. *)
Definition concat_stage (g : Graph) (target_name input_id : string)
  : Graph * list Node :=
  let sh := shape_node g input_id in
  let g1 := add_node g sh None None in
  let c := const_node
             (generated_name (target_name ++ "_target_shape") (g_counter g1))
             [1%Z] in
  let g2 := add_const (bump g1) c 1 in
  let cat := new_node (g_counter g2) "Concat"
                      [first_output c; first_output sh]
                      [("axis", AttrInt 0)] 1 None in
  (add_node g2 cat None None, [sh; c; cat]).

(** Dynamic output path: Shape, Cast to float, Slice, Cast to int64. *)
Definition slice_stage (g : Graph) (input_id : string) : Graph * list Node :=
  let sh := shape_node g input_id in
  let g1 := add_node g sh None None in
  let cast := new_node (g_counter g1) "Cast" [first_output sh]
                       [("to", AttrInt TensorProto.FLOAT)] 1 None in
  let g2 := add_node g1 cast None None in
  let slice := new_node (g_counter g2) "Slice" [first_output cast]
                        [("axes", AttrInts [0%Z]); ("starts", AttrInts [1%Z]);
                         ("ends", AttrInts [Py.maxsize])] 1 None in
  let g3 := add_node g2 slice None None in
  let back := new_node (g_counter g3) "Cast" [first_output slice]
                       [("to", AttrInt TensorProto.INT64)] 1 None in
  (add_node g3 back None None, [sh; cast; slice; back]).

(** The closing Reshape, fed by the input tensor and by the last node of
    the stage, with [new_shape] as its declared output shape. *)
Definition reshape_node (stage : Graph * list Node)
           (target_name input_id : string) : Node :=
  new_node (g_counter (fst stage)) "Reshape"
           [input_id; first_output (last (snd stage) (shape_node (fst stage) input_id))]
           [] 1 (Some target_name).

Definition reshape_stage (stage : Graph * list Node)
           (target_name input_id : string) (new_shape : Shape)
  : Graph * list Node :=
  let r := reshape_node stage target_name input_id in
  (add_node (fst stage) r (Some [Some new_shape])
            (Some [get_dtype (fst stage) input_id]),
   (snd stage ++ [r])%list).

(** The result of a run of the adapter that returns the nodes of [st]. *)
Definition returned (st : Graph * list Node)
  : Graph * outcome (list (option Node)) :=
  (fst st, Return (map Some (snd st))).

(** ** The stages of [rewrite] *)

(** All exit tensors in the order [_create_scan_node] visits them. *)
Definition loop_exits (context : CustomRnnContext) : list TensorValueInfo :=
  (state_outputs_exits (loop_properties context)
   ++ scan_outputs_exits (loop_properties context))%list.

(** The first two loops of [rewrite]: the adapted initial values, state
    inputs first. *)
Definition initial_values (factory : Graph -> string -> list string -> creation)
           (context : CustomRnnContext) : M (list string) :=
  bind (for_each (adapt_initial_value factory)
                 (state_inputs_initial_values (loop_properties context)) [])
       (fun state_values =>
          bind (for_each (adapt_initial_value factory)
                         (scan_inputs_initial_values (loop_properties context)) [])
               (fun scan_values => ret (state_values ++ scan_values)%list)).

(** The body graph once its inputs are declared. *)
Definition scan_body_graph (context : CustomRnnContext) : BodyGraph :=
  declare_inputs
    (declare_inputs
       {| body_nodes := gi_nodes (cell_graph context);
          body_outputs := gi_outputs (cell_graph context);
          body_inputs := [] |}
       (state_inputs (loop_properties context)))
    (scan_inputs (loop_properties context)).

(** [rewrite] up to and including the call of [_create_scan_node]. *)
Definition scan_stage (factory : Graph -> string -> list string -> creation)
           (context : CustomRnnContext) : M (option Node) :=
  bind (initial_values factory context)
       (_create_scan_node factory context (loop_properties context)).

(** [rewrite] from the test of the scan node on. *)
Definition finish (factory : Graph -> string -> list string -> creation)
           (context : CustomRnnContext) (scan_node : option Node)
  : M REWRITER_RESULT :=
  match scan_node with
  | None => ret FAIL
  | Some scan_node =>
      bind (set_body_graph_as_attr scan_node "body" (scan_body_graph context))
           (fun _ => bind (_connect_scan_with_output factory context scan_node)
                          (fun _ => ret OK))
  end.

(** The request for the Scan node, given the declared shapes and dtypes
    collected from the exits. *)
Definition scan_request (factory : Graph -> string -> list string -> creation)
           (context : CustomRnnContext) (init_values : list string)
           (declared : list (option Shape) * list (option Z)) : M (option Node) :=
  make_node factory "Scan" (EmptyString :: init_values)
            [("num_scan_inputs",
              AttrInt (Z.of_nat (length (scan_inputs (loop_properties context)))))]
            (length (state_outputs (loop_properties context)
                     ++ scan_outputs (loop_properties context))%list)
            (Some (fst declared)) (Some (snd declared))
            (Some "custom_rnn_scan").

(** Computations that only append nodes to the graph. *)
Definition appends (g g' : Graph) : Prop :=
  exists extra, g_nodes g' = (g_nodes g ++ extra)%list.

Definition appending {A : Type} (m : M A) : Prop :=
  forall g, appends g (fst (m g)).

(** ** Frames

    What a stretch of the pass leaves alone: the supply only advances, and
    a tensor whose id the supply does not hand out keeps its declared
    shape. *)
Definition keeps_tensors (g g' : Graph) : Prop :=
  g_counter g <= g_counter g'
  /\ forall id, foreign (g_counter g) id = true ->
                get_shape g' id = get_shape g id.

(** [m] is [n] up to its inputs, which rewiring may have redirected. *)
Definition same_node (n m : Node) : Prop :=
  node_name m = node_name n
  /\ node_type m = node_type n
  /\ node_output m = node_output n
  /\ node_attr m = node_attr n.

Definition carries (g : Graph) (n : Node) : Prop :=
  exists m, In m (g_nodes g) /\ same_node n m.

(** ** Further vocabulary *)

(** The string has no ['/'] in it. *)
Definition slash_free (s : string) : bool :=
  forallb (fun c => negb (Ascii.eqb c "/")) (list_ascii_of_string s).

(** The number of ['/'] in a string. *)
Definition slashes (s : string) : nat :=
  length (filter (fun c => Ascii.eqb c "/") (list_ascii_of_string s)).

(** Some variable of the loop cannot be classified: its Enter input has no
    producer in the graph, or its tensor array declares no name. *)
Definition unresolved_loop (g : Graph) (context : CustomRnnContext) : bool :=
  existsb (fun val => negb (resolved g val)) (loop_variables context).

(** The dtype counterpart of [keeps_tensors]. *)
Definition keeps_dtypes (g g' : Graph) : Prop :=
  g_counter g <= g_counter g'
  /\ forall id, foreign (g_counter g) id = true ->
                get_dtype g' id = get_dtype g id.

(** The part of a shape the adapter counts unresolved dimensions in, and
    the shape it gives the adapted tensor. *)
Definition counted_part (handle_output : bool) (s : Shape) : Shape :=
  if handle_output then Py.from_1 s else s.

Definition adapted_shape (handle_output : bool) (s : Shape) : Shape :=
  if handle_output then Py.from_1 s else (1 :: s)%Z.

(** The shape and dtype [_create_scan_node] declares for the output that
    stands for an exit tensor: those of the exit with a leading axis of 1
    when the exit has an id, nothing otherwise. *)
Definition declared_shape (e : TensorValueInfo) : option Shape :=
  if Py.truthy (tvi_id e) then option_map (cons 1%Z) (tvi_shape e) else None.

Definition declared_dtype (e : TensorValueInfo) : option Z :=
  if Py.truthy (tvi_id e) then tvi_dtype e else None.

(** The initial values [rewrite] adapts, in the order it adapts them. *)
Definition loop_initial_values (context : CustomRnnContext) : list string :=
  (state_inputs_initial_values (loop_properties context)
   ++ scan_inputs_initial_values (loop_properties context))%list.

Definition shape_unknown (g : Graph) (id : string) : bool :=
  match get_shape g id with
  | None => true
  | Some _ => false
  end.

(** The loop carries nothing: no state, no sequence, no exit. *)
Definition carries_nothing (context : CustomRnnContext) : Prop :=
  state_inputs (loop_properties context) = []
  /\ state_inputs_initial_values (loop_properties context) = []
  /\ state_outputs (loop_properties context) = []
  /\ state_outputs_exits (loop_properties context) = []
  /\ scan_inputs (loop_properties context) = []
  /\ scan_inputs_initial_values (loop_properties context) = []
  /\ scan_outputs (loop_properties context) = []
  /\ scan_outputs_exits (loop_properties context) = [].

(** The Scan node of a loop that carries nothing, made when the supply is
    at [k]. *)
Definition bare_scan_node (context : CustomRnnContext) (k : nat) : Node :=
  {| node_name := scoped_name (Some "custom_rnn_scan") (generated_name "Scan" k);
     node_type := "Scan";
     node_input := [EmptyString];
     node_output := [];
     node_attr :=
       [("body", AttrGraph {| body_nodes := gi_nodes (cell_graph context);
                              body_outputs := gi_outputs (cell_graph context);
                              body_inputs := [] |});
        ("num_scan_inputs", AttrInt 0)] |}.

(** The graph of the scenario with a node that produces the tensor
    [ragged:0], whose declared shape has two unresolved dimensions past
    the leading axis. *)
Definition ragged_graph : Graph :=
  {| g_nodes := (g_nodes Scenario.graph
                 ++ [Scenario.plain "ragged" "Placeholder" []])%list;
     g_shapes := g_shapes Scenario.graph;
     g_dtypes := g_dtypes Scenario.graph;
     g_counter := g_counter Scenario.graph |}.

(** Rewiring of one input id: [old] becomes [new]. *)
Definition rewired (old new id : string) : string :=
  if String.eqb id old then new else id.

(** ** Strings *)

Lemma last_char_append (a : string) (c : ascii) (t : string) :
  last_char (a ++ String c t) = last_char (String c t).
Proof.
  induction a as [|x a IH]; [reflexivity|].
  change (String x a ++ String c t) with (String x (a ++ String c t)).
  cbn [last_char]. rewrite IH.
  destruct a; reflexivity.
Qed.

Lemma time_is_not_iteration_counter (scope where_ : string) :
  String.eqb (scope ++ "time") (where_ ++ "iteration_counter") = false.
Proof.
  apply String.eqb_neq. intros E.
  apply (f_equal last_char) in E.
  rewrite !last_char_append in E. discriminate.
Qed.

(** ** The pattern classifier *)

Lemma find_last_snoc {A : Type} (f : A -> bool) (l : list A) (x : A) :
  find_last f (l ++ [x]) = if f x then Some x else find_last f l.
Proof.
  unfold find_last. rewrite rev_app_distr. reflexivity.
Qed.

Section Classifier.

Variable g : Graph.
Variables time_name prefix counter_name : string.

(** What one turn of the loop does to the local variables and to the
    context, for a resolved variable. *)
Lemma parse_variable_resolved (st : ParseState) (val : LoopVariable) :
  resolved g val = true ->
  parse_variable g time_name prefix counter_name st val =
  ({| ps_context :=
        if time_match g time_name val
        then set_time_var (ps_context st) val
        else if counter_match g time_name counter_name val
             then set_iteration_var (ps_context st) val
             else ps_context st;
      found_time := found_time st || time_match g time_name val;
      is_rnn_out_ta :=
        if ta_mismatch g prefix val then Some false else is_rnn_out_ta st |},
   None).
Proof.
  unfold resolved, parse_variable, time_match, counter_match, ta_mismatch,
    named, declared_ta_name, enter_input_name.
  destruct st as [c ft ta]; cbn [ps_context found_time is_rnn_out_ta].
  destruct (is_tensor_array val); cbn [negb andb];
    destruct (get_node_by_output g (enter_input_id val)) as [n|];
    cbn [option_map]; try discriminate.
  - destruct (get_attr n "tensor_array_name") as [a|];
      cbn [option_map]; try discriminate.
    intros _. rewrite orb_false_r.
    destruct (Py.startswith (attr_s a) prefix); reflexivity.
  - intros _.
    destruct (String.eqb (node_name n) time_name); cbn [negb andb].
    + rewrite orb_true_r. reflexivity.
    + rewrite orb_false_r.
      destruct (String.eqb (node_name n) counter_name); reflexivity.
Qed.

(** The whole loop, by induction on the variables still to visit. *)
Lemma parse_variables_resolved (vals done : list LoopVariable)
      (c : CustomRnnContext) (ft : bool) (ta : option bool) :
  forallb (resolved g) vals = true ->
  parse_variables g time_name prefix counter_name vals
    {| ps_context := classified g time_name counter_name c done;
       found_time := ft;
       is_rnn_out_ta := ta |} =
  ({| ps_context := classified g time_name counter_name c (done ++ vals);
      found_time := ft || existsb (time_match g time_name) vals;
      is_rnn_out_ta :=
        if existsb (ta_mismatch g prefix) vals then Some false else ta |},
   None).
Proof.
  revert done ft ta.
  induction vals as [|val rest IH]; intros done ft ta Hres.
  - cbn. rewrite app_nil_r, orb_false_r. reflexivity.
  - cbn [forallb] in Hres. apply andb_prop in Hres as [Hval Hrest].
    cbn [parse_variables]. rewrite (parse_variable_resolved _ _ Hval).
    cbn [ps_context found_time is_rnn_out_ta].
    assert (Hctx :
      (if time_match g time_name val
       then set_time_var (classified g time_name counter_name c done) val
       else if counter_match g time_name counter_name val
            then set_iteration_var
                   (classified g time_name counter_name c done) val
            else classified g time_name counter_name c done)
      = classified g time_name counter_name c (done ++ [val])).
    { unfold classified, set_time_var, set_iteration_var.
      rewrite !find_last_snoc.
      cbn [while_context_scope loop_properties cell_graph rnn_scope
           time_var iteration_var].
      assert (Hc : counter_match g time_name counter_name val
                   = negb (time_match g time_name val)
                     && counter_match g time_name counter_name val).
      { unfold counter_match, time_match.
        destruct (is_tensor_array val), (named g time_name val);
          reflexivity. }
      destruct (time_match g time_name val).
      - rewrite Hc. reflexivity.
      - destruct (counter_match g time_name counter_name val); reflexivity. }
    rewrite Hctx, (IH (done ++ [val])%list _ _ Hrest), <- app_assoc.
    cbn [app existsb].
    rewrite orb_assoc.
    destruct (ta_mismatch g prefix val); cbn [orb]; [|reflexivity].
    destruct (existsb (ta_mismatch g prefix) rest); reflexivity.
Qed.

End Classifier.

Lemma classified_nil (g : Graph) (tn cn : string) (c : CustomRnnContext) :
  classified g tn cn c [] = c.
Proof. destruct c; reflexivity. Qed.

(** [need_rewrite] on a well-formed loop: it raises nothing, records the
    scope and the counters, and answers with the conjunction of the three
    tests of the source. *)
Lemma need_rewrite_well_formed (g : Graph) (context : CustomRnnContext) :
  well_formed_loop g context = true ->
  let scope := derived_scope context in
  let vals := loop_variables context in
  need_rewrite g context =
  (classified g (scope ++ "time")
              (while_context_scope context ++ "iteration_counter")
              (set_rnn_scope context scope) vals,
   Return (existsb (is_step_counter g scope) vals
           && negb (existsb (prefix_mismatch g scope) vals)
           && has_sequence_input context)).
Proof.
  intros Hwf scope vals.
  unfold need_rewrite, _parse_rnn_loop.
  cbn [rnn_scope set_rnn_scope while_context_scope loop_properties].
  fold (derived_scope context). fold scope.
  fold (loop_variables context). fold vals.
  rewrite <- (classified_nil g (scope ++ "time")
                (while_context_scope context ++ "iteration_counter")
                (set_rnn_scope context scope)) at 1.
  unfold set_rnn_scope at 1.
  rewrite (parse_variables_resolved g (scope ++ "time")
             (scope ++ "dynamic_rnn/output_")
             (while_context_scope context ++ "iteration_counter")
             vals [] _ false None Hwf).
  cbn [ps_context found_time is_rnn_out_ta app orb].
  change (existsb (is_step_counter g scope) vals)
    with (existsb (time_match g (scope ++ "time")) vals).
  change (existsb (prefix_mismatch g scope) vals)
    with (existsb (ta_mismatch g (scope ++ "dynamic_rnn/output_")) vals).
  destruct (existsb (time_match g (scope ++ "time")) vals) eqn:Htime;
    cbn [negb orb andb].
  - destruct (existsb (ta_mismatch g (scope ++ "dynamic_rnn/output_")) vals);
      cbn [negb orb andb]; [reflexivity|].
    unfold _parse_time_var, classified. cbn [time_var].
    destruct (find_last (time_match g (scope ++ "time")) vals) eqn:Hlast.
    + unfold has_sequence_input. cbn [loop_properties].
      destruct (tensor_array_inputs _); reflexivity.
    + exfalso. unfold find_last in Hlast.
      apply existsb_exists in Htime as [v [Hin Hv]].
      rewrite (find_none _ _ Hlast v) in Hv; [discriminate|].
      now apply in_rev in Hin.
  - destruct (existsb (ta_mismatch g (scope ++ "dynamic_rnn/output_")) vals);
      reflexivity.
Qed.

Lemma named_functional (g : Graph) (a b : string) (val : LoopVariable) :
  named g a val = true -> named g b val = true -> a = b.
Proof.
  unfold named. destruct (enter_input_name g val) as [n|]; [|discriminate].
  intros Ha Hb. apply String.eqb_eq in Ha, Hb. congruence.
Qed.

(** The test for the iteration counter comes after the test for the step
    counter, but the two names never coincide. *)
Lemma counter_match_iteration_counter (g : Graph) (scope where_ : string)
      (val : LoopVariable) :
  counter_match g (scope ++ "time") (where_ ++ "iteration_counter") val
  = is_iteration_counter g where_ val.
Proof.
  unfold counter_match, is_iteration_counter.
  destruct (is_tensor_array val); [reflexivity|]. cbn [negb andb].
  destruct (named g (scope ++ "time") val) eqn:Ht; [|reflexivity].
  destruct (named g (where_ ++ "iteration_counter") val) eqn:Hc; [|reflexivity].
  pose proof (named_functional _ _ _ _ Ht Hc) as E.
  apply String.eqb_eq in E.
  rewrite time_is_not_iteration_counter in E. discriminate.
Qed.

Lemma find_ext_in {A : Type} (f h : A -> bool) (l : list A) :
  (forall x, f x = h x) -> find f l = find h l.
Proof.
  intros E. induction l as [|x l IH]; [reflexivity|].
  cbn. rewrite E, IH. reflexivity.
Qed.

(** ** Generated identifiers *)

Lemma chars_append (a b : string) :
  list_ascii_of_string (a ++ b)
  = (list_ascii_of_string a ++ list_ascii_of_string b)%list.
Proof.
  induction a as [|c a IH]; [reflexivity|].
  cbn. now rewrite IH.
Qed.

Lemma append_assoc (a b c : string) : (a ++ b) ++ c = a ++ (b ++ c).
Proof.
  induction a as [|x a IH]; [reflexivity|].
  cbn. now rewrite IH.
Qed.

Lemma uint_digits (d : Decimal.uint) :
  forallb is_digit (list_ascii_of_string (NilEmpty.string_of_uint d)) = true.
Proof.
  induction d; cbn [NilEmpty.string_of_uint list_ascii_of_string forallb];
    try rewrite IHd; reflexivity.
Qed.

Lemma str_digits (n : nat) :
  forallb is_digit (rev (list_ascii_of_string (Py.str n))) = true.
Proof.
  apply forallb_forall. intros c Hc. apply in_rev in Hc.
  revert c Hc. apply forallb_forall. apply uint_digits.
Qed.

Lemma str_value (n : nat) :
  option_map Nat.of_uint (NilEmpty.uint_of_string (Py.str n)) = Some n.
Proof.
  unfold Py.str. rewrite NilEmpty.usu. cbn [option_map].
  now rewrite DecimalNat.Unsigned.of_to.
Qed.

Lemma str_not_empty (n : nat) : list_ascii_of_string (Py.str n) <> [].
Proof.
  intros E.
  assert (Hs : Py.str n = EmptyString).
  { rewrite <- (string_of_list_ascii_of_string (Py.str n)), E. reflexivity. }
  pose proof (str_value n) as Hv. rewrite Hs in Hv.
  cbn in Hv. injection Hv as <-. discriminate E.
Qed.

Lemma span_digits_stop (d : list ascii) (c : ascii) (r : list ascii) :
  forallb is_digit d = true -> is_digit c = false ->
  span_digits (d ++ c :: r) = (d, c :: r).
Proof.
  intros Hd Hc. induction d as [|x d IH].
  - cbn. now rewrite Hc.
  - cbn [forallb] in Hd. apply andb_prop in Hd as [Hx Hd].
    cbn [app span_digits]. rewrite Hx, (IH Hd). reflexivity.
Qed.

(** An output of a node named by the supply at [k] reads back as [k],
    whatever precedes the two underscores. *)
Lemma supply_index_output (pre : string) (k i : nat) :
  supply_index (output_id (pre ++ "__" ++ Py.str k) i) = Some k.
Proof.
  unfold supply_index, output_id.
  rewrite !chars_append, !rev_app_distr.
  cbn [list_ascii_of_string rev app].
  rewrite <- !app_assoc. cbn [app].
  rewrite (span_digits_stop _ ":"%char _ (str_digits i) eq_refl).
  cbv iota beta.
  rewrite (span_digits_stop _ "_"%char _ (str_digits k) eq_refl).
  pose proof (str_not_empty k) as Hne.
  destruct (rev (list_ascii_of_string (Py.str k))) as [|c dk] eqn:E.
  - exfalso. apply Hne.
    apply (f_equal (@rev ascii)) in E. now rewrite rev_involutive in E.
  - cbv iota beta. change (rev dk ++ [c])%list with (rev (c :: dk)).
    rewrite <- E, rev_involutive, string_of_list_ascii_of_string.
    apply str_value.
Qed.

Lemma supply_index_generated (scope : option string) (op : string) (k i : nat) :
  supply_index (output_id (scoped_name scope (generated_name op k)) i) = Some k.
Proof.
  unfold generated_name.
  destruct scope as [[|c s]|]; cbn [scoped_name]; try apply supply_index_output.
  replace (String c s ++ "_" ++ op ++ "__" ++ Py.str k)
    with ((String c s ++ "_" ++ op) ++ "__" ++ Py.str k)
    by now rewrite !append_assoc.
  apply supply_index_output.
Qed.

Lemma foreign_not_generated (k j : nat) (id : string) (scope : option string)
      (op : string) (i : nat) :
  foreign k id = true -> k <= j ->
  String.eqb id (output_id (scoped_name scope (generated_name op j)) i) = false.
Proof.
  intros Hf Hle. apply String.eqb_neq. intros ->.
  unfold foreign in Hf. rewrite supply_index_generated in Hf.
  apply Nat.ltb_lt in Hf. lia.
Qed.

Lemma foreign_mono (k k' : nat) (id : string) :
  foreign k id = true -> k <= k' -> foreign k' id = true.
Proof.
  unfold foreign. destruct (supply_index id) as [j|]; [|reflexivity].
  intros H Hle. apply Nat.ltb_lt in H. apply Nat.ltb_lt. lia.
Qed.

Lemma foreign_not_named (k j : nat) (id base : string) (i : nat) :
  foreign k id = true -> k <= j ->
  String.eqb id (output_id (generated_name base j) i) = false.
Proof. apply (foreign_not_generated k j id None base i). Qed.

(** ** Stepping through computations *)

Lemma bind_return {A B : Type} (m : M A) (k : A -> M B) (g g' : Graph) (a : A) :
  m g = (g', Return a) -> bind m k g = k a g'.
Proof. intros H. unfold bind. now rewrite H. Qed.

Lemma bind_raise {A B : Type} (m : M A) (k : A -> M B) (g g' : Graph) (e : Fault) :
  m g = (g', Raise e) -> bind m k g = (g', Raise e).
Proof. intros H. unfold bind. now rewrite H. Qed.

Lemma bind_assoc {A B C : Type} (m : M A) (f : A -> M B) (k : B -> M C)
      (g : Graph) :
  bind (bind m f) k g = bind m (fun x => bind (f x) k) g.
Proof. unfold bind. destruct (m g) as [g' [a|e]]; reflexivity. Qed.

Lemma get_shape_add_node_undeclared (g : Graph) (n : Node)
      (dtypes : option (list (option Z))) (id : string) :
  get_shape (add_node g n None dtypes) id = get_shape g id.
Proof. reflexivity. Qed.

(** ** The shape adapter on a graph that builds every node *)

Section Obliging.

Variable factory : Graph -> string -> list string -> creation.
Hypothesis obliging : forall g op_type inputs, factory g op_type inputs = Created.

Lemma make_node_created (op_type : string) (inputs : list string)
      (attr : list (string * AttrValue)) (output_count : nat)
      (shapes : option (list (option Shape)))
      (dtypes : option (list (option Z))) (scope : option string) (g : Graph) :
  make_node factory op_type inputs attr output_count shapes dtypes scope g
  = (add_node g (new_node (g_counter g) op_type inputs attr output_count scope)
              shapes dtypes,
     Return (Some (new_node (g_counter g) op_type inputs attr output_count
                            scope))).
Proof. unfold make_node. now rewrite obliging. Qed.

Lemma make_const_created (name : string) (value : list Z) (g : Graph) :
  make_const factory name value g
  = (add_const g (const_node name value) (length value),
     Return (Some (const_node name value))).
Proof. unfold make_const. now rewrite obliging. Qed.

Ltac step :=
  first
    [ rewrite bind_assoc
    | erewrite bind_return by apply make_node_created
    | erewrite bind_return by apply make_const_created
    | erewrite bind_return by reflexivity
    | progress cbv beta iota ].

Ltac enter Hs :=
  unfold _adapt_scan_sequence_input_or_output;
  step; step; cbv beta;
  rewrite get_shape_add_node_undeclared, Hs;
  cbn [static_enough].

(** Input direction, static shape with at most one unresolved
    dimension: constant target shape [[1] + shape]. *)
Lemma adapt_input_static (g : Graph) (target_name input_id : string) (s : Shape) :
  get_shape g input_id = Some s ->
  (Py.count s (-1) <= 1)%nat ->
  _adapt_scan_sequence_input_or_output factory target_name input_id false g
  = returned (reshape_stage (constant_stage g target_name input_id (1 :: s)%Z)
                            target_name input_id (1 :: s)%Z).
Proof.
  intros Hs Hc. apply Nat.leb_le in Hc.
  enter Hs. rewrite Hc. repeat step. reflexivity.
Qed.

(** Input direction, known shape with two or more unresolved
    dimensions: the target shape is computed by a Concat. *)
Lemma adapt_input_dynamic (g : Graph) (target_name input_id : string) (s : Shape) :
  get_shape g input_id = Some s ->
  (1 < Py.count s (-1))%nat ->
  _adapt_scan_sequence_input_or_output factory target_name input_id false g
  = returned (reshape_stage (concat_stage g target_name input_id)
                            target_name input_id (1 :: s)%Z).
Proof.
  intros Hs Hc. apply Nat.leb_gt in Hc.
  enter Hs. rewrite Hc. repeat step. reflexivity.
Qed.

(** Input direction, no static shape at all: the Concat is built, then
    [[1] + inferred_shape] faults. *)
Lemma adapt_input_unknown (g : Graph) (target_name input_id : string) :
  get_shape g input_id = None ->
  _adapt_scan_sequence_input_or_output factory target_name input_id false g
  = (fst (concat_stage g target_name input_id), Raise TypeError).
Proof.
  intros Hs. enter Hs. repeat step.
  erewrite bind_raise by reflexivity. reflexivity.
Qed.

(** Output direction, at most one unresolved dimension past the leading
    axis: constant target shape [shape[1:]]. *)
Lemma adapt_output_static (g : Graph) (target_name input_id : string) (s : Shape) :
  get_shape g input_id = Some s ->
  (Py.count (Py.from_1 s) (-1) <= 1)%nat ->
  _adapt_scan_sequence_input_or_output factory target_name input_id true g
  = returned (reshape_stage
                (constant_stage g target_name input_id (Py.from_1 s))
                target_name input_id (Py.from_1 s)).
Proof.
  intros Hs Hc. apply Nat.leb_le in Hc.
  enter Hs. rewrite Hc. repeat step. reflexivity.
Qed.

(** Output direction, two or more unresolved dimensions past the leading
    axis: Shape, Cast, Slice, Cast. *)
Lemma adapt_output_dynamic (g : Graph) (target_name input_id : string) (s : Shape) :
  get_shape g input_id = Some s ->
  (1 < Py.count (Py.from_1 s) (-1))%nat ->
  _adapt_scan_sequence_input_or_output factory target_name input_id true g
  = returned (reshape_stage (slice_stage g input_id)
                            target_name input_id (Py.from_1 s)).
Proof.
  intros Hs Hc. apply Nat.leb_gt in Hc.
  enter Hs. rewrite Hc. repeat step. reflexivity.
Qed.

(** Output direction, no static shape at all: the chain is built, then
    [inferred_shape[1:]] faults. *)
Lemma adapt_output_unknown (g : Graph) (target_name input_id : string) :
  get_shape g input_id = None ->
  _adapt_scan_sequence_input_or_output factory target_name input_id true g
  = (fst (slice_stage g input_id), Raise TypeError).
Proof.
  intros Hs. enter Hs. repeat step.
  erewrite bind_raise by reflexivity. reflexivity.
Qed.

End Obliging.

(** ** The stages of [rewrite] *)

Lemma rewrite_body_stages (factory : Graph -> string -> list string -> creation)
      (context : CustomRnnContext) (g : Graph) :
  rewrite_body factory context g
  = bind (scan_stage factory context) (finish factory context) g.
Proof.
  unfold rewrite_body, scan_stage, initial_values, finish, bind,
    construct_graph_from_nodes, ret, scan_body_graph.
  destruct (for_each _ (state_inputs_initial_values _) _ g) as [g1 [sv|e]];
    [|reflexivity].
  destruct (for_each _ (scan_inputs_initial_values _) _ g1) as [g2 [xv|e]];
    [|reflexivity].
  destruct (_create_scan_node _ _ _ _ g2) as [g3 [[n|]|e]]; reflexivity.
Qed.

Lemma create_scan_node_request
      (factory : Graph -> string -> list string -> creation)
      (context : CustomRnnContext) (init_values : list string)
      (g g' : Graph) (declared : list (option Shape) * list (option Z)) :
  for_each collect_exit (loop_exits context) ([], []) g = (g', Return declared) ->
  _create_scan_node factory context (loop_properties context) init_values g
  = scan_request factory context init_values declared g'.
Proof.
  intros H. unfold _create_scan_node.
  fold (loop_exits context).
  rewrite (bind_return _ _ _ _ _ H). destruct declared. reflexivity.
Qed.


(** ** Nodes are only appended by the adapter *)

Lemma appends_refl (g : Graph) : appends g g.
Proof. exists []. now rewrite app_nil_r. Qed.

Lemma appends_trans (g1 g2 g3 : Graph) :
  appends g1 g2 -> appends g2 g3 -> appends g1 g3.
Proof.
  intros [a Ha] [b Hb]. exists (a ++ b)%list.
  now rewrite Hb, Ha, app_assoc.
Qed.

Lemma appending_ret {A : Type} (a : A) : appending (ret a).
Proof. intros g. apply appends_refl. Qed.

Lemma appending_raise {A : Type} (e : Fault) : appending (@raise A e).
Proof. intros g. apply appends_refl. Qed.

Lemma appending_read {A : Type} (f : Graph -> A) : appending (read f).
Proof. intros g. apply appends_refl. Qed.

Lemma appending_bind {A B : Type} (m : M A) (k : A -> M B) :
  appending m -> (forall a, appending (k a)) -> appending (bind m k).
Proof.
  intros Hm Hk g. unfold bind.
  specialize (Hm g). destruct (m g) as [g1 [a|e]]; cbn [fst] in *.
  - eapply appends_trans; [exact Hm | apply Hk].
  - exact Hm.
Qed.

Lemma appending_make_name (base : string) : appending (make_name base).
Proof. intros g. exists []. cbn. now rewrite app_nil_r. Qed.

Lemma appending_on_list {A : Type} (f : Shape -> A) (s : option Shape) :
  appending (on_list f s).
Proof. destruct s; [apply appending_ret | apply appending_raise]. Qed.

Lemma appending_output_at (n : option Node) (i : nat) :
  appending (output_at n i).
Proof.
  unfold output_at. destruct n as [n|]; [|apply appending_raise].
  destruct (nth_error (node_output n) i);
    [apply appending_ret | apply appending_raise].
Qed.

Lemma appending_last_output (nodes : list (option Node)) :
  appending (last_output nodes).
Proof.
  unfold last_output. destruct (rev nodes);
    [apply appending_raise | apply appending_output_at].
Qed.

Lemma appending_for_each {A B : Type} (f : B -> A -> M B) (l : list A) :
  (forall acc x, appending (f acc x)) -> forall acc, appending (for_each f l acc).
Proof.
  intros Hf. induction l as [|x l IH]; intros acc; cbn [for_each].
  - apply appending_ret.
  - apply appending_bind; [apply Hf | exact IH].
Qed.

Section Appending.

Variable factory : Graph -> string -> list string -> creation.

Lemma appending_make_node (op_type : string) (inputs : list string)
      (attr : list (string * AttrValue)) (output_count : nat)
      (shapes : option (list (option Shape)))
      (dtypes : option (list (option Z))) (scope : option string) :
  appending (make_node factory op_type inputs attr output_count shapes dtypes
                       scope).
Proof.
  intros g. unfold make_node.
  destruct (factory g op_type inputs); cbn [fst]; try apply appends_refl.
  eexists. reflexivity.
Qed.

Lemma appending_make_const (name : string) (value : list Z) :
  appending (make_const factory name value).
Proof.
  intros g. unfold make_const.
  destruct (factory g "Const" []); cbn [fst]; try apply appends_refl.
  eexists. reflexivity.
Qed.

Ltac appending :=
  repeat first
    [ apply appending_ret | apply appending_raise | apply appending_read
    | apply appending_make_name | apply appending_make_node
    | apply appending_make_const | apply appending_on_list
    | apply appending_output_at | apply appending_last_output
    | apply appending_bind; [|intros]
    | match goal with
      | |- appending (if ?b then _ else _) => destruct b
      | |- appending (match ?x with (_, _) => _ end) => destruct x
      end ].

Lemma appending_adapt (target_name input_id : string) (handle_output : bool) :
  appending (_adapt_scan_sequence_input_or_output factory target_name input_id
                                                  handle_output).
Proof. unfold _adapt_scan_sequence_input_or_output. appending. Qed.

Lemma appending_initial_values (context : CustomRnnContext) :
  appending (initial_values factory context).
Proof.
  unfold initial_values.
  apply appending_bind; [|intros sv; apply appending_bind; [|intros xv]].
  - apply appending_for_each. intros acc x. unfold adapt_initial_value.
    apply appending_bind; [apply appending_adapt | intros; appending].
  - apply appending_for_each. intros acc x. unfold adapt_initial_value.
    apply appending_bind; [apply appending_adapt | intros; appending].
  - apply appending_ret.
Qed.

End Appending.

(** ** Removing the exit nodes *)

Lemma find_app_found {A : Type} (f : A -> bool) (l extra : list A) (x : A) :
  find f l = Some x -> find f (l ++ extra) = Some x.
Proof.
  induction l as [|y l IH]; [discriminate|].
  cbn. destruct (f y); auto.
Qed.

Lemma find_filter_kept {A : Type} (f keep : A -> bool) (l : list A) (x : A) :
  find f l = Some x -> keep x = true -> find f (filter keep l) = Some x.
Proof.
  induction l as [|y l IH]; [discriminate|].
  cbn [find filter]. destruct (f y) eqn:Hf.
  - intros [= ->] Hk. rewrite Hk. cbn [find]. now rewrite Hf.
  - intros Hx Hk. destruct (keep y); [cbn [find]; rewrite Hf|]; auto.
Qed.

Lemma find_all_false {A : Type} (f : A -> bool) (l : list A) :
  (forall x, In x l -> f x = false) -> find f l = None.
Proof.
  induction l as [|y l IH]; [reflexivity|].
  intros H. cbn. rewrite (H y (or_introl eq_refl)).
  apply IH. intros x Hx. apply H. now right.
Qed.

(** One turn of the loop over the exits that completes: the nodes of the
    graph afterwards are nodes of the graph before, and when the exit has an
    id none of them bears the name of the node that produced it. *)
Lemma collect_exit_removes (acc acc' : list (option Shape) * list (option Z))
      (e : TensorValueInfo) (g g' : Graph) :
  collect_exit acc e g = (g', Return acc') ->
  (Py.truthy (tvi_id e) = false /\ g' = g)
  \/ (exists id n,
        tvi_id e = Some id /\ Py.truthy (tvi_id e) = true
        /\ get_node_by_output g id = Some n
        /\ g_nodes g' = filter (fun m => negb (String.eqb (node_name m) (node_name n)))
                               (g_nodes g)).
Proof.
  unfold collect_exit. destruct acc as [shapes dtypes].
  destruct (Py.truthy (tvi_id e)) eqn:Ht.
  - destruct (tvi_id e) as [id|] eqn:Hid; [|discriminate].
    destruct (tvi_shape e) as [s|]; [|discriminate].
    unfold bind, on_list, ret, read. cbn [option_map flatten].
    destruct (get_node_by_output g id) as [n|] eqn:Hn; [|discriminate].
    cbn. intros [= <- _]. right. exists id, n. repeat split; assumption.
  - intros [= <- _]. left. split; reflexivity.
Qed.

Lemma collect_exits_remove (exits : list TensorValueInfo) :
  forall (acc acc' : list (option Shape) * list (option Z)) (g g' : Graph),
    for_each collect_exit exits acc g = (g', Return acc') ->
    (forall m, In m (g_nodes g') -> In m (g_nodes g))
    /\ (forall e id n,
          In e exits -> tvi_id e = Some id -> Py.truthy (tvi_id e) = true ->
          get_node_by_output g id = Some n ->
          forall m, In m (g_nodes g') -> node_name m <> node_name n).
Proof.
  induction exits as [|e0 rest IH]; intros acc acc' g g'.
  - cbn. intros [= <- _]. split; [auto|]. intros e id n [].
  - cbn [for_each]. unfold bind at 1.
    destruct (collect_exit acc e0 g) as [g1 [acc1|err]] eqn:H0; [|discriminate].
    intros Hrest. destruct (IH _ _ _ _ Hrest) as [Hsub Hgone].
    apply collect_exit_removes in H0.
    destruct H0 as [[Hf ->]|(id0 & n0 & Hid0 & Ht0 & Hn0 & Hnodes)].
    + split; [exact Hsub|].
      intros e id n [<-|Hin] Hid Ht Hn; [congruence|].
      now apply (Hgone e id n).
    + assert (Hsub1 : forall m, In m (g_nodes g1) ->
                                In m (g_nodes g)
                                /\ node_name m <> node_name n0).
      { intros m Hm. rewrite Hnodes in Hm. apply filter_In in Hm as [Hm Hne].
        split; [exact Hm|]. apply negb_true_iff, String.eqb_neq in Hne. exact Hne. }
      split; [intros m Hm; now apply Hsub1, Hsub|].
      intros e id n [<-|Hin] Hid Ht Hn m Hm.
      * assert (id = id0) by congruence. subst id.
        assert (n = n0) by congruence. subst n.
        now apply Hsub1, Hsub.
      * destruct (String.eqb (node_name n) (node_name n0)) eqn:Hsame.
        -- apply String.eqb_eq in Hsame. rewrite Hsame.
           now apply Hsub1, Hsub.
        -- apply (Hgone e id n Hin Hid Ht); [|exact Hm].
           unfold get_node_by_output. rewrite Hnodes.
           apply find_filter_kept; [exact Hn|]. now rewrite Hsame.
Qed.

(** ** Frames *)

Lemma keeps_trans (g1 g2 g3 : Graph) :
  keeps_tensors g1 g2 -> keeps_tensors g2 g3 -> keeps_tensors g1 g3.
Proof.
  intros [Hc1 Hs1] [Hc2 Hs2]. split; [lia|].
  intros id Hf. rewrite Hs2, Hs1; auto.
  eapply foreign_mono; eassumption.
Qed.

Lemma keeps_same (g g' : Graph) :
  g_shapes g' = g_shapes g -> g_counter g' = g_counter g -> keeps_tensors g g'.
Proof.
  intros Hs Hc. split; [lia|]. intros id _. unfold get_shape. now rewrite Hs.
Qed.

Lemma lookup_skip {A : Type} (id : string) (new old : list (string * A)) :
  (forall k v, In (k, v) new -> String.eqb id k = false) ->
  lookup id (new ++ old) = lookup id old.
Proof.
  induction new as [|[k v] new IH]; intros H; [reflexivity|].
  cbn [app lookup]. rewrite (H k v (or_introl eq_refl)).
  apply IH. intros k' v' Hin. apply (H k' v'). now right.
Qed.

Lemma new_node_outputs (k : nat) (op_type : string) (inputs : list string)
      (attr : list (string * AttrValue)) (output_count : nat)
      (scope : option string) (o : string) :
  In o (node_output (new_node k op_type inputs attr output_count scope)) ->
  supply_index o = Some k.
Proof.
  cbn [new_node node_output]. intros Hin.
  apply in_map_iff in Hin as [i [<- _]]. apply supply_index_generated.
Qed.

Lemma foreign_differs (k : nat) (id o : string) :
  foreign k id = true -> supply_index o = Some k -> String.eqb id o = false.
Proof.
  intros Hf Ho. apply String.eqb_neq. intros ->.
  unfold foreign in Hf. rewrite Ho in Hf. apply Nat.ltb_lt in Hf. lia.
Qed.

Lemma keeps_add_node (g : Graph) (op_type : string) (inputs : list string)
      (attr : list (string * AttrValue)) (output_count : nat)
      (scope : option string) (shapes : option (list (option Shape)))
      (dtypes : option (list (option Z))) :
  keeps_tensors g
    (add_node g (new_node (g_counter g) op_type inputs attr output_count scope)
              shapes dtypes).
Proof.
  split; [cbn; lia|]. intros id Hf.
  unfold get_shape, add_node. cbn [g_shapes]. f_equal.
  destruct shapes as [l|]; [|reflexivity]. cbn [bind_outputs].
  apply lookup_skip. intros k v Hin. apply in_combine_l in Hin.
  eapply foreign_differs; [exact Hf|]. eapply new_node_outputs, Hin.
Qed.

Lemma keeps_add_const (g : Graph) (base : string) (value : list Z) (len : nat) :
  keeps_tensors g
    (add_const (bump g) (const_node (generated_name base (g_counter g)) value)
               len).
Proof.
  split; [cbn; lia|]. intros id Hf.
  unfold get_shape, add_const. cbn [g_shapes bump bind_outputs const_node
                                    node_output combine app lookup].
  rewrite (foreign_not_named (g_counter g) (g_counter g) id base 0 Hf (le_n _)).
  reflexivity.
Qed.

Lemma keeps_constant_stage (g : Graph) (target_name input_id : string)
      (value : list Z) :
  keeps_tensors g (fst (constant_stage g target_name input_id value)).
Proof.
  unfold constant_stage. cbn [fst].
  eapply keeps_trans; [apply keeps_add_node | apply keeps_add_const].
Qed.

Lemma keeps_concat_stage (g : Graph) (target_name input_id : string) :
  keeps_tensors g (fst (concat_stage g target_name input_id)).
Proof.
  unfold concat_stage. cbn [fst].
  eapply keeps_trans; [apply keeps_add_node|].
  eapply keeps_trans; [apply keeps_add_const|].
  apply (keeps_add_node
           (add_const (bump (add_node g (shape_node g input_id) None None)) _ 1)).
Qed.

Lemma keeps_reshape_stage (st : Graph * list Node) (target_name input_id : string)
      (new_shape : Shape) :
  keeps_tensors (fst st) (fst (reshape_stage st target_name input_id new_shape)).
Proof. unfold reshape_stage, reshape_node. cbn [fst]. apply keeps_add_node. Qed.

Lemma appends_reshape_stage (g : Graph) (st : Graph * list Node)
      (target_name input_id : string) (new_shape : Shape) :
  appends g (fst st) ->
  appends g (fst (reshape_stage st target_name input_id new_shape)).
Proof.
  intros H. eapply appends_trans; [exact H|]. eexists. reflexivity.
Qed.

Lemma appends_constant_stage (g : Graph) (target_name input_id : string)
      (value : list Z) :
  appends g (fst (constant_stage g target_name input_id value)).
Proof.
  eexists. cbn [constant_stage fst add_const add_node bump g_nodes].
  rewrite <- app_assoc. reflexivity.
Qed.

(** Carrying a node along. *)

Lemma carries_appends (g g' : Graph) (n : Node) :
  appends g g' -> carries g n -> carries g' n.
Proof.
  intros [extra He] [m [Hin Hs]]. exists m. split; [|exact Hs].
  rewrite He. apply in_or_app. now left.
Qed.

Lemma carries_rewired (g : Graph) (old new : string) (n : Node) :
  carries g n -> carries (fst (replace_all_inputs old new g)) n.
Proof.
  intros [m [Hin Hs]]. exists (replace_input old new m). split.
  - cbn. now apply in_map.
  - exact Hs.
Qed.

(** ** Properties of the pattern classifier *)

(** C2, as the code has it: on a well-formed loop region that carries a
    step counter and at least one sequence input, and none of whose
    sequence accumulators has a declared name without the prefix
    [<derived scope>dynamic_rnn/output_], [need_rewrite] returns true. *)
Theorem need_rewrite_accepts (g : Graph) (context : CustomRnnContext) :
  well_formed_loop g context = true ->
  existsb (is_step_counter g (derived_scope context))
          (loop_variables context) = true ->
  existsb (prefix_mismatch g (derived_scope context))
          (loop_variables context) = false ->
  has_sequence_input context = true ->
  snd (need_rewrite g context) = Return true.
Proof.
  intros Hwf Htime Hmis Hin.
  rewrite (need_rewrite_well_formed g context Hwf).
  cbn [snd]. rewrite Htime, Hmis, Hin. reflexivity.
Qed.

Lemma need_rewrite_accepts_scenario :
  well_formed_loop Scenario.graph Scenario.context = true
  /\ snd (need_rewrite Scenario.graph Scenario.context) = Return true.
Proof.
  split; [reflexivity|].
  apply need_rewrite_accepts; reflexivity.
Defined.

(** C2 as stated fails: a step counter, a sequence input and a correctly
    prefixed accumulator do not suffice when another accumulator of the
    loop lacks the prefix. *)
Lemma need_rewrite_rejects_mixed_accumulators :
  let g := Scenario.graph in
  let context := Scenario.mixed_context in
  well_formed_loop g context = true
  /\ existsb (is_step_counter g (derived_scope context))
             (loop_variables context) = true
  /\ existsb (prefix_match g (derived_scope context))
             (loop_variables context) = true
  /\ has_sequence_input context = true
  /\ snd (need_rewrite g context) = Return false
  /\ snd (need_rewrite g context) <> Return true.
Proof.
  repeat split; try reflexivity.
  vm_compute. discriminate.
Qed.

(** C3: on a well-formed loop region one of whose sequence accumulators has
    a declared tensor-array name that does not start with
    [<derived scope>dynamic_rnn/output_], [need_rewrite] returns false: it
    answers, it does not raise. *)
Theorem need_rewrite_rejects_prefix_mismatch (g : Graph)
        (context : CustomRnnContext) :
  well_formed_loop g context = true ->
  existsb (prefix_mismatch g (derived_scope context))
          (loop_variables context) = true ->
  snd (need_rewrite g context) = Return false.
Proof.
  intros Hwf Hmis.
  rewrite (need_rewrite_well_formed g context Hwf).
  cbn [snd]. rewrite Hmis.
  now rewrite andb_false_r.
Qed.

Lemma need_rewrite_rejects_prefix_mismatch_scenario :
  existsb (prefix_mismatch Scenario.graph
                           (derived_scope Scenario.mixed_context))
          (loop_variables Scenario.mixed_context) = true
  /\ snd (need_rewrite Scenario.graph Scenario.mixed_context) = Return false.
Proof.
  split; [reflexivity|].
  apply need_rewrite_rejects_prefix_mismatch; reflexivity.
Defined.

(** C8, as the code has it: on a well-formed loop region the iteration
    variable recorded by [need_rewrite] is the last non-accumulator
    variable fed by the node named [<while scope>iteration_counter] (the
    scope of the while loop itself, not the derived scope), and is left as
    it was when there is none; in that case [need_rewrite] still returns
    true on a loop with a step counter, a sequence input and no prefix
    mismatch. *)
Theorem need_rewrite_iteration_counter (g : Graph)
        (context : CustomRnnContext) :
  well_formed_loop g context = true ->
  iteration_var (fst (need_rewrite g context))
  = match find_last (is_iteration_counter g (while_context_scope context))
                    (loop_variables context) with
    | Some v => Some v
    | None => iteration_var context
    end
  /\ (existsb (is_iteration_counter g (while_context_scope context))
              (loop_variables context) = false ->
      existsb (is_step_counter g (derived_scope context))
              (loop_variables context) = true ->
      existsb (prefix_mismatch g (derived_scope context))
              (loop_variables context) = false ->
      has_sequence_input context = true ->
      snd (need_rewrite g context) = Return true).
Proof.
  intros Hwf. split.
  - rewrite (need_rewrite_well_formed g context Hwf).
    cbn [fst classified iteration_var set_rnn_scope].
    unfold find_last.
    rewrite (find_ext_in _ _ _
               (counter_match_iteration_counter g (derived_scope context)
                  (while_context_scope context))).
    reflexivity.
  - intros _ Htime Hmis Hin.
    rewrite (need_rewrite_well_formed g context Hwf).
    cbn [snd]. rewrite Htime, Hmis, Hin. reflexivity.
Qed.

Lemma need_rewrite_iteration_counter_old_producer :
  well_formed_loop Scenario.graph Scenario.old_context = true
  /\ iteration_var (fst (need_rewrite Scenario.graph Scenario.old_context))
     = None
  /\ snd (need_rewrite Scenario.graph Scenario.old_context) = Return true.
Proof.
  split; [reflexivity|].
  destruct (need_rewrite_iteration_counter Scenario.graph Scenario.old_context)
    as [Hvar Hanswer]; [reflexivity|].
  split; [exact Hvar | apply Hanswer; reflexivity].
Defined.

(** C8 as stated fails: a variable fed by the node named
    [<derived scope>iteration_counter] is not recorded. *)
Lemma need_rewrite_ignores_counter_in_derived_scope :
  let g := Scenario.graph in
  let context := Scenario.misplaced_context in
  well_formed_loop g context = true
  /\ In Scenario.misplaced_counter (loop_variables context)
  /\ is_iteration_counter g (derived_scope context)
                          Scenario.misplaced_counter = true
  /\ iteration_var (fst (need_rewrite g context)) = None.
Proof.
  repeat split; try reflexivity.
  vm_compute. tauto.
Qed.

(** ** Properties of the shape adapter *)

Lemma lookup_same {A : Type} (k : string) (v : A) (d : list (string * A)) :
  lookup k ((k, v) :: d) = Some v.
Proof. cbn. now rewrite String.eqb_refl. Qed.

Lemma reshape_stage_shape (st : Graph * list Node) (target_name input_id : string)
      (new_shape : Shape) :
  get_shape (fst (reshape_stage st target_name input_id new_shape))
            (first_output (reshape_node st target_name input_id))
  = Some new_shape.
Proof.
  unfold get_shape, reshape_stage, add_node.
  cbn [fst g_shapes bind_outputs]. cbn [reshape_node new_node node_output map seq
                                        combine app first_output hd].
  now rewrite lookup_same.
Qed.

Lemma reshape_stage_last_output (st : Graph * list Node)
      (target_name input_id : string) (new_shape : Shape) (h : Graph) :
  last_output (map Some (snd (reshape_stage st target_name input_id new_shape))) h
  = (h, Return (first_output (reshape_node st target_name input_id))).
Proof.
  unfold last_output, reshape_stage. cbn [snd].
  rewrite map_app, rev_app_distr. reflexivity.
Qed.

Lemma count_static (B T D : Z) :
  B <> (-1)%Z -> T <> (-1)%Z -> D <> (-1)%Z ->
  Py.count [B; T; D] (-1) = 0.
Proof.
  intros HB HT HD. unfold Py.count. cbn [count_occ].
  destruct (Z.eq_dec B (-1)); [contradiction|].
  destruct (Z.eq_dec T (-1)); [contradiction|].
  destruct (Z.eq_dec D (-1)); [contradiction|].
  reflexivity.
Qed.

(** C5: on a graph that builds every node it is asked for, adapting a
    tensor of static shape [[B, T, D]] without unresolved dimension in the
    input direction returns a Shape node, a constant holding [[1, B, T, D]]
    and a Reshape of the tensor by that constant, whose output is declared
    with shape [[1, B, T, D]]; adapting that output in the output direction
    returns a Shape node, a constant holding [[B, T, D]] and a Reshape of
    the widened tensor by that constant, whose output is declared with
    shape [[B, T, D]].  The constants and the Reshape nodes are nodes of
    the graph. *)
Theorem adapt_round_trip (factory : Graph -> string -> list string -> creation)
        (g : Graph) (target_in target_out input_id : string) (B T D : Z) :
  (forall h op_type inputs, factory h op_type inputs = Created) ->
  get_shape g input_id = Some [B; T; D] ->
  B <> (-1)%Z -> T <> (-1)%Z -> D <> (-1)%Z ->
  exists g1 sh1 c1 r1 by_in widened g2 sh2 c2 r2 by_out restored,
    _adapt_scan_sequence_input_or_output factory target_in input_id false g
    = (g1, Return [Some sh1; Some c1; Some r1])
    /\ (forall h, last_output [Some sh1; Some c1; Some r1] h
                  = (h, Return widened))
    /\ (In c1 (g_nodes g1)
        /\ node_type c1 = "Const"
        /\ get_attr c1 "value"
           = Some (AttrTensor TensorProto.INT64 [1%Z; B; T; D])
        /\ node_output c1 = [by_in])
    /\ (In r1 (g_nodes g1)
        /\ node_type r1 = "Reshape"
        /\ node_input r1 = [input_id; by_in]
        /\ node_output r1 = [widened])
    /\ get_shape g1 widened = Some [1%Z; B; T; D]
    /\ _adapt_scan_sequence_input_or_output factory target_out widened true g1
       = (g2, Return [Some sh2; Some c2; Some r2])
    /\ (forall h, last_output [Some sh2; Some c2; Some r2] h
                  = (h, Return restored))
    /\ (In c2 (g_nodes g2)
        /\ node_type c2 = "Const"
        /\ get_attr c2 "value" = Some (AttrTensor TensorProto.INT64 [B; T; D])
        /\ node_output c2 = [by_out])
    /\ (In r2 (g_nodes g2)
        /\ node_type r2 = "Reshape"
        /\ node_input r2 = [widened; by_out]
        /\ node_output r2 = [restored])
    /\ get_shape g2 restored = Some [B; T; D].
Proof.
  intros obliging Hs HB HT HD.
  pose proof (count_static B T D HB HT HD) as Hc.
  set (c1 := constant_stage g target_in input_id [1%Z; B; T; D]).
  set (st1 := reshape_stage c1 target_in input_id [1%Z; B; T; D]).
  set (widened := first_output (reshape_node c1 target_in input_id)).
  assert (Hw : get_shape (fst st1) widened = Some [1%Z; B; T; D])
    by apply reshape_stage_shape.
  set (c2 := constant_stage (fst st1) target_out widened [B; T; D]).
  set (st2 := reshape_stage c2 target_out widened [B; T; D]).
  exists (fst st1), (shape_node g input_id),
         (last (snd c1) (shape_node g input_id)),
         (reshape_node c1 target_in input_id),
         (first_output (last (snd c1) (shape_node g input_id))), widened,
         (fst st2), (shape_node (fst st1) widened),
         (last (snd c2) (shape_node (fst st1) widened)),
         (reshape_node c2 target_out widened),
         (first_output (last (snd c2) (shape_node (fst st1) widened))),
         (first_output (reshape_node c2 target_out widened)).
  split; [|split; [|split; [|split; [|split; [|split; [|split; [|split;
    [|split]]]]]]]].
  - rewrite (adapt_input_static factory obliging g target_in input_id _ Hs)
      by (rewrite Hc; lia).
    reflexivity.
  - intros h.
    exact (reshape_stage_last_output c1 target_in input_id [1%Z; B; T; D] h).
  - repeat split; try reflexivity.
    cbn [st1 c1 reshape_stage constant_stage fst snd add_node add_const bump
         g_nodes last].
    apply in_or_app. left. apply in_or_app. right. left. reflexivity.
  - repeat split; try reflexivity.
    cbn [st1 reshape_stage fst add_node g_nodes].
    apply in_or_app. right. left. reflexivity.
  - exact Hw.
  - rewrite (adapt_output_static factory obliging _ target_out widened _ Hw)
      by (cbn [Py.from_1 skipn]; rewrite Hc; lia).
    reflexivity.
  - intros h.
    exact (reshape_stage_last_output c2 target_out widened [B; T; D] h).
  - repeat split; try reflexivity.
    cbn [st2 c2 reshape_stage constant_stage fst snd add_node add_const bump
         g_nodes last].
    apply in_or_app. left. apply in_or_app. right. left. reflexivity.
  - repeat split; try reflexivity.
    cbn [st2 reshape_stage fst add_node g_nodes].
    apply in_or_app. right. left. reflexivity.
  - apply reshape_stage_shape.
Qed.

Lemma adapt_round_trip_batch :
  exists g1 sh1 c1 r1 by_in widened g2 sh2 c2 r2 by_out restored,
    _adapt_scan_sequence_input_or_output Scenario.obliging "input" "batch:0"
                                         false Scenario.graph
    = (g1, Return [Some sh1; Some c1; Some r1])
    /\ (forall h, last_output [Some sh1; Some c1; Some r1] h
                  = (h, Return widened))
    /\ (In c1 (g_nodes g1)
        /\ node_type c1 = "Const"
        /\ get_attr c1 "value"
           = Some (AttrTensor TensorProto.INT64 [1%Z; 2%Z; 5%Z; 4%Z])
        /\ node_output c1 = [by_in])
    /\ (In r1 (g_nodes g1)
        /\ node_type r1 = "Reshape"
        /\ node_input r1 = ["batch:0"; by_in]
        /\ node_output r1 = [widened])
    /\ get_shape g1 widened = Some [1%Z; 2%Z; 5%Z; 4%Z]
    /\ _adapt_scan_sequence_input_or_output Scenario.obliging
                                            "scan_output_reshape" widened true g1
       = (g2, Return [Some sh2; Some c2; Some r2])
    /\ (forall h, last_output [Some sh2; Some c2; Some r2] h
                  = (h, Return restored))
    /\ (In c2 (g_nodes g2)
        /\ node_type c2 = "Const"
        /\ get_attr c2 "value"
           = Some (AttrTensor TensorProto.INT64 [2%Z; 5%Z; 4%Z])
        /\ node_output c2 = [by_out])
    /\ (In r2 (g_nodes g2)
        /\ node_type r2 = "Reshape"
        /\ node_input r2 = [widened; by_out]
        /\ node_output r2 = [restored])
    /\ get_shape g2 restored = Some [2%Z; 5%Z; 4%Z].
Proof.
  apply adapt_round_trip; try reflexivity; lia.
Defined.

(** C6: on a graph that builds every node it is asked for, the output
    direction on a tensor whose known static shape has two or more
    unresolved dimensions past the leading axis returns five nodes of the
    graph, each with one output that is the input of the next: a Shape node
    on the tensor, a Cast of its output to float, a Slice of that from
    index 1 on along axis 0, a Cast of the slice back to int64, and a
    Reshape whose inputs are the tensor and that computed shape; no
    constant is involved. *)
Theorem adapt_output_two_unresolved
        (factory : Graph -> string -> list string -> creation)
        (g : Graph) (target_name input_id : string) (s : Shape) :
  (forall h op_type inputs, factory h op_type inputs = Created) ->
  get_shape g input_id = Some s ->
  2 <= Py.count (Py.from_1 s) (-1) ->
  exists g' sh cast slice back reshape
         full as_float sliced computed adapted,
    _adapt_scan_sequence_input_or_output factory target_name input_id true g
    = (g', Return [Some sh; Some cast; Some slice; Some back; Some reshape])
    /\ (node_type sh = "Shape" /\ node_input sh = [input_id]
        /\ node_output sh = [full])
    /\ (node_type cast = "Cast" /\ node_input cast = [full]
        /\ node_output cast = [as_float]
        /\ get_attr cast "to" = Some (AttrInt TensorProto.FLOAT))
    /\ (node_type slice = "Slice" /\ node_input slice = [as_float]
        /\ node_output slice = [sliced]
        /\ get_attr slice "axes" = Some (AttrInts [0%Z])
        /\ get_attr slice "starts" = Some (AttrInts [1%Z])
        /\ get_attr slice "ends" = Some (AttrInts [Py.maxsize]))
    /\ (node_type back = "Cast" /\ node_input back = [sliced]
        /\ node_output back = [computed]
        /\ get_attr back "to" = Some (AttrInt TensorProto.INT64))
    /\ (node_type reshape = "Reshape"
        /\ node_input reshape = [input_id; computed]
        /\ node_output reshape = [adapted]
        /\ get_shape g' adapted = Some (Py.from_1 s))
    /\ (forall n, In n [sh; cast; slice; back; reshape] -> In n (g_nodes g'))
    /\ (forall n, In n [sh; cast; slice; back; reshape] ->
                  node_type n <> "Const").
Proof.
  intros obliging Hs Hc.
  rewrite (adapt_output_dynamic factory obliging g target_name input_id s Hs)
    by lia.
  do 11 eexists. split; [reflexivity|].
  repeat split; try reflexivity.
  - apply (reshape_stage_shape (slice_stage g input_id)).
  - intros n Hn. cbn [reshape_stage slice_stage fst snd add_node g_nodes].
    rewrite <- !app_assoc. apply in_or_app. right. exact Hn.
  - intros n [<-|[<-|[<-|[<-|[<-|[]]]]]]; discriminate.
Qed.

Lemma adapt_output_two_unresolved_ragged :
  get_node_by_output ragged_graph "ragged:0"
  = Some (Scenario.plain "ragged" "Placeholder" [])
  /\ exists g' sh cast slice back reshape
            full as_float sliced computed adapted,
    _adapt_scan_sequence_input_or_output Scenario.obliging
      "scan_output_reshape" "ragged:0" true ragged_graph
    = (g', Return [Some sh; Some cast; Some slice; Some back; Some reshape])
    /\ (node_type sh = "Shape" /\ node_input sh = ["ragged:0"]
        /\ node_output sh = [full])
    /\ (node_type cast = "Cast" /\ node_input cast = [full]
        /\ node_output cast = [as_float]
        /\ get_attr cast "to" = Some (AttrInt TensorProto.FLOAT))
    /\ (node_type slice = "Slice" /\ node_input slice = [as_float]
        /\ node_output slice = [sliced]
        /\ get_attr slice "axes" = Some (AttrInts [0%Z])
        /\ get_attr slice "starts" = Some (AttrInts [1%Z])
        /\ get_attr slice "ends" = Some (AttrInts [Py.maxsize]))
    /\ (node_type back = "Cast" /\ node_input back = [sliced]
        /\ node_output back = [computed]
        /\ get_attr back "to" = Some (AttrInt TensorProto.INT64))
    /\ (node_type reshape = "Reshape"
        /\ node_input reshape = ["ragged:0"; computed]
        /\ node_output reshape = [adapted]
        /\ get_shape g' adapted = Some [(-1)%Z; (-1)%Z; 4%Z])
    /\ (forall n, In n [sh; cast; slice; back; reshape] -> In n (g_nodes g'))
    /\ (forall n, In n [sh; cast; slice; back; reshape] ->
                  node_type n <> "Const").
Proof.
  split; [reflexivity|].
  apply (adapt_output_two_unresolved Scenario.obliging ragged_graph
           "scan_output_reshape" "ragged:0" [1%Z; (-1)%Z; (-1)%Z; 4%Z]);
    reflexivity.
Defined.

(** C7 fails on the code: in the input direction, on a tensor without any
    static shape, the adapter builds the Shape node, the constant [[1]] and
    the Concat, and then raises [TypeError] at [[1] + inferred_shape]; no
    Reshape is built and no node sequence is returned. *)
Theorem adapt_input_unknown_shape_raises :
  get_shape Scenario.graph "rnn/time:0" = None
  /\ snd (_adapt_scan_sequence_input_or_output Scenario.obliging "input"
            "rnn/time:0" false Scenario.graph) = Raise TypeError
  /\ map node_type
         (skipn (length (g_nodes Scenario.graph))
                (g_nodes (fst (_adapt_scan_sequence_input_or_output
                                 Scenario.obliging "input" "rnn/time:0" false
                                 Scenario.graph))))
     = ["Shape"; "Const"; "Concat"].
Proof. repeat split. Qed.

Lemma distinct_supply_index (a b : string) :
  supply_index a <> supply_index b -> a <> b.
Proof. intros H E. apply H. now rewrite E. Qed.

(** The id of the Shape node's output was never handed out before, and
    differs from the id of the constant made right after it. *)
Lemma shape_output_fresh (g : Graph) (target_name input_id : string)
      (value : list Z) :
  foreign (g_counter g) input_id = true ->
  let stage := constant_stage g target_name input_id value in
  ~ In (first_output (shape_node g input_id))
       (node_input (reshape_node stage target_name input_id)).
Proof.
  intros Hf stage [E|[E|[]]].
  - change (first_output (shape_node g input_id))
      with (output_id (scoped_name None (generated_name "Shape" (g_counter g))) 0)
      in E.
    apply String.eqb_eq in E.
    rewrite (foreign_not_generated (g_counter g) (g_counter g) input_id None
               "Shape" 0 Hf (le_n _)) in E. discriminate.
  - revert E. apply distinct_supply_index.
    cbn [stage constant_stage snd last first_output const_node node_output hd
         add_node g_counter].
    change (first_output (shape_node g input_id))
      with (output_id (scoped_name None (generated_name "Shape" (g_counter g))) 0).
    change (generated_name (target_name ++ "_target_shape") (S (g_counter g)))
      with (scoped_name None
              (generated_name (target_name ++ "_target_shape")
                              (S (g_counter g)))).
    rewrite !supply_index_generated. intros [= E]. lia.
Qed.

(** C10: on a graph that builds every node it is asked for, every call of
    the shape adapter, in either direction, appends a Shape node on the
    input tensor to the graph and, when it returns, returns it first.  On
    the constant-shape path, for an input tensor whose id the name supply
    does not hand out, the returned sequence is that Shape node, the
    constant and the Reshape, and the Shape node's output is an input of
    neither: the node is emitted unused. *)
Theorem adapt_emits_shape_node
        (factory : Graph -> string -> list string -> creation)
        (g : Graph) (target_name input_id : string) (handle_output : bool) :
  (forall h op_type inputs, factory h op_type inputs = Created) ->
  let run := _adapt_scan_sequence_input_or_output factory target_name input_id
                                                  handle_output g in
  let sh := shape_node g input_id in
  (node_type sh = "Shape" /\ node_input sh = [input_id])
  /\ (exists rest, g_nodes (fst run) = (g_nodes g ++ sh :: rest)%list)
  /\ (forall nodes, snd run = Return nodes -> hd_error nodes = Some (Some sh))
  /\ (static_enough (get_shape g input_id)
                    (if handle_output then Py.from_1 else fun s => s) = true ->
      foreign (g_counter g) input_id = true ->
      exists c reshape,
        snd run = Return [Some sh; Some c; Some reshape]
        /\ node_type c = "Const"
        /\ node_type reshape = "Reshape"
        /\ node_input reshape = (input_id :: node_output c)%list
        /\ ~ In (first_output sh) (node_input reshape)
        /\ ~ In (first_output sh) (node_input c)).
Proof.
  intros obliging run sh.
  split; [split; reflexivity|].
  subst run.
  destruct handle_output; destruct (get_shape g input_id) as [s|] eqn:Hs.
  - destruct (le_gt_dec (Py.count (Py.from_1 s) (-1)) 1) as [Hc|Hc].
    + rewrite (adapt_output_static factory obliging g target_name input_id s Hs Hc).
      split; [|split].
      * eexists. cbn [returned reshape_stage constant_stage fst add_node
                      add_const bump g_nodes].
        rewrite <- !app_assoc. reflexivity.
      * intros nodes [= <-]. reflexivity.
      * intros _ Hf. do 2 eexists.
        split; [reflexivity|]. repeat split; try reflexivity.
        -- apply shape_output_fresh, Hf.
        -- intros [].
    + rewrite (adapt_output_dynamic factory obliging g target_name input_id s Hs Hc).
      split; [|split].
      * eexists. cbn [returned reshape_stage slice_stage fst add_node g_nodes].
        rewrite <- !app_assoc. reflexivity.
      * intros nodes [= <-]. reflexivity.
      * cbn [static_enough]. intros Hst. apply Nat.leb_le in Hst. lia.
  - rewrite (adapt_output_unknown factory obliging g target_name input_id Hs).
    split; [|split].
    + eexists. cbn [slice_stage fst add_node g_nodes].
      rewrite <- !app_assoc. reflexivity.
    + intros nodes [=].
    + intros [=].
  - destruct (le_gt_dec (Py.count s (-1)) 1) as [Hc|Hc].
    + rewrite (adapt_input_static factory obliging g target_name input_id s Hs Hc).
      split; [|split].
      * eexists. cbn [returned reshape_stage constant_stage fst add_node
                      add_const bump g_nodes].
        rewrite <- !app_assoc. reflexivity.
      * intros nodes [= <-]. reflexivity.
      * intros _ Hf. do 2 eexists.
        split; [reflexivity|]. repeat split; try reflexivity.
        -- apply shape_output_fresh, Hf.
        -- intros [].
    + rewrite (adapt_input_dynamic factory obliging g target_name input_id s Hs Hc).
      split; [|split].
      * eexists. cbn [returned reshape_stage concat_stage fst add_node
                      add_const bump g_nodes].
        rewrite <- !app_assoc. reflexivity.
      * intros nodes [= <-]. reflexivity.
      * cbn [static_enough]. intros Hst. apply Nat.leb_le in Hst. lia.
  - rewrite (adapt_input_unknown factory obliging g target_name input_id Hs).
    split; [|split].
    + eexists. cbn [concat_stage fst add_node add_const bump g_nodes].
      rewrite <- !app_assoc. reflexivity.
    + intros nodes [=].
    + intros [=].
Qed.

Lemma adapt_emits_shape_node_batch :
  let run := _adapt_scan_sequence_input_or_output Scenario.obliging "input"
                                                  "batch:0" false Scenario.graph in
  let sh := shape_node Scenario.graph "batch:0" in
  (exists rest, g_nodes (fst run) = (g_nodes Scenario.graph ++ sh :: rest)%list)
  /\ exists c reshape,
       snd run = Return [Some sh; Some c; Some reshape]
       /\ node_type c = "Const"
       /\ node_type reshape = "Reshape"
       /\ node_input reshape = ("batch:0" :: node_output c)%list
       /\ ~ In (first_output sh) (node_input reshape)
       /\ ~ In (first_output sh) (node_input c).
Proof.
  destruct (adapt_emits_shape_node Scenario.obliging Scenario.graph "input"
              "batch:0" false) as (_ & Hnew & _ & Hunused).
  - intros h op_type inputs. reflexivity.
  - split; [exact Hnew|]. apply Hunused; reflexivity.
Defined.

(** ** Properties of [rewrite] *)






(** C9: when the adapted initial values are built, the loop over the exit
    tensors completes and the graph then does not build the Scan node,
    [rewrite] answers FAIL and leaves the graph as that loop left it: the
    Scan node was requested from a graph in which, for every exit tensor
    with a non-empty id, the node that produced it in the original graph
    is gone, and it stays gone. *)
Theorem rewrite_failure_leaves_exits_removed
        (factory : Graph -> string -> list string -> creation)
        (context : CustomRnnContext) (g g1 g2 : Graph)
        (init_values : list string)
        (declared : list (option Shape) * list (option Z)) :
  initial_values factory context g = (g1, Return init_values) ->
  for_each collect_exit (loop_exits context) ([], []) g1 = (g2, Return declared) ->
  factory g2 "Scan" (EmptyString :: init_values) <> Created ->
  _create_scan_node factory context (loop_properties context) init_values g1
  = scan_request factory context init_values declared g2
  /\ rewrite factory context g = (g2, Return FAIL)
  /\ (forall e id n,
        In e (loop_exits context) ->
        tvi_id e = Some id -> Py.truthy (tvi_id e) = true ->
        get_node_by_output g id = Some n ->
        In n (g_nodes g)
        /\ get_node_by_name g2 (node_name n) = None
        /\ g_nodes g2 <> g_nodes g).
Proof.
  intros Hinit Hloop Hfactory.
  pose proof (create_scan_node_request factory context init_values g1 g2
                declared Hloop) as Hcreate.
  split; [exact Hcreate|]. split.
  - unfold rewrite, try_except. rewrite rewrite_body_stages.
    unfold scan_stage. rewrite bind_assoc.
    rewrite (bind_return _ _ _ _ _ Hinit).
    unfold bind. rewrite Hcreate. unfold scan_request, make_node.
    destruct (factory g2 "Scan" (EmptyString :: init_values));
      [contradiction|reflexivity|reflexivity].
  - intros e id n He Hid Ht Hn.
    assert (Hin : In n (g_nodes g)) by (apply find_some in Hn; tauto).
    destruct (appending_initial_values factory context g) as [extra Hextra].
    rewrite Hinit in Hextra. cbn [fst] in Hextra.
    assert (Hn1 : get_node_by_output g1 id = Some n).
    { unfold get_node_by_output. rewrite Hextra. now apply find_app_found. }
    destruct (collect_exits_remove _ _ _ _ _ Hloop) as [_ Hgone].
    specialize (Hgone e id n He Hid Ht Hn1).
    assert (Hnone : get_node_by_name g2 (node_name n) = None).
    { apply find_all_false. intros m Hm. apply String.eqb_neq. now apply Hgone. }
    repeat split; [exact Hin | exact Hnone |].
    intros E. rewrite <- E in Hin. now apply (Hgone n Hin).
Qed.

Lemma rewrite_failure_scenario :
  rewrite Scenario.scan_raises Scenario.context Scenario.graph
  = (fst (rewrite Scenario.scan_raises Scenario.context Scenario.graph),
     Return FAIL)
  /\ get_node_by_name Scenario.graph "rnn/while/Exit_2"
     = Some (Scenario.plain "rnn/while/Exit_2" "Exit" ["rnn/while/Switch_2:0"])
  /\ get_node_by_name
       (fst (rewrite Scenario.scan_raises Scenario.context Scenario.graph))
       "rnn/while/Exit_2" = None.
Proof.
  edestruct (rewrite_failure_leaves_exits_removed Scenario.scan_raises
               Scenario.context Scenario.graph) as (_ & Hfail & Hgone).
  - vm_compute. reflexivity.
  - vm_compute. reflexivity.
  - vm_compute. discriminate.
  - rewrite Hfail. cbn [fst]. split; [reflexivity|]. split; [reflexivity|].
    apply (Hgone (Scenario.float_4 "rnn/while/Exit_2:0") "rnn/while/Exit_2:0"
                 (Scenario.plain "rnn/while/Exit_2" "Exit" ["rnn/while/Switch_2:0"])).
    + left. reflexivity.
    + reflexivity.
    + reflexivity.
    + reflexivity.
Defined.

(** ** The end-to-end scenario *)

Section EndToEnd.

Variable factory : Graph -> string -> list string -> creation.
Hypothesis obliging : forall h op_type inputs, factory h op_type inputs = Created.

(** An initial value of known static shape is adapted without fault,
    whichever path its shape selects. *)
Lemma adapt_initial_value_known (g : Graph) (acc : list string)
      (input_id : string) (s : Shape) :
  get_shape g input_id = Some s ->
  exists g' out,
    adapt_initial_value factory acc input_id g = (g', Return (acc ++ [out])%list)
    /\ appends g g' /\ keeps_tensors g g'.
Proof.
  intros Hs. unfold adapt_initial_value.
  destruct (le_gt_dec (Py.count s (-1)) 1) as [Hc|Hc].
  - rewrite (bind_return _ _ _ _ _
               (adapt_input_static factory obliging g "input" input_id s Hs Hc)).
    rewrite (bind_return _ _ _ _ _ (reshape_stage_last_output _ _ _ _ _)).
    do 2 eexists. split; [reflexivity|]. split.
    + apply appends_reshape_stage, appends_constant_stage.
    + eapply keeps_trans;
        [apply keeps_constant_stage | apply keeps_reshape_stage].
  - rewrite (bind_return _ _ _ _ _
               (adapt_input_dynamic factory obliging g "input" input_id s Hs Hc)).
    rewrite (bind_return _ _ _ _ _ (reshape_stage_last_output _ _ _ _ _)).
    do 2 eexists. split; [reflexivity|]. split.
    + apply appends_reshape_stage. eexists.
      cbn [concat_stage fst add_const add_node bump g_nodes].
      rewrite <- !app_assoc. reflexivity.
    + eapply keeps_trans;
        [apply keeps_concat_stage | apply keeps_reshape_stage].
Qed.

(** One exit with an id, a known shape and a producer: its declared shape
    and dtype are collected and its producer leaves the graph. *)
Lemma collect_exit_consumed (g : Graph)
      (acc : list (option Shape) * list (option Z)) (e : TensorValueInfo)
      (id : string) (s : Shape) (n : Node) :
  tvi_id e = Some id -> Py.truthy (tvi_id e) = true ->
  tvi_shape e = Some s ->
  get_node_by_output g id = Some n ->
  collect_exit acc e g
  = (fst (remove_node (node_name n) g),
     Return ((fst acc ++ [Some (1 :: s)%Z])%list,
             (snd acc ++ [tvi_dtype e])%list)).
Proof.
  intros Hid Ht Hs Hn. unfold collect_exit. destruct acc as [shapes dtypes].
  rewrite Ht, Hs, Hid. unfold bind, on_list, ret, read.
  cbn [option_map flatten]. rewrite Hn. reflexivity.
Qed.

(** Reconnecting one exit with an id to a scan output of declared shape
    [[1, 4]]: the constant path. *)
Lemma connect_exit_static (g : Graph) (target_name : string) (scan_node : Node)
      (index : nat) (e : TensorValueInfo) (id out : string) :
  tvi_id e = Some id -> Py.truthy (tvi_id e) = true ->
  nth_error (node_output scan_node) index = Some out ->
  get_shape g out = Some [1%Z; 4%Z] ->
  exists g',
    connect_exit factory target_name scan_node index e g = (g', Return (S index))
    /\ keeps_tensors g g'
    /\ (forall n, carries g n -> carries g' n).
Proof.
  intros Hid Ht Hout Hs. unfold connect_exit. rewrite Ht, Hid.
  rewrite bind_assoc. unfold output_at. rewrite Hout.
  rewrite (bind_return _ _ _ _ _ eq_refl).
  rewrite !bind_assoc.
  rewrite (bind_return _ _ _ _ _
             (adapt_output_static factory obliging g target_name out _ Hs
                (Nat.le_0_l 1))).
  rewrite !bind_assoc.
  rewrite (bind_return _ _ _ _ _ (reshape_stage_last_output _ _ _ _ _)).
  rewrite (bind_return _ _ _ _ _ eq_refl).
  eexists. split; [reflexivity|]. split.
  - eapply keeps_trans; [apply keeps_constant_stage|].
    eapply keeps_trans; [apply keeps_reshape_stage|].
    apply keeps_same; reflexivity.
  - intros n Hn. apply carries_rewired.
    eapply carries_appends; [|exact Hn].
    apply appends_reshape_stage, appends_constant_stage.
Qed.

Variables (g : Graph) (context : CustomRnnContext).
Variables state_in scan_in state_out scan_out state_exit scan_exit
  : TensorValueInfo.
Variables state_init scan_init state_exit_id scan_exit_id : string.
Variables state_shape scan_shape : Shape.
Variables state_exit_node scan_exit_node : Node.

(** C1, as the code has it: on a graph that builds every node it is asked
    for, take a loop region with one state variable and one
    sequence-accumulator pair (one entry in each state and scan list of its
    properties) such that both exit tensors have a non-empty id, the static
    shape [[4]] and distinct producers in the graph, both initial values
    have a known static shape, and the id of the scan initial value is not
    one the name supply hands out.  Then [rewrite] returns OK and the graph
    holds a Scan node whose [num_scan_inputs] is 1, which has exactly two
    outputs, each of declared shape [[1, 4]], and whose body graph declares
    exactly two inputs, the state input first and the scan input second. *)
Theorem rewrite_end_to_end :
  state_inputs (loop_properties context) = [state_in] ->
  scan_inputs (loop_properties context) = [scan_in] ->
  state_outputs (loop_properties context) = [state_out] ->
  scan_outputs (loop_properties context) = [scan_out] ->
  state_inputs_initial_values (loop_properties context) = [state_init] ->
  scan_inputs_initial_values (loop_properties context) = [scan_init] ->
  state_outputs_exits (loop_properties context) = [state_exit] ->
  scan_outputs_exits (loop_properties context) = [scan_exit] ->
  get_shape g state_init = Some state_shape ->
  get_shape g scan_init = Some scan_shape ->
  foreign (g_counter g) scan_init = true ->
  tvi_id state_exit = Some state_exit_id ->
  Py.truthy (tvi_id state_exit) = true ->
  tvi_shape state_exit = Some [4%Z] ->
  tvi_id scan_exit = Some scan_exit_id ->
  Py.truthy (tvi_id scan_exit) = true ->
  tvi_shape scan_exit = Some [4%Z] ->
  get_node_by_output g state_exit_id = Some state_exit_node ->
  get_node_by_output g scan_exit_id = Some scan_exit_node ->
  String.eqb (node_name scan_exit_node) (node_name state_exit_node) = false ->
  exists g' scan body out0 out1,
    rewrite factory context g = (g', Return OK)
    /\ In scan (g_nodes g')
    /\ node_type scan = "Scan"
    /\ get_attr scan "num_scan_inputs" = Some (AttrInt 1)
    /\ node_output scan = [out0; out1]
    /\ get_shape g' out0 = Some [1%Z; 4%Z]
    /\ get_shape g' out1 = Some [1%Z; 4%Z]
    /\ get_attr scan "body" = Some (AttrGraph body)
    /\ body_inputs body = [state_in; scan_in].
Proof.
  intros Hsi Hxi Hso Hxo Hsv Hxv Hse Hxe Hs1 Hs2 Hf2
         Hid1 Ht1 Hsh1 Hid2 Ht2 Hsh2 Hn1 Hn2 Hnames.
  (* the initial values *)
  destruct (adapt_initial_value_known g [] state_init state_shape Hs1)
    as (g1 & v1 & Hrun1 & Happ1 & Hkeep1).
  assert (Hs2' : get_shape g1 scan_init = Some scan_shape)
    by (rewrite <- Hs2; now apply Hkeep1).
  destruct (adapt_initial_value_known g1 [] scan_init scan_shape Hs2')
    as (g2 & v2 & Hrun2 & Happ2 & Hkeep2).
  assert (Hinit : initial_values factory context g = (g2, Return [v1; v2])).
  { unfold initial_values. rewrite Hsv, Hxv. cbn [for_each].
    rewrite bind_assoc, (bind_return _ _ _ _ _ Hrun1).
    rewrite (bind_return _ _ _ _ _ eq_refl).
    rewrite bind_assoc, (bind_return _ _ _ _ _ Hrun2).
    rewrite (bind_return _ _ _ _ _ eq_refl). reflexivity. }
  (* the exit nodes leave the graph *)
  assert (Hn1' : get_node_by_output g2 state_exit_id = Some state_exit_node).
  { destruct (appends_trans _ _ _ Happ1 Happ2) as [extra He].
    unfold get_node_by_output. rewrite He. now apply find_app_found. }
  set (g3 := fst (remove_node (node_name state_exit_node) g2)).
  assert (Hn2' : get_node_by_output g3 scan_exit_id = Some scan_exit_node).
  { destruct (appends_trans _ _ _ Happ1 Happ2) as [extra He].
    unfold get_node_by_output, g3. cbn [remove_node update fst g_nodes].
    apply find_filter_kept; [|now rewrite Hnames].
    rewrite He. now apply find_app_found. }
  set (g4 := fst (remove_node (node_name scan_exit_node) g3)).
  assert (Hloop :
    for_each collect_exit (loop_exits context) ([], []) g2
    = (g4, Return ([Some [1%Z; 4%Z]; Some [1%Z; 4%Z]],
                   [tvi_dtype state_exit; tvi_dtype scan_exit]))).
  { unfold loop_exits. rewrite Hse, Hxe. cbn [app for_each].
    rewrite (bind_return _ _ _ _ _
               (collect_exit_consumed g2 ([], []) state_exit state_exit_id
                  [4%Z] state_exit_node Hid1 Ht1 Hsh1 Hn1')).
    fold g3.
    rewrite (bind_return _ _ _ _ _
               (collect_exit_consumed g3 _ scan_exit scan_exit_id
                  [4%Z] scan_exit_node Hid2 Ht2 Hsh2 Hn2')).
    reflexivity. }
  (* the Scan node *)
  set (scan := new_node (g_counter g4) "Scan" [EmptyString; v1; v2]
                        [("num_scan_inputs", AttrInt 1)] 2
                        (Some "custom_rnn_scan")).
  set (g5 := add_node g4 scan (Some [Some [1%Z; 4%Z]; Some [1%Z; 4%Z]])
                      (Some [tvi_dtype state_exit; tvi_dtype scan_exit])).
  assert (Hstage : scan_stage factory context g = (g5, Return (Some scan))).
  { unfold scan_stage. rewrite (bind_return _ _ _ _ _ Hinit).
    rewrite (create_scan_node_request factory context _ g2 g4 _ Hloop).
    unfold scan_request. rewrite Hxi, Hso, Hxo.
    apply make_node_created, obliging. }
  set (out0 := output_id (node_name scan) 0).
  set (out1 := output_id (node_name scan) 1).
  assert (Houts : node_output scan = [out0; out1]) by reflexivity.
  assert (Hsup0 : supply_index out0 = Some (g_counter g4)).
  { apply (new_node_outputs (g_counter g4) "Scan" [EmptyString; v1; v2]
             [("num_scan_inputs", AttrInt 1)] 2 (Some "custom_rnn_scan")).
    left. reflexivity. }
  assert (Hsup1 : supply_index out1 = Some (g_counter g4)).
  { apply (new_node_outputs (g_counter g4) "Scan" [EmptyString; v1; v2]
             [("num_scan_inputs", AttrInt 1)] 2 (Some "custom_rnn_scan")).
    right. left. reflexivity. }
  (* the body graph *)
  set (body := scan_body_graph context).
  set (g6 := fst (set_body_graph_as_attr scan "body" body g5)).
  assert (Hshapes : g_shapes g6
                    = (out0, Some [1%Z; 4%Z]) :: (out1, Some [1%Z; 4%Z])
                      :: g_shapes g4) by reflexivity.
  assert (Hshape0 : get_shape g6 out0 = Some [1%Z; 4%Z]).
  { unfold get_shape. rewrite Hshapes. now rewrite lookup_same. }
  assert (Hshape1 : get_shape g6 out1 = Some [1%Z; 4%Z]).
  { unfold get_shape. rewrite Hshapes. cbn [lookup].
    destruct (String.eqb out1 out0); [reflexivity|].
    now rewrite String.eqb_refl. }
  assert (Hfor0 : foreign (g_counter g6) out0 = true).
  { unfold foreign. rewrite Hsup0. apply Nat.ltb_lt. cbn. lia. }
  assert (Hfor1 : foreign (g_counter g6) out1 = true).
  { unfold foreign. rewrite Hsup1. apply Nat.ltb_lt. cbn. lia. }
  set (scan' := {| node_name := node_name scan;
                   node_type := "Scan";
                   node_input := node_input scan;
                   node_output := [out0; out1];
                   node_attr := [("body", AttrGraph body);
                                 ("num_scan_inputs", AttrInt 1)] |}).
  assert (Hscan' : with_attr (node_name scan) "body" (AttrGraph body) scan
                   = scan').
  { unfold with_attr. now rewrite String.eqb_refl. }
  assert (Hcarry6 : carries g6 scan').
  { exists scan'. split; [|repeat split].
    unfold g6. cbn [set_body_graph_as_attr update fst g_nodes].
    rewrite <- Hscan'. apply in_map. unfold g5. cbn [add_node g_nodes].
    apply in_or_app. right. left. reflexivity. }
  (* the outputs are reconnected *)
  destruct (connect_exit_static g6 "state_output_reshape" scan 0 state_exit
              state_exit_id out0 Hid1 Ht1 eq_refl Hshape0)
    as (g7 & Hrun7 & Hkeep7 & Hcarry7).
  assert (Hshape1' : get_shape g7 out1 = Some [1%Z; 4%Z])
    by (rewrite <- Hshape1; now apply Hkeep7).
  destruct (connect_exit_static g7 "scan_output_reshape" scan 1 scan_exit
              scan_exit_id out1 Hid2 Ht2 eq_refl Hshape1')
    as (g8 & Hrun8 & Hkeep8 & Hcarry8).
  assert (Hfinish : finish factory context (Some scan) g5 = (g8, Return OK)).
  { unfold finish. fold body.
    rewrite (bind_return _ _ g5 g6 tt eq_refl).
    unfold _connect_scan_with_output. rewrite Hse, Hxe. cbn [for_each].
    rewrite !bind_assoc, (bind_return _ _ _ _ _ Hrun7).
    rewrite (bind_return _ _ _ _ _ eq_refl).
    rewrite !bind_assoc, (bind_return _ _ _ _ _ Hrun8).
    reflexivity. }
  destruct (Hcarry8 _ (Hcarry7 _ Hcarry6)) as (m & Hin & Hname & Htype & Hout & Hattr).
  exists g8, m, body, out0, out1.
  split; [|split; [exact Hin|split; [|split; [|split; [|split; [|split; [|split]]]]]]].
  - unfold rewrite, try_except. rewrite rewrite_body_stages.
    rewrite (bind_return _ _ _ _ _ Hstage), Hfinish. reflexivity.
  - rewrite Htype. reflexivity.
  - unfold get_attr. rewrite Hattr. reflexivity.
  - rewrite Hout. reflexivity.
  - rewrite <- Hshape0.
    apply (keeps_trans _ _ _ Hkeep7 Hkeep8). exact Hfor0.
  - rewrite <- Hshape1.
    apply (keeps_trans _ _ _ Hkeep7 Hkeep8). exact Hfor1.
  - unfold get_attr. rewrite Hattr. reflexivity.
  - unfold body, scan_body_graph. rewrite Hsi, Hxi.
    destruct state_in, scan_in. reflexivity.
Qed.


End EndToEnd.

Lemma rewrite_end_to_end_scenario :
  exists g' scan body out0 out1,
    rewrite Scenario.obliging Scenario.context Scenario.graph = (g', Return OK)
    /\ In scan (g_nodes g')
    /\ node_type scan = "Scan"
    /\ get_attr scan "num_scan_inputs" = Some (AttrInt 1)
    /\ node_output scan = [out0; out1]
    /\ get_shape g' out0 = Some [1%Z; 4%Z]
    /\ get_shape g' out1 = Some [1%Z; 4%Z]
    /\ get_attr scan "body" = Some (AttrGraph body)
    /\ body_inputs body = [Scenario.float_4 "rnn/while/Identity_2:0";
                           Scenario.float_4 "rnn/while/TensorArrayReadV3:0"].
Proof.
  apply (rewrite_end_to_end
           Scenario.obliging (fun _ _ _ => eq_refl)
           Scenario.graph Scenario.context
           (Scenario.float_4 "rnn/while/Identity_2:0")
           (Scenario.float_4 "rnn/while/TensorArrayReadV3:0")
           (Scenario.float_4 "rnn/while/add:0")
           (Scenario.float_4 "rnn/while/add:0")
           (Scenario.float_4 "rnn/while/Exit_2:0")
           (Scenario.float_4 "rnn/while/Exit_3:0")
           "rnn/zeros:0" "x:0" "rnn/while/Exit_2:0" "rnn/while/Exit_3:0"
           [4%Z] [5%Z; 4%Z]
           (Scenario.plain "rnn/while/Exit_2" "Exit" ["rnn/while/Switch_2:0"])
           (Scenario.plain "rnn/while/Exit_3" "Exit" ["rnn/while/Switch_3:0"]));
    reflexivity.
Defined.

(** C1 as stated fails: in the loop of the scenario whose final state
    nobody reads, the state exit has no id; [need_rewrite] accepts the loop
    and [rewrite] returns OK, but the first output of the Scan node is
    declared without a shape. *)
Lemma rewrite_unread_state_declares_no_shape :
  let g := Scenario.graph in
  let context := Scenario.unread_state_context in
  let result := rewrite Scenario.obliging context g in
  snd (need_rewrite g context) = Return true
  /\ map tvi_shape (state_inputs (loop_properties context)) = [Some [4%Z]]
  /\ map tvi_shape (loop_exits context) = [Some [4%Z]; Some [4%Z]]
  /\ map (get_shape g) (state_inputs_initial_values (loop_properties context))
     = [Some [4%Z]]
  /\ existsb (prefix_match g (derived_scope context)) (loop_variables context)
     = true
  /\ snd result = Return OK
  /\ exists scan out0 out1,
       filter (fun n => String.eqb (node_type n) "Scan") (g_nodes (fst result))
       = [scan]
       /\ node_output scan = [out0; out1]
       /\ get_shape (fst result) out0 = None
       /\ get_shape (fst result) out0 <> Some [1%Z; 4%Z].
Proof.
  repeat split; try reflexivity.
  do 3 eexists. split; [vm_compute; reflexivity|].
  split; [reflexivity|]. split; [reflexivity|]. discriminate.
Qed.

(** ** The derived scope *)

Lemma split_nonempty (sep : ascii) (s : string) : Py.split sep s <> [].
Proof.
  destruct s as [|c s]; cbn; [discriminate|].
  destruct (Ascii.eqb c sep); [discriminate|].
  destruct (Py.split sep s); discriminate.
Qed.

Lemma split_append (sep : ascii) (a b : string) :
  Py.split sep (a ++ String sep b)
  = (Py.split sep a ++ Py.split sep b)%list.
Proof.
  induction a as [|c a IH].
  - cbn. now rewrite Ascii.eqb_refl.
  - change (String c a ++ String sep b) with (String c (a ++ String sep b)).
    cbn [Py.split]. rewrite IH.
    destruct (Ascii.eqb c sep); [reflexivity|].
    pose proof (split_nonempty sep a) as Hne.
    destruct (Py.split sep a) as [|p ps]; [contradiction|]. reflexivity.
Qed.

Lemma split_slash_free (w : string) :
  slash_free w = true -> Py.split "/" w = [w].
Proof.
  unfold slash_free. induction w as [|c w IH]; [reflexivity|].
  cbn [list_ascii_of_string forallb]. intros H.
  apply andb_prop in H as [Hc Hw]. apply negb_true_iff in Hc.
  cbn [Py.split]. rewrite Hc, (IH Hw). reflexivity.
Qed.

Lemma concat_cons_char (sep : string) (c : ascii) (p : string)
      (ps : list string) :
  String.concat sep (String c p :: ps) = String c (String.concat sep (p :: ps)).
Proof. destruct ps; reflexivity. Qed.

(** Joining what was split gives the string back. *)
Lemma join_split (s : string) : Py.join "/" (Py.split "/" s) = s.
Proof.
  unfold Py.join. induction s as [|c s IH]; [reflexivity|].
  cbn [Py.split].
  pose proof (split_nonempty "/" s) as Hne.
  destruct (Ascii.eqb c "/") eqn:Hc.
  - apply Ascii.eqb_eq in Hc. subst c.
    destruct (Py.split "/" s) as [|p ps]; [contradiction|].
    cbn [String.concat]. cbn [String.concat] in IH. now rewrite IH.
  - destruct (Py.split "/" s) as [|p ps]; [contradiction|].
    rewrite concat_cons_char. now rewrite IH.
Qed.

Lemma firstn_all_but (A : Type) (l : list A) (x y : A) :
  Py.drop_last_two (l ++ [x; y]) = l.
Proof.
  unfold Py.drop_last_two. rewrite length_app. cbn [length].
  replace (length l + 2 - 2) with (length l) by lia.
  rewrite firstn_app, Nat.sub_diag, firstn_all. cbn. apply app_nil_r.
Qed.

(** X1: for a while scope of the form [<p>/<w1>/<w2>], where [w1] and [w2]
    hold no slash ([w2] is empty for a scope that ends with a slash), the
    derived scope is [<p>/]: the last two path components are dropped. *)
Theorem rnn_scope_drops_two_components (p w1 w2 : string) :
  slash_free w1 = true -> slash_free w2 = true ->
  _get_rnn_scope_name (p ++ "/" ++ w1 ++ "/" ++ w2) = p ++ "/".
Proof.
  intros H1 H2. unfold _get_rnn_scope_name.
  change (p ++ "/" ++ w1 ++ "/" ++ w2)
    with (p ++ String "/" (w1 ++ String "/" w2)).
  rewrite !split_append, (split_slash_free w1 H1), (split_slash_free w2 H2).
  cbn [app]. rewrite firstn_all_but. now rewrite join_split.
Qed.

Lemma rnn_scope_drops_two_components_nested :
  slash_free "while" = true /\ slash_free "" = true
  /\ _get_rnn_scope_name ("model/rnn" ++ "/" ++ "while" ++ "/" ++ "")
     = "model/rnn" ++ "/".
Proof.
  split; [reflexivity|]. split; [reflexivity|].
  apply rnn_scope_drops_two_components; reflexivity.
Defined.

Lemma split_length (s : string) :
  length (Py.split "/" s) = S (slashes s).
Proof.
  unfold slashes. induction s as [|c s IH]; [reflexivity|].
  cbn [Py.split list_ascii_of_string filter].
  destruct (Ascii.eqb c "/").
  - cbn [length]. now rewrite IH.
  - pose proof (split_nonempty "/" s) as Hne.
    destruct (Py.split "/" s) as [|q qs]; [contradiction|].
    cbn [length] in *. exact IH.
Qed.

(** X2: a while scope with fewer than two slashes has no two components to
    drop and keeps nothing: the derived scope is ["/"]. *)
Theorem rnn_scope_of_short_scope (s : string) :
  slashes s <= 1 -> _get_rnn_scope_name s = "/".
Proof.
  intros H. unfold _get_rnn_scope_name, Py.drop_last_two.
  rewrite split_length.
  replace (S (slashes s) - 2) with 0 by lia. reflexivity.
Qed.

Lemma rnn_scope_of_short_scope_while :
  slashes "while/" <= 1 /\ _get_rnn_scope_name "while/" = "/".
Proof.
  split; [vm_compute; lia|].
  apply rnn_scope_of_short_scope. vm_compute. lia.
Defined.

(** ** More on the pattern classifier *)

(** X3: on a well-formed loop region none of whose non-accumulator
    variables is fed by the node named [<derived scope>time],
    [need_rewrite] returns false. *)
Theorem need_rewrite_rejects_missing_step_counter (g : Graph)
        (context : CustomRnnContext) :
  well_formed_loop g context = true ->
  existsb (is_step_counter g (derived_scope context))
          (loop_variables context) = false ->
  snd (need_rewrite g context) = Return false.
Proof.
  intros Hwf Htime.
  rewrite (need_rewrite_well_formed g context Hwf).
  cbn [snd]. now rewrite Htime.
Qed.

Lemma need_rewrite_rejects_missing_step_counter_scenario :
  let context :=
    Scenario.context_of [Scenario.counter; Scenario.state; Scenario.accumulator]
                        (Scenario.float_4 "rnn/while/Exit_2:0")
                        (Scenario.float_4 "rnn/while/Exit_3:0") in
  well_formed_loop Scenario.graph context = true
  /\ snd (need_rewrite Scenario.graph context) = Return false.
Proof.
  split; [reflexivity|].
  apply need_rewrite_rejects_missing_step_counter; reflexivity.
Defined.

(** X4: on a well-formed loop region without any tensor-array input,
    [need_rewrite] returns false, whatever its variables are. *)
Theorem need_rewrite_rejects_missing_sequence_input (g : Graph)
        (context : CustomRnnContext) :
  well_formed_loop g context = true ->
  tensor_array_inputs (loop_properties context) = [] ->
  snd (need_rewrite g context) = Return false.
Proof.
  intros Hwf Hin.
  rewrite (need_rewrite_well_formed g context Hwf).
  cbn [snd]. unfold has_sequence_input. rewrite Hin.
  now rewrite andb_false_r.
Qed.

Lemma need_rewrite_rejects_missing_sequence_input_scenario :
  let props := Scenario.properties
                 [Scenario.time; Scenario.state; Scenario.accumulator]
                 (Scenario.float_4 "rnn/while/Exit_2:0")
                 (Scenario.float_4 "rnn/while/Exit_3:0") in
  let context :=
    loop_context "rnn/while/"
      {| all_variables := all_variables props;
         tensor_array_inputs := [];
         state_inputs := state_inputs props;
         state_inputs_initial_values := state_inputs_initial_values props;
         state_outputs := state_outputs props;
         state_outputs_exits := state_outputs_exits props;
         scan_inputs := scan_inputs props;
         scan_inputs_initial_values := scan_inputs_initial_values props;
         scan_outputs := scan_outputs props;
         scan_outputs_exits := scan_outputs_exits props |}
      Scenario.cell in
  existsb (is_step_counter Scenario.graph (derived_scope context))
          (loop_variables context) = true
  /\ snd (need_rewrite Scenario.graph context) = Return false.
Proof.
  split; [reflexivity|].
  apply need_rewrite_rejects_missing_sequence_input; reflexivity.
Defined.

(** X5: on a well-formed loop region [need_rewrite] stores the derived
    scope in the context and leaves the while scope, the loop properties
    and the cell graph as they were; when it returns true, the time
    variable it stored is a variable of the loop that is a step counter. *)
Theorem need_rewrite_records (g : Graph) (context : CustomRnnContext) :
  well_formed_loop g context = true ->
  let context' := fst (need_rewrite g context) in
  rnn_scope context' = Some (derived_scope context)
  /\ while_context_scope context' = while_context_scope context
  /\ loop_properties context' = loop_properties context
  /\ cell_graph context' = cell_graph context
  /\ (snd (need_rewrite g context) = Return true ->
      exists val,
        time_var context' = Some val
        /\ In val (loop_variables context)
        /\ is_step_counter g (derived_scope context) val = true).
Proof.
  intros Hwf context'. subst context'.
  rewrite (need_rewrite_well_formed g context Hwf).
  cbn [fst snd classified rnn_scope while_context_scope loop_properties
       cell_graph time_var set_rnn_scope].
  repeat split.
  intros Htrue.
  destruct (find_last (time_match g (derived_scope context ++ "time"))
                      (loop_variables context)) as [val|] eqn:Hlast.
  - exists val. unfold find_last in Hlast. apply find_some in Hlast as [Hin Hm].
    split; [reflexivity|]. split; [now apply in_rev in Hin | exact Hm].
  - exfalso.
    assert (Hnone : existsb (is_step_counter g (derived_scope context))
                            (loop_variables context) = false).
    { apply not_true_is_false. intros Hex.
      apply existsb_exists in Hex as [v [Hin Hv]].
      unfold find_last in Hlast.
      unfold is_step_counter in Hv.
      rewrite (find_none _ _ Hlast v) in Hv; [discriminate|].
      now apply in_rev in Hin. }
    rewrite Hnone in Htrue. discriminate.
Qed.

Lemma need_rewrite_records_scenario :
  rnn_scope (fst (need_rewrite Scenario.graph Scenario.context)) = Some "rnn/"
  /\ exists val,
       time_var (fst (need_rewrite Scenario.graph Scenario.context)) = Some val
       /\ In val (loop_variables Scenario.context)
       /\ is_step_counter Scenario.graph "rnn/" val = true.
Proof.
  destruct (need_rewrite_records Scenario.graph Scenario.context)
    as (Hscope & _ & _ & _ & Htime); [reflexivity|].
  split; [exact Hscope|]. exact (Htime eq_refl).
Defined.

Lemma parse_variable_unresolved (g : Graph) (tn pfx cn : string)
      (st : ParseState) (val : LoopVariable) :
  resolved g val = false ->
  parse_variable g tn pfx cn st val = (st, Some AttributeError).
Proof.
  unfold resolved, parse_variable, declared_ta_name, enter_input_name.
  destruct (is_tensor_array val);
    destruct (get_node_by_output g (enter_input_id val)) as [n|];
    cbn [option_map]; try discriminate; try reflexivity.
  destruct (get_attr n "tensor_array_name"); cbn [option_map];
    [discriminate|reflexivity].
Qed.

Lemma parse_variables_unresolved (g : Graph) (tn pfx cn : string)
      (vals : list LoopVariable) :
  existsb (fun val => negb (resolved g val)) vals = true ->
  forall st, snd (parse_variables g tn pfx cn vals st) = Some AttributeError.
Proof.
  induction vals as [|val rest IH]; [discriminate|].
  cbn [existsb]. intros H st. cbn [parse_variables].
  destruct (resolved g val) eqn:Hres.
  - cbn [negb orb] in H.
    rewrite (parse_variable_resolved g tn pfx cn st val Hres). now apply IH.
  - now rewrite (parse_variable_unresolved g tn pfx cn st val Hres).
Qed.

(** X6: [need_rewrite] has no handler of its own: on a loop region one of
    whose variables has no producer for its Enter input, or is an
    accumulator whose tensor array declares no name, it raises
    [AttributeError] instead of answering. *)
Theorem need_rewrite_raises_on_unresolved (g : Graph)
        (context : CustomRnnContext) :
  unresolved_loop g context = true ->
  snd (need_rewrite g context) = Raise AttributeError.
Proof.
  intros H. unfold need_rewrite, _parse_rnn_loop.
  cbn [rnn_scope set_rnn_scope while_context_scope loop_properties].
  match goal with
  | |- context [parse_variables g ?tn ?pfx ?cn ?vals ?st] =>
      pose proof (parse_variables_unresolved g tn pfx cn vals H st) as Hp;
      destruct (parse_variables g tn pfx cn vals st) as [st' [e|]]
  end; cbn [snd] in Hp; [|discriminate].
  injection Hp as ->. reflexivity.
Qed.

Lemma need_rewrite_raises_on_unresolved_scenario :
  let context :=
    Scenario.context_of
      [Scenario.time; Scenario.variable "rnn/while/Enter_2" "gone:0" false]
      (Scenario.float_4 "rnn/while/Exit_2:0")
      (Scenario.float_4 "rnn/while/Exit_3:0") in
  get_node_by_output Scenario.graph "gone:0" = None
  /\ snd (need_rewrite Scenario.graph context) = Raise AttributeError.
Proof.
  split; [reflexivity|].
  apply need_rewrite_raises_on_unresolved. reflexivity.
Defined.

(** ** More on the shape adapter *)

Lemma keeps_dtypes_trans (g1 g2 g3 : Graph) :
  keeps_dtypes g1 g2 -> keeps_dtypes g2 g3 -> keeps_dtypes g1 g3.
Proof.
  intros [Hc1 Hs1] [Hc2 Hs2]. split; [lia|].
  intros id Hf. rewrite Hs2, Hs1; auto.
  eapply foreign_mono; eassumption.
Qed.

Lemma keeps_dtypes_add_node (g : Graph) (op_type : string)
      (inputs : list string) (attr : list (string * AttrValue))
      (output_count : nat) (scope : option string)
      (shapes : option (list (option Shape)))
      (dtypes : option (list (option Z))) :
  keeps_dtypes g
    (add_node g (new_node (g_counter g) op_type inputs attr output_count scope)
              shapes dtypes).
Proof.
  split; [cbn; lia|]. intros id Hf.
  unfold get_dtype, add_node. cbn [g_dtypes]. f_equal.
  destruct dtypes as [l|]; [|reflexivity]. cbn [bind_outputs].
  apply lookup_skip. intros k v Hin. apply in_combine_l in Hin.
  eapply foreign_differs; [exact Hf|]. eapply new_node_outputs, Hin.
Qed.

Lemma keeps_dtypes_add_const (g : Graph) (base : string) (value : list Z)
      (len : nat) :
  keeps_dtypes g
    (add_const (bump g) (const_node (generated_name base (g_counter g)) value)
               len).
Proof.
  split; [cbn; lia|]. intros id Hf.
  unfold get_dtype, add_const. cbn [g_dtypes bump bind_outputs const_node
                                    node_output combine app lookup].
  rewrite (foreign_not_named (g_counter g) (g_counter g) id base 0 Hf (le_n _)).
  reflexivity.
Qed.

Lemma keeps_dtypes_constant_stage (g : Graph) (target_name input_id : string)
      (value : list Z) :
  keeps_dtypes g (fst (constant_stage g target_name input_id value)).
Proof.
  unfold constant_stage. cbn [fst].
  eapply keeps_dtypes_trans;
    [apply keeps_dtypes_add_node | apply keeps_dtypes_add_const].
Qed.

Lemma keeps_dtypes_concat_stage (g : Graph) (target_name input_id : string) :
  keeps_dtypes g (fst (concat_stage g target_name input_id)).
Proof.
  unfold concat_stage. cbn [fst].
  eapply keeps_dtypes_trans; [apply keeps_dtypes_add_node|].
  eapply keeps_dtypes_trans; [apply keeps_dtypes_add_const|].
  apply (keeps_dtypes_add_node
           (add_const (bump (add_node g (shape_node g input_id) None None)) _ 1)).
Qed.

Lemma keeps_slice_stage (g : Graph) (input_id : string) :
  keeps_tensors g (fst (slice_stage g input_id))
  /\ keeps_dtypes g (fst (slice_stage g input_id)).
Proof.
  unfold slice_stage. cbn [fst]. split.
  - eapply keeps_trans; [apply keeps_add_node|].
    eapply keeps_trans;
      [apply (keeps_add_node (add_node g (shape_node g input_id) None None))|].
    eapply keeps_trans;
      [apply (keeps_add_node
                (add_node (add_node g (shape_node g input_id) None None) _
                          None None))|].
    apply (keeps_add_node
             (add_node
                (add_node (add_node g (shape_node g input_id) None None) _
                          None None) _ None None)).
  - eapply keeps_dtypes_trans; [apply keeps_dtypes_add_node|].
    eapply keeps_dtypes_trans;
      [apply (keeps_dtypes_add_node
                (add_node g (shape_node g input_id) None None))|].
    eapply keeps_dtypes_trans;
      [apply (keeps_dtypes_add_node
                (add_node (add_node g (shape_node g input_id) None None) _
                          None None))|].
    apply (keeps_dtypes_add_node
             (add_node
                (add_node (add_node g (shape_node g input_id) None None) _
                          None None) _ None None)).
Qed.

(** Every known shape selects one of the four complete runs. *)
Lemma adapt_known_stage (factory : Graph -> string -> list string -> creation)
      (g : Graph) (target_name input_id : string) (handle_output : bool)
      (s : Shape) :
  (forall h op_type inputs, factory h op_type inputs = Created) ->
  get_shape g input_id = Some s ->
  exists stage,
    _adapt_scan_sequence_input_or_output factory target_name input_id
                                         handle_output g
    = returned (reshape_stage stage target_name input_id
                              (adapted_shape handle_output s))
    /\ appends g (fst stage)
    /\ keeps_tensors g (fst stage)
    /\ keeps_dtypes g (fst stage).
Proof.
  intros obliging Hs.
  destruct handle_output; cbn [adapted_shape].
  - destruct (le_gt_dec (Py.count (Py.from_1 s) (-1)) 1) as [Hc|Hc].
    + eexists. split;
        [apply (adapt_output_static factory obliging g _ _ s Hs Hc)|].
      split; [apply appends_constant_stage|].
      split; [apply keeps_constant_stage | apply keeps_dtypes_constant_stage].
    + eexists. split;
        [apply (adapt_output_dynamic factory obliging g _ _ s Hs Hc)|].
      split; [|apply keeps_slice_stage].
      eexists. cbn [slice_stage fst add_node g_nodes].
      rewrite <- !app_assoc. reflexivity.
  - destruct (le_gt_dec (Py.count s (-1)) 1) as [Hc|Hc].
    + eexists. split;
        [apply (adapt_input_static factory obliging g _ _ s Hs Hc)|].
      split; [apply appends_constant_stage|].
      split; [apply keeps_constant_stage | apply keeps_dtypes_constant_stage].
    + eexists. split;
        [apply (adapt_input_dynamic factory obliging g _ _ s Hs Hc)|].
      split; [|split; [apply keeps_concat_stage
                      | apply keeps_dtypes_concat_stage]].
      eexists. cbn [concat_stage fst add_node add_const bump g_nodes].
      rewrite <- !app_assoc. reflexivity.
Qed.

(** X7: on a graph that builds every node, whenever the static shape of
    the tensor is known the adapter returns a node sequence whose last
    node is a Reshape of the tensor, and the adapted tensor (the Reshape's
    output) is declared with the shape [[1] + shape] in the input direction
    and [shape[1:]] in the output direction, whichever path is taken. *)
Theorem adapt_declares_adapted_shape
        (factory : Graph -> string -> list string -> creation)
        (g : Graph) (target_name input_id : string) (handle_output : bool)
        (s : Shape) :
  (forall h op_type inputs, factory h op_type inputs = Created) ->
  get_shape g input_id = Some s ->
  exists g' nodes reshape shape_source,
    _adapt_scan_sequence_input_or_output factory target_name input_id
                                         handle_output g
    = (g', Return nodes)
    /\ last nodes None = Some reshape
    /\ node_type reshape = "Reshape"
    /\ node_input reshape = [input_id; shape_source]
    /\ (forall h, last_output nodes h = (h, Return (first_output reshape)))
    /\ get_shape g' (first_output reshape)
       = Some (if handle_output then Py.from_1 s else (1 :: s)%Z).
Proof.
  intros obliging Hs.
  destruct (adapt_known_stage factory g target_name input_id handle_output s
              obliging Hs) as (stage & Hrun & _).
  rewrite Hrun.
  exists (fst (reshape_stage stage target_name input_id
                             (adapted_shape handle_output s))),
         (map Some (snd (reshape_stage stage target_name input_id
                                       (adapted_shape handle_output s)))),
         (reshape_node stage target_name input_id).
  eexists. split; [reflexivity|].
  split; [|split; [reflexivity|split; [reflexivity|split]]].
  - cbn [reshape_stage snd]. rewrite map_app. apply last_last.
  - intros h. apply reshape_stage_last_output.
  - apply reshape_stage_shape.
Qed.

Lemma adapt_declares_adapted_shape_ragged :
  exists g' nodes reshape shape_source,
    _adapt_scan_sequence_input_or_output Scenario.obliging "input" "ragged:0"
                                         false Scenario.graph
    = (g', Return nodes)
    /\ last nodes None = Some reshape
    /\ node_type reshape = "Reshape"
    /\ node_input reshape = ["ragged:0"; shape_source]
    /\ (forall h, last_output nodes h = (h, Return (first_output reshape)))
    /\ get_shape g' (first_output reshape)
       = Some [1%Z; 1%Z; (-1)%Z; (-1)%Z; 4%Z].
Proof.
  apply (adapt_declares_adapted_shape Scenario.obliging Scenario.graph "input"
           "ragged:0" false [1%Z; (-1)%Z; (-1)%Z; 4%Z]); reflexivity.
Defined.

Lemma reshape_stage_dtype (st : Graph * list Node) (target_name input_id : string)
      (new_shape : Shape) :
  get_dtype (fst (reshape_stage st target_name input_id new_shape))
            (first_output (reshape_node st target_name input_id))
  = get_dtype (fst st) input_id.
Proof.
  unfold get_dtype at 1. unfold reshape_stage, add_node.
  cbn [fst g_dtypes bind_outputs]. cbn [reshape_node new_node node_output map seq
                                        combine app first_output hd].
  now rewrite lookup_same.
Qed.

Lemma keeps_dtypes_reshape_stage (st : Graph * list Node)
      (target_name input_id : string) (new_shape : Shape) :
  keeps_dtypes (fst st) (fst (reshape_stage st target_name input_id new_shape)).
Proof.
  unfold reshape_stage, reshape_node. cbn [fst]. apply keeps_dtypes_add_node.
Qed.

(** X8: on a graph that builds every node, adapting a tensor of known
    static shape whose id the name supply does not hand out leaves every
    such tensor with the shape and dtype it had, never moves the supply
    back, and declares the adapted tensor with the dtype of the tensor it
    adapts. *)
Theorem adapt_keeps_existing_tensors
        (factory : Graph -> string -> list string -> creation)
        (g : Graph) (target_name input_id : string) (handle_output : bool)
        (s : Shape) :
  (forall h op_type inputs, factory h op_type inputs = Created) ->
  get_shape g input_id = Some s ->
  foreign (g_counter g) input_id = true ->
  exists g' nodes adapted,
    _adapt_scan_sequence_input_or_output factory target_name input_id
                                         handle_output g
    = (g', Return nodes)
    /\ (forall h, last_output nodes h = (h, Return adapted))
    /\ g_counter g <= g_counter g'
    /\ (forall id, foreign (g_counter g) id = true ->
                   get_shape g' id = get_shape g id
                   /\ get_dtype g' id = get_dtype g id)
    /\ get_dtype g' adapted = get_dtype g input_id.
Proof.
  intros obliging Hs Hf.
  destruct (adapt_known_stage factory g target_name input_id handle_output s
              obliging Hs) as (stage & Hrun & _ & Hks & Hkd).
  rewrite Hrun.
  pose proof (keeps_trans _ _ _ Hks
                (keeps_reshape_stage stage target_name input_id
                   (adapted_shape handle_output s))) as [Hc Hshape].
  pose proof (keeps_dtypes_trans _ _ _ Hkd
                (keeps_dtypes_reshape_stage stage target_name input_id
                   (adapted_shape handle_output s))) as [_ Hdtype].
  do 3 eexists. split; [reflexivity|].
  split; [intros h; apply reshape_stage_last_output|].
  split; [exact Hc|]. split.
  - intros id Hid. split; [now apply Hshape | now apply Hdtype].
  - rewrite reshape_stage_dtype. now apply Hkd.
Qed.

Lemma adapt_keeps_existing_tensors_batch :
  exists g' nodes adapted,
    _adapt_scan_sequence_input_or_output Scenario.obliging "input" "x:0"
                                         false Scenario.graph
    = (g', Return nodes)
    /\ (forall h, last_output nodes h = (h, Return adapted))
    /\ g_counter Scenario.graph <= g_counter g'
    /\ (forall id, foreign (g_counter Scenario.graph) id = true ->
                   get_shape g' id = get_shape Scenario.graph id
                   /\ get_dtype g' id = get_dtype Scenario.graph id)
    /\ get_dtype g' adapted = Some TensorProto.FLOAT.
Proof.
  apply (adapt_keeps_existing_tensors Scenario.obliging Scenario.graph "input"
           "x:0" false [5%Z; 4%Z]); reflexivity.
Defined.

(** X9: whatever the graph answers to the adapter's requests, and whether
    the adapter returns or raises, the nodes the graph held before are
    still there, unchanged and in the same order: the adapter only appends
    nodes. *)
Theorem adapt_only_appends
        (factory : Graph -> string -> list string -> creation)
        (g : Graph) (target_name input_id : string) (handle_output : bool) :
  exists added,
    g_nodes (fst (_adapt_scan_sequence_input_or_output
                    factory target_name input_id handle_output g))
    = (g_nodes g ++ added)%list.
Proof. apply appending_adapt. Qed.

(** X10: on a graph that builds every node, a tensor without any static
    shape makes the adapter raise [TypeError] in either direction, after it
    has appended the nodes of the dynamic path short of the Reshape: Shape,
    Cast, Slice, Cast in the output direction, Shape, Const, Concat in the
    input direction. *)
Theorem adapt_unknown_shape_raises
        (factory : Graph -> string -> list string -> creation)
        (g : Graph) (target_name input_id : string) (handle_output : bool) :
  (forall h op_type inputs, factory h op_type inputs = Created) ->
  get_shape g input_id = None ->
  let run := _adapt_scan_sequence_input_or_output factory target_name input_id
                                                  handle_output g in
  snd run = Raise TypeError
  /\ exists added,
       g_nodes (fst run) = (g_nodes g ++ added)%list
       /\ map node_type added
          = if handle_output then ["Shape"; "Cast"; "Slice"; "Cast"]
            else ["Shape"; "Const"; "Concat"].
Proof.
  intros obliging Hs run. subst run. destruct handle_output.
  - rewrite (adapt_output_unknown factory obliging g target_name input_id Hs).
    split; [reflexivity|]. eexists. split.
    + cbn [slice_stage fst add_node g_nodes]. rewrite <- !app_assoc.
      reflexivity.
    + reflexivity.
  - rewrite (adapt_input_unknown factory obliging g target_name input_id Hs).
    split; [reflexivity|]. eexists. split.
    + cbn [concat_stage fst add_node add_const bump g_nodes].
      rewrite <- !app_assoc. reflexivity.
    + reflexivity.
Qed.

Lemma adapt_unknown_shape_raises_output :
  get_shape Scenario.graph "rnn/time:0" = None
  /\ snd (_adapt_scan_sequence_input_or_output Scenario.obliging
            "scan_output_reshape" "rnn/time:0" true Scenario.graph)
     = Raise TypeError.
Proof.
  split; [reflexivity|].
  apply (adapt_unknown_shape_raises Scenario.obliging Scenario.graph
           "scan_output_reshape" "rnn/time:0" true); reflexivity.
Defined.

(** X11: on a graph that builds every node, the input direction on a
    tensor whose known static shape has two or more unresolved dimensions
    returns four nodes of the graph, each with one output: a Shape node on
    the tensor, the constant [[1]], a Concat along axis 0 whose inputs are
    the constant's output and the Shape node's output, in that order, and a
    Reshape whose inputs are the tensor and the Concat's output, declared
    with the shape [[1] + shape]. *)
Theorem adapt_input_two_unresolved
        (factory : Graph -> string -> list string -> creation)
        (g : Graph) (target_name input_id : string) (s : Shape) :
  (forall h op_type inputs, factory h op_type inputs = Created) ->
  get_shape g input_id = Some s ->
  2 <= Py.count s (-1) ->
  exists g' sh one cat reshape full fake_batch computed adapted,
    _adapt_scan_sequence_input_or_output factory target_name input_id false g
    = (g', Return [Some sh; Some one; Some cat; Some reshape])
    /\ (node_type sh = "Shape" /\ node_input sh = [input_id]
        /\ node_output sh = [full])
    /\ (node_type one = "Const"
        /\ get_attr one "value" = Some (AttrTensor TensorProto.INT64 [1%Z])
        /\ node_output one = [fake_batch])
    /\ (node_type cat = "Concat"
        /\ node_input cat = [fake_batch; full]
        /\ node_output cat = [computed]
        /\ get_attr cat "axis" = Some (AttrInt 0))
    /\ (node_type reshape = "Reshape"
        /\ node_input reshape = [input_id; computed]
        /\ node_output reshape = [adapted]
        /\ get_shape g' adapted = Some (1 :: s)%Z)
    /\ (forall n, In n [sh; one; cat; reshape] -> In n (g_nodes g')).
Proof.
  intros obliging Hs Hc.
  rewrite (adapt_input_dynamic factory obliging g target_name input_id s Hs)
    by lia.
  do 9 eexists. split; [reflexivity|].
  repeat split; try reflexivity.
  - apply (reshape_stage_shape (concat_stage g target_name input_id)).
  - intros n Hn.
    cbn [reshape_stage concat_stage fst snd add_node add_const bump g_nodes].
    rewrite <- !app_assoc. apply in_or_app. right. exact Hn.
Qed.

Lemma adapt_input_two_unresolved_ragged :
  get_node_by_output ragged_graph "ragged:0"
  = Some (Scenario.plain "ragged" "Placeholder" [])
  /\ exists g' sh one cat reshape full fake_batch computed adapted,
    _adapt_scan_sequence_input_or_output Scenario.obliging "input" "ragged:0"
                                         false ragged_graph
    = (g', Return [Some sh; Some one; Some cat; Some reshape])
    /\ (node_type sh = "Shape" /\ node_input sh = ["ragged:0"]
        /\ node_output sh = [full])
    /\ (node_type one = "Const"
        /\ get_attr one "value" = Some (AttrTensor TensorProto.INT64 [1%Z])
        /\ node_output one = [fake_batch])
    /\ (node_type cat = "Concat"
        /\ node_input cat = [fake_batch; full]
        /\ node_output cat = [computed]
        /\ get_attr cat "axis" = Some (AttrInt 0))
    /\ (node_type reshape = "Reshape"
        /\ node_input reshape = ["ragged:0"; computed]
        /\ node_output reshape = [adapted]
        /\ get_shape g' adapted = Some [1%Z; 1%Z; (-1)%Z; (-1)%Z; 4%Z])
    /\ (forall n, In n [sh; one; cat; reshape] -> In n (g_nodes g')).
Proof.
  split; [reflexivity|].
  apply (adapt_input_two_unresolved Scenario.obliging ragged_graph "input"
           "ragged:0" [1%Z; (-1)%Z; (-1)%Z; 4%Z]); reflexivity.
Defined.

(** X12: on a graph that builds every node, when the part of the known
    shape the adapter inspects (the shape itself in the input direction,
    the shape past its first axis in the output direction) has at most one
    unresolved dimension, the returned sequence is the Shape node, a
    constant and the Reshape; the constant holds exactly the adapted shape
    ([[1] + shape], respectively [shape[1:]]) as an int64 vector, is
    declared with the one-dimensional shape of that vector, and feeds the
    Reshape. *)
Theorem adapt_constant_holds_target_shape
        (factory : Graph -> string -> list string -> creation)
        (g : Graph) (target_name input_id : string) (handle_output : bool)
        (s : Shape) :
  (forall h op_type inputs, factory h op_type inputs = Created) ->
  get_shape g input_id = Some s ->
  Py.count (counted_part handle_output s) (-1) <= 1 ->
  exists g' sh c reshape,
    _adapt_scan_sequence_input_or_output factory target_name input_id
                                         handle_output g
    = (g', Return [Some sh; Some c; Some reshape])
    /\ node_type c = "Const"
    /\ get_attr c "value"
       = Some (AttrTensor TensorProto.INT64 (adapted_shape handle_output s))
    /\ get_shape g' (first_output c)
       = Some [Z.of_nat (length (adapted_shape handle_output s))]
    /\ get_dtype g' (first_output c) = Some TensorProto.INT64
    /\ node_input reshape = [input_id; first_output c]
    /\ get_shape g' (first_output reshape)
       = Some (adapted_shape handle_output s).
Proof.
  intros obliging Hs Hc.
  assert (Hrun :
    _adapt_scan_sequence_input_or_output factory target_name input_id
                                         handle_output g
    = returned (reshape_stage
                  (constant_stage g target_name input_id
                                  (adapted_shape handle_output s))
                  target_name input_id (adapted_shape handle_output s))).
  { destruct handle_output; cbn [counted_part adapted_shape] in *.
    - now apply adapt_output_static.
    - now apply adapt_input_static. }
  rewrite Hrun. do 4 eexists. split; [reflexivity|].
  assert (Hne : String.eqb
                  (output_id (generated_name (target_name ++ "_target_shape")
                                             (S (g_counter g))) 0)
                  (output_id (scoped_name (Some target_name)
                                (generated_name "Reshape" (S (S (g_counter g)))))
                             0) = false).
  { apply String.eqb_neq, distinct_supply_index.
    change (generated_name (target_name ++ "_target_shape") (S (g_counter g)))
      with (scoped_name None
              (generated_name (target_name ++ "_target_shape")
                              (S (g_counter g)))).
    rewrite !supply_index_generated. intros [= E]. lia. }
  split; [reflexivity|]. split; [reflexivity|].
  split; [|split; [|split; [reflexivity|]]].
  - unfold get_shape.
    cbn [returned fst snd reshape_stage constant_stage add_node add_const bump
         g_shapes g_counter bind_outputs reshape_node new_node const_node
         shape_node node_output map seq combine app first_output hd lookup last].
    rewrite Hne. now rewrite String.eqb_refl.
  - unfold get_dtype.
    cbn [returned fst snd reshape_stage constant_stage add_node add_const bump
         g_dtypes g_counter bind_outputs reshape_node new_node const_node
         shape_node node_output map seq combine app first_output hd lookup last].
    rewrite Hne. now rewrite String.eqb_refl.
  - apply (reshape_stage_shape
             (constant_stage g target_name input_id
                             (adapted_shape handle_output s))).
Qed.

Lemma adapt_constant_holds_target_shape_batch :
  exists g' sh c reshape,
    _adapt_scan_sequence_input_or_output Scenario.obliging
      "scan_output_reshape" "batch:0" true Scenario.graph
    = (g', Return [Some sh; Some c; Some reshape])
    /\ node_type c = "Const"
    /\ get_attr c "value" = Some (AttrTensor TensorProto.INT64 [5%Z; 4%Z])
    /\ get_shape g' (first_output c) = Some [2%Z]
    /\ get_dtype g' (first_output c) = Some TensorProto.INT64
    /\ node_input reshape = ["batch:0"; first_output c]
    /\ get_shape g' (first_output reshape) = Some [5%Z; 4%Z].
Proof.
  apply (adapt_constant_holds_target_shape Scenario.obliging Scenario.graph
           "scan_output_reshape" "batch:0" true [2%Z; 5%Z; 4%Z]);
    try reflexivity.
  vm_compute. lia.
Defined.

(** ** More on the scan synthesizer *)

Lemma collect_exit_declares (acc acc' : list (option Shape) * list (option Z))
      (e : TensorValueInfo) (g g' : Graph) :
  collect_exit acc e g = (g', Return acc') ->
  acc' = ((fst acc ++ [declared_shape e])%list,
          (snd acc ++ [declared_dtype e])%list)
  /\ g_shapes g' = g_shapes g /\ g_dtypes g' = g_dtypes g
  /\ g_counter g' = g_counter g.
Proof.
  unfold collect_exit, declared_shape, declared_dtype.
  destruct acc as [shapes dtypes].
  destruct (Py.truthy (tvi_id e)).
  - destruct (tvi_shape e) as [s|]; [|discriminate].
    unfold bind, on_list, ret, read.
    destruct (flatten (option_map (get_node_by_output g) (tvi_id e)));
      [|discriminate].
    cbn. intros [= <- <-]. repeat split.
  - intros [= <- <-]. repeat split.
Qed.

Lemma collect_exits_declare (exits : list TensorValueInfo) :
  forall (acc acc' : list (option Shape) * list (option Z)) (g g' : Graph),
    for_each collect_exit exits acc g = (g', Return acc') ->
    acc' = ((fst acc ++ map declared_shape exits)%list,
            (snd acc ++ map declared_dtype exits)%list)
    /\ g_shapes g' = g_shapes g /\ g_dtypes g' = g_dtypes g
    /\ g_counter g' = g_counter g.
Proof.
  induction exits as [|e rest IH]; intros acc acc' g g'.
  - cbn. intros [= <- <-]. rewrite !app_nil_r. destruct acc. repeat split.
  - cbn [for_each]. unfold bind at 1.
    destruct (collect_exit acc e g) as [g1 [acc1|err]] eqn:H1; [|discriminate].
    intros Hrest.
    apply collect_exit_declares in H1 as (-> & Hs1 & Hd1 & Hc1).
    apply IH in Hrest as (-> & Hs & Hd & Hc).
    cbn [fst snd map]. rewrite <- !app_assoc. cbn [app].
    repeat split; congruence.
Qed.

Lemma collect_exit_shape_known
      (acc acc' : list (option Shape) * list (option Z))
      (e : TensorValueInfo) (g g' : Graph) :
  collect_exit acc e g = (g', Return acc') ->
  Py.truthy (tvi_id e) = true ->
  exists s, tvi_shape e = Some s.
Proof.
  unfold collect_exit. destruct acc as [shapes dtypes]. intros H Ht.
  rewrite Ht in H. destruct (tvi_shape e) as [s|]; [now exists s|].
  discriminate.
Qed.

Lemma collect_exits_shapes_known (exits : list TensorValueInfo) :
  forall (acc acc' : list (option Shape) * list (option Z)) (g g' : Graph),
    for_each collect_exit exits acc g = (g', Return acc') ->
    forall e, In e exits -> Py.truthy (tvi_id e) = true ->
              exists s, tvi_shape e = Some s.
Proof.
  induction exits as [|e0 rest IH]; intros acc acc' g g'.
  - intros _ e [].
  - cbn [for_each]. unfold bind at 1.
    destruct (collect_exit acc e0 g) as [g1 [acc1|err]] eqn:H1; [|discriminate].
    intros Hrest e [<-|He] Ht.
    + exact (collect_exit_shape_known _ _ _ _ _ H1 Ht).
    + exact (IH _ _ _ _ Hrest e He Ht).
Qed.

(** X13: when the loop of [_create_scan_node] over the exit tensors
    completes, the declared shapes and dtypes it has collected follow the
    exits position by position: [[1] + shape] and the dtype of an exit with
    an id, [None] and [None] for an exit without; and every exit with an id
    has a known shape. *)
Theorem collected_declarations_are_positional
        (exits : list TensorValueInfo) (g g' : Graph)
        (declared : list (option Shape) * list (option Z)) :
  for_each collect_exit exits ([], []) g = (g', Return declared) ->
  declared = (map declared_shape exits, map declared_dtype exits)
  /\ length (fst declared) = length exits
  /\ length (snd declared) = length exits
  /\ (forall i e, nth_error exits i = Some e ->
                  nth_error (fst declared) i = Some (declared_shape e)
                  /\ nth_error (snd declared) i = Some (declared_dtype e))
  /\ (forall e, In e exits -> Py.truthy (tvi_id e) = true ->
                exists s, tvi_shape e = Some s
                          /\ declared_shape e = Some (1 :: s)%Z).
Proof.
  intros H.
  pose proof (collect_exits_shapes_known exits _ _ _ _ H) as Hknown.
  apply collect_exits_declare in H as (-> & _).
  cbn [fst snd app]. rewrite !length_map.
  split; [reflexivity|]. split; [reflexivity|]. split; [reflexivity|]. split.
  - intros i e Hi. split; now apply map_nth_error.
  - intros e He Ht. destruct (Hknown e He Ht) as [s Hs]. exists s.
    split; [exact Hs|]. unfold declared_shape. now rewrite Ht, Hs.
Qed.

Lemma collected_declarations_are_positional_scenario :
  exists g' declared,
    for_each collect_exit (loop_exits Scenario.unread_state_context) ([], [])
             Scenario.graph
    = (g', Return declared)
    /\ declared = ([None; Some [1%Z; 4%Z]], [None; Some TensorProto.FLOAT])
    /\ length (fst declared) = 2.
Proof.
  do 2 eexists. split; [vm_compute; reflexivity|].
  edestruct (collected_declarations_are_positional
               (loop_exits Scenario.unread_state_context) Scenario.graph)
    as (Hd & Hl & _); [vm_compute; reflexivity|].
  split; [exact Hd | exact Hl].
Defined.

(** X14: when the loop of [_create_scan_node] over the exit tensors
    completes, it has only removed nodes, and only nodes that bear the name
    of a node producing the id of one of the exits: every other node of the
    graph is still there. *)
Theorem exit_loop_removes_only_producers (exits : list TensorValueInfo) :
  forall (acc acc' : list (option Shape) * list (option Z)) (g g' : Graph),
    for_each collect_exit exits acc g = (g', Return acc') ->
    (forall m, In m (g_nodes g') -> In m (g_nodes g))
    /\ (forall m, In m (g_nodes g) ->
          In m (g_nodes g')
          \/ exists e id n,
               In e exits /\ tvi_id e = Some id
               /\ Py.truthy (tvi_id e) = true
               /\ In n (g_nodes g) /\ produces id n = true
               /\ node_name m = node_name n).
Proof.
  induction exits as [|e0 rest IH]; intros acc acc' g g'.
  - cbn. intros [= <- _]. split; auto.
  - cbn [for_each]. unfold bind at 1.
    destruct (collect_exit acc e0 g) as [g1 [acc1|err]] eqn:H0; [|discriminate].
    intros Hrest. destruct (IH _ _ _ _ Hrest) as [Hsub Hkept].
    apply collect_exit_removes in H0.
    destruct H0 as [[_ ->]|(id0 & n0 & Hid0 & Ht0 & Hn0 & Hnodes)].
    + split; [exact Hsub|]. intros m Hm.
      destruct (Hkept m Hm) as [Hin|(e & id & n & He & H)]; [now left|].
      right. exists e, id, n. split; [now right | exact H].
    + assert (Hsub1 : forall m, In m (g_nodes g1) -> In m (g_nodes g)).
      { intros m Hm. rewrite Hnodes in Hm. now apply filter_In in Hm. }
      split; [intros m Hm; now apply Hsub1, Hsub|].
      intros m Hm.
      destruct (String.eqb (node_name m) (node_name n0)) eqn:Hsame.
      * right. exists e0, id0, n0. apply find_some in Hn0 as [Hin0 Hp0].
        apply String.eqb_eq in Hsame.
        repeat split; try assumption. now left.
      * assert (Hm1 : In m (g_nodes g1)).
        { rewrite Hnodes. apply filter_In. split; [exact Hm|].
          now rewrite Hsame. }
        destruct (Hkept m Hm1) as [Hin|(e & id & n & He & Hid & Ht & Hn & H)];
          [now left|].
        right. exists e, id, n.
        repeat split; try tauto. now right. now apply Hsub1.
Qed.

Lemma exit_loop_removes_only_producers_scenario :
  let g' := fst (for_each collect_exit (loop_exits Scenario.context) ([], [])
                          Scenario.graph) in
  In (Scenario.plain "rnn/zeros" "Const" []) (g_nodes g')
  /\ length (g_nodes g') = length (g_nodes Scenario.graph) - 2.
Proof.
  intros g'.
  destruct (exit_loop_removes_only_producers
              (loop_exits Scenario.context) ([], [])
              ([Some [1%Z; 4%Z]; Some [1%Z; 4%Z]],
               [Some TensorProto.FLOAT; Some TensorProto.FLOAT])
              Scenario.graph g') as [_ Hkept];
    [vm_compute; reflexivity|].
  split; [|reflexivity].
  destruct (Hkept (Scenario.plain "rnn/zeros" "Const" []))
    as [Hin|(e & id & n & He & Hid & Ht & Hn & Hp & Hname)].
  - vm_compute. tauto.
  - exact Hin.
  - exfalso. cbn in He.
    destruct He as [<-|[<-|[]]]; injection Hid as <-;
      vm_compute in Hn;
      repeat (destruct Hn as [<-|Hn]; [vm_compute in Hp, Hname; congruence|]);
      exact Hn.
Defined.

Lemma append_injective (a x y : string) : a ++ x = a ++ y -> x = y.
Proof.
  induction a as [|c a IH]; [auto|].
  cbn. intros [= H]. auto.
Qed.

Lemma str_injective (i j : nat) : Py.str i = Py.str j -> i = j.
Proof.
  intros E. pose proof (str_value i) as Hi. rewrite E, str_value in Hi.
  now injection Hi.
Qed.

Lemma output_id_injective (name : string) (i j : nat) :
  output_id name i = output_id name j -> i = j.
Proof.
  unfold output_id. intros E.
  apply append_injective in E. cbn in E. injection E as E.
  now apply str_injective.
Qed.

Lemma lookup_combine_nth {A : Type} (name : string) (vals : list A)
      (d : list (string * A)) :
  forall (count start i : nat) (v : A),
    i < count ->
    nth_error vals i = Some v ->
    lookup (output_id name (start + i))
           (combine (map (output_id name) (seq start count)) vals ++ d)
    = Some v.
Proof.
  revert vals. intros vals count. revert vals.
  induction count as [|count IH]; intros vals start i v Hi Hv; [lia|].
  destruct vals as [|v0 vals]; [destruct i; discriminate|].
  cbn [seq map combine app lookup].
  destruct i as [|i].
  - rewrite Nat.add_0_r, String.eqb_refl. cbn in Hv. exact Hv.
  - destruct (String.eqb (output_id name (start + S i)) (output_id name start))
      eqn:E.
    + apply String.eqb_eq, output_id_injective in E. lia.
    + replace (start + S i) with (S start + i) by lia.
      apply IH; [lia|exact Hv].
Qed.

(** X15: when the loop over the exit tensors completes and the graph
    builds the node, [_create_scan_node] returns a Scan node appended to
    the graph whose inputs are the empty placeholder followed by the
    initial values, which has one output per state output and per scan
    output, whose [num_scan_inputs] is the number of scan inputs, and whose
    output at the position of an exit is declared with [[1] + shape] and
    the dtype of that exit when the exit has an id, and with no shape and
    no dtype when it has none. *)
Theorem create_scan_node_declares
        (factory : Graph -> string -> list string -> creation)
        (context : CustomRnnContext) (init_values : list string)
        (g g' : Graph) (declared : list (option Shape) * list (option Z)) :
  for_each collect_exit (loop_exits context) ([], []) g = (g', Return declared) ->
  factory g' "Scan" (EmptyString :: init_values) = Created ->
  exists scan g'',
    _create_scan_node factory context (loop_properties context) init_values g
    = (g'', Return (Some scan))
    /\ g_nodes g'' = (g_nodes g' ++ [scan])%list
    /\ node_type scan = "Scan"
    /\ node_input scan = EmptyString :: init_values
    /\ length (node_output scan)
       = length (state_outputs (loop_properties context))
         + length (scan_outputs (loop_properties context))
    /\ get_attr scan "num_scan_inputs"
       = Some (AttrInt (Z.of_nat (length (scan_inputs (loop_properties context)))))
    /\ (forall i e out,
          nth_error (loop_exits context) i = Some e ->
          nth_error (node_output scan) i = Some out ->
          get_shape g'' out = declared_shape e
          /\ get_dtype g'' out = declared_dtype e).
Proof.
  intros Hloop Hfactory.
  rewrite (create_scan_node_request factory context init_values g g' declared
             Hloop).
  unfold scan_request, make_node. rewrite Hfactory.
  do 2 eexists. split; [reflexivity|].
  split; [reflexivity|]. split; [reflexivity|]. split; [reflexivity|].
  split; [cbn [new_node node_output]; now rewrite length_map, length_seq,
                                     length_app|].
  split; [reflexivity|].
  intros i e out He Hout.
  apply collect_exits_declare in Hloop as (-> & _). cbn [fst snd app].
  cbn [new_node node_output] in Hout.
  assert (Hi : i < length (state_outputs (loop_properties context)
                           ++ scan_outputs (loop_properties context))%list).
  { assert (Hlt : i < length (map (output_id
                       (scoped_name (Some "custom_rnn_scan")
                          (generated_name "Scan" (g_counter g'))))
                       (seq 0 (length
                          (state_outputs (loop_properties context)
                           ++ scan_outputs (loop_properties context))%list))))
      by (apply nth_error_Some; congruence).
    now rewrite length_map, length_seq in Hlt. }
  assert (Hout' : out = output_id
                          (scoped_name (Some "custom_rnn_scan")
                             (generated_name "Scan" (g_counter g'))) (0 + i)).
  { rewrite nth_error_map, nth_error_seq in Hout.
    apply Nat.ltb_lt in Hi. rewrite Hi in Hout. cbn [option_map] in Hout.
    now injection Hout as <-. }
  rewrite Hout'. unfold get_shape, get_dtype, add_node.
  cbn [g_shapes g_dtypes bind_outputs fst snd new_node node_output].
  split.
  - erewrite lookup_combine_nth; [reflexivity|exact Hi|].
    rewrite nth_error_map, He. reflexivity.
  - erewrite lookup_combine_nth; [reflexivity|exact Hi|].
    rewrite nth_error_map, He. reflexivity.
Qed.

Lemma create_scan_node_declares_scenario :
  let context := Scenario.unread_state_context in
  let g' := fst (for_each collect_exit (loop_exits context) ([], [])
                          Scenario.graph) in
  exists scan g'',
    _create_scan_node Scenario.obliging context (loop_properties context)
                      ["a:0"; "b:0"] Scenario.graph
    = (g'', Return (Some scan))
    /\ g_nodes g'' = (g_nodes g' ++ [scan])%list
    /\ node_type scan = "Scan"
    /\ node_input scan = [EmptyString; "a:0"; "b:0"]
    /\ length (node_output scan) = 2
    /\ get_attr scan "num_scan_inputs" = Some (AttrInt 1)
    /\ (forall i e out,
          nth_error (loop_exits context) i = Some e ->
          nth_error (node_output scan) i = Some out ->
          get_shape g'' out = declared_shape e
          /\ get_dtype g'' out = declared_dtype e).
Proof.
  intros context g'.
  apply (create_scan_node_declares Scenario.obliging context ["a:0"; "b:0"]
           Scenario.graph g'
           ([None; Some [1%Z; 4%Z]], [None; Some TensorProto.FLOAT]));
    [vm_compute; reflexivity | reflexivity].
Defined.

(** ** More on the output reconnector and on [rewrite] *)

Lemma connect_exit_index (factory : Graph -> string -> list string -> creation)
      (target_name : string) (scan_node : Node) (index j : nat)
      (e : TensorValueInfo) (g g' : Graph) :
  connect_exit factory target_name scan_node index e g = (g', Return j) ->
  j = S index.
Proof.
  unfold connect_exit, bind at 1, ret.
  match goal with
  | |- context [match ?run with _ => _ end] => destruct run as [g1 [[]|err]]
  end; [|discriminate].
  now intros [= _ <-].
Qed.

(** X16: when one of the loops of [_connect_scan_with_output] completes,
    the index has advanced by one for every exit it went through, with or
    without an id: an exit at position [k] of the list is paired with the
    scan output at the start index plus [k]. *)
Theorem connect_advances_index
        (factory : Graph -> string -> list string -> creation)
        (target_name : string) (scan_node : Node)
        (exits : list TensorValueInfo) :
  forall (index j : nat) (g g' : Graph),
    for_each (connect_exit factory target_name scan_node) exits index g
    = (g', Return j) ->
    j = index + length exits.
Proof.
  induction exits as [|e rest IH]; intros index j g g'.
  - cbn. intros [= _ <-]. lia.
  - cbn [for_each]. unfold bind at 1.
    destruct (connect_exit factory target_name scan_node index e g)
      as [g1 [i1|err]] eqn:H1; [|discriminate].
    intros Hrest. apply connect_exit_index in H1. subst i1.
    apply IH in Hrest. cbn [length]. lia.
Qed.

Lemma connect_advances_index_scenario :
  let scan := Scenario.tensor_array "scan" "unused" in
  let g := add_node Scenario.graph scan (Some [None; Some [1%Z; 4%Z]]) None in
  let exits := loop_exits Scenario.unread_state_context in
  exists g' j,
    for_each (connect_exit Scenario.obliging "state_output_reshape" scan)
             exits 0 g = (g', Return j)
    /\ j = 0 + length exits.
Proof.
  intros scan g exits. do 2 eexists.
  assert (Hrun : forall g' j (H : for_each
                    (connect_exit Scenario.obliging "state_output_reshape" scan)
                    exits 0 g = (g', Return j)),
             for_each (connect_exit Scenario.obliging "state_output_reshape"
                                    scan) exits 0 g = (g', Return j)
             /\ j = 0 + length exits).
  { intros g' j H. split; [exact H|].
    exact (connect_advances_index Scenario.obliging "state_output_reshape"
             scan exits 0 j g g' H). }
  apply Hrun. vm_compute. reflexivity.
Defined.

(** X17: when no exit tensor of the loop has an id, nothing outside the
    loop reads its results and [_connect_scan_with_output] leaves the graph
    exactly as it was, whatever the graph would answer to a request. *)
Theorem connect_without_ids_is_idle
        (factory : Graph -> string -> list string -> creation)
        (context : CustomRnnContext) (scan_node : Node) (g : Graph) :
  forallb (fun e => negb (Py.truthy (tvi_id e))) (loop_exits context) = true ->
  _connect_scan_with_output factory context scan_node g = (g, Return tt).
Proof.
  unfold loop_exits. rewrite forallb_app. intros H.
  apply andb_prop in H as [Hstate Hscan].
  assert (Hidle : forall target exits index,
             forallb (fun e => negb (Py.truthy (tvi_id e))) exits = true ->
             for_each (connect_exit factory target scan_node) exits index g
             = (g, Return (index + length exits))).
  { intros target exits. induction exits as [|e rest IH]; intros index Hall.
    - cbn. now rewrite Nat.add_0_r.
    - cbn [forallb] in Hall. apply andb_prop in Hall as [He Hrest].
      apply negb_true_iff in He.
      cbn [for_each]. unfold connect_exit at 1. rewrite He.
      rewrite bind_assoc. rewrite (bind_return _ _ _ _ _ eq_refl).
      rewrite (bind_return _ _ _ _ _ eq_refl).
      rewrite (IH (S index) Hrest). cbn [length]. f_equal. f_equal. lia. }
  unfold _connect_scan_with_output.
  rewrite (bind_return _ _ _ _ _ (Hidle _ _ 0 Hstate)).
  rewrite (bind_return _ _ _ _ _ (Hidle _ _ _ Hscan)).
  reflexivity.
Qed.

Lemma connect_without_ids_is_idle_scenario :
  let nobody := {| tvi_id := None;
                   tvi_dtype := Some TensorProto.FLOAT;
                   tvi_shape := Some [4%Z] |} in
  let context := Scenario.context_of [Scenario.time] nobody nobody in
  _connect_scan_with_output Scenario.scan_raises context
                            (Scenario.plain "scan" "Scan" []) Scenario.graph
  = (Scenario.graph, Return tt).
Proof.
  intros nobody context.
  apply connect_without_ids_is_idle. reflexivity.
Defined.

(** In the output direction on a tensor of known shape, the shape input
    of the closing Reshape is a tensor the supply has just handed out: it
    differs from any tensor foreign to the supply. *)
Lemma adapt_output_source
      (factory : Graph -> string -> list string -> creation)
      (g : Graph) (target_name out old : string) (s : Shape) :
  (forall h op_type inputs, factory h op_type inputs = Created) ->
  get_shape g out = Some s ->
  foreign (g_counter g) old = true ->
  exists stage,
    _adapt_scan_sequence_input_or_output factory target_name out true g
    = returned (reshape_stage stage target_name out (Py.from_1 s))
    /\ appends g (fst stage)
    /\ g_counter g <= g_counter (fst stage)
    /\ String.eqb old
         (first_output (last (snd stage) (shape_node (fst stage) out)))
       = false.
Proof.
  intros obliging Hs Hf.
  destruct (le_gt_dec (Py.count (Py.from_1 s) (-1)) 1) as [Hc|Hc].
  - exists (constant_stage g target_name out (Py.from_1 s)).
    split; [apply (adapt_output_static factory obliging g _ _ s Hs Hc)|].
    split; [apply appends_constant_stage|].
    split; [cbn [constant_stage fst add_const bump add_node g_counter]; lia|].
    cbn [constant_stage snd last first_output const_node node_output hd
         add_node g_counter].
    apply (foreign_not_named (g_counter g)); [exact Hf | lia].
  - exists (slice_stage g out).
    split; [apply (adapt_output_dynamic factory obliging g _ _ s Hs Hc)|].
    split; [|split].
    + eexists. cbn [slice_stage fst add_node g_nodes].
      rewrite <- !app_assoc. reflexivity.
    + cbn [slice_stage fst add_node g_counter]. lia.
    + cbn [slice_stage snd last first_output new_node node_output map seq hd
           add_node g_counter].
      apply (foreign_not_generated (g_counter g)); [exact Hf | lia].
Qed.

(** X18: on a graph that builds every node, reconnecting an exit tensor
    with an id to a scan output of known shape runs the shape adapter on
    that scan output in the output direction and rewires the exit tensor to
    the output of the adapter's last node, a Reshape whose first input is
    the scan output and which is a node of the resulting graph; that output
    is declared with the scan output's shape without its first axis.  No
    node of the resulting graph reads the exit tensor, and every node of
    the graph before is still there under its name, type, outputs and
    attributes, with each input that was the exit tensor now the Reshape's
    output.  The id of the exit tensor must not be one the name supply
    hands out, and must not be the scan output itself. *)
Theorem connect_exit_rewires_consumers
        (factory : Graph -> string -> list string -> creation)
        (g : Graph) (target_name : string) (scan_node : Node) (index : nat)
        (e : TensorValueInfo) (old out : string) (s : Shape) :
  (forall h op_type inputs, factory h op_type inputs = Created) ->
  tvi_id e = Some old -> Py.truthy (tvi_id e) = true ->
  nth_error (node_output scan_node) index = Some out ->
  get_shape g out = Some s ->
  foreign (g_counter g) old = true ->
  String.eqb out old = false ->
  exists adapted nodes reshape computed new g',
    _adapt_scan_sequence_input_or_output factory target_name out true g
    = (adapted, Return nodes)
    /\ last nodes None = Some reshape
    /\ (node_type reshape = "Reshape"
        /\ node_input reshape = [out; computed]
        /\ node_output reshape = [new])
    /\ connect_exit factory target_name scan_node index e g
       = (g', Return (S index))
    /\ g_nodes g' = map (replace_input old new) (g_nodes adapted)
    /\ In reshape (g_nodes g')
    /\ get_shape g' new = Some (Py.from_1 s)
    /\ (forall m, In m (g_nodes g') -> ~ In old (node_input m))
    /\ (forall m, In m (g_nodes g) ->
          exists m', In m' (g_nodes g') /\ same_node m m'
                     /\ node_input m' = map (rewired old new) (node_input m)).
Proof.
  intros obliging Hid Ht Hout Hs Hf Hdiff.
  destruct (adapt_output_source factory g target_name out old s obliging Hs Hf)
    as (stage & Hrun & Happ & Hc & Hsource).
  set (reshape := reshape_node stage target_name out).
  set (new := first_output reshape).
  assert (Hnew : String.eqb old new = false).
  { eapply foreign_differs.
    - eapply foreign_mono; [exact Hf | exact Hc].
    - apply (new_node_outputs (g_counter (fst stage)) "Reshape"
               [out; first_output
                       (last (snd stage) (shape_node (fst stage) out))]
               [] 1 (Some target_name)).
      left. reflexivity. }
  assert (Hkept : replace_input old new reshape = reshape).
  { unfold replace_input. cbn [reshape reshape_node new_node node_input map
                               node_name node_type node_output node_attr].
    rewrite Hdiff. rewrite String.eqb_sym, Hsource. reflexivity. }
  assert (Hconnect :
            connect_exit factory target_name scan_node index e g
            = (fst (replace_all_inputs old new
                      (fst (reshape_stage stage target_name out (Py.from_1 s)))),
               Return (S index))).
  { unfold connect_exit. rewrite Ht, Hid.
    rewrite bind_assoc. unfold output_at. rewrite Hout.
    rewrite (bind_return _ _ _ _ _ eq_refl).
    rewrite !bind_assoc, (bind_return _ _ _ _ _ Hrun).
    rewrite !bind_assoc.
    rewrite (bind_return _ _ _ _ _ (reshape_stage_last_output _ _ _ _ _)).
    rewrite (bind_return _ _ _ _ _ eq_refl).
    reflexivity. }
  exists (fst (reshape_stage stage target_name out (Py.from_1 s))),
         (map Some (snd (reshape_stage stage target_name out (Py.from_1 s)))),
         reshape,
         (first_output (last (snd stage) (shape_node (fst stage) out))),
         new,
         (fst (replace_all_inputs old new
                 (fst (reshape_stage stage target_name out (Py.from_1 s))))).
  split; [exact Hrun|].
  split; [cbn [reshape_stage snd]; rewrite map_app; apply last_last|].
  split; [repeat split|].
  split; [exact Hconnect|].
  split; [reflexivity|].
  split.
  { cbn [replace_all_inputs update fst g_nodes reshape_stage add_node].
    rewrite map_app. apply in_or_app. right. left. exact Hkept. }
  split; [apply (reshape_stage_shape stage)|]. split.
  - intros m Hm. cbn [fst replace_all_inputs update g_nodes] in Hm.
    apply in_map_iff in Hm as (m0 & <- & _).
    cbn [replace_input node_input]. intros Hin.
    apply in_map_iff in Hin as (i & Hi & _).
    destruct (String.eqb i old) eqn:Hio.
    + rewrite <- Hi, String.eqb_refl in Hnew. discriminate.
    + apply String.eqb_neq in Hio. congruence.
  - intros m Hm. exists (replace_input old new m).
    split; [|split; [repeat split | reflexivity]].
    cbn [fst replace_all_inputs update g_nodes]. apply in_map.
    destruct (appends_reshape_stage g stage target_name out (Py.from_1 s) Happ)
      as [extra He].
    rewrite He. apply in_or_app. now left.
Qed.

Lemma connect_exit_rewires_consumers_scenario :
  let scan := Scenario.tensor_array "scan" "unused" in
  let g := add_node Scenario.graph scan (Some [None; Some [1%Z; 4%Z]]) None in
  let old := "rnn/while/Exit_3:0" in
  exists adapted nodes reshape computed new g',
    _adapt_scan_sequence_input_or_output Scenario.obliging
      "scan_output_reshape" "scan:1" true g
    = (adapted, Return nodes)
    /\ last nodes None = Some reshape
    /\ (node_type reshape = "Reshape"
        /\ node_input reshape = ["scan:1"; computed]
        /\ node_output reshape = [new])
    /\ connect_exit Scenario.obliging "scan_output_reshape" scan 1
                    (Scenario.float_4 old) g = (g', Return 2)
    /\ g_nodes g' = map (replace_input old new) (g_nodes adapted)
    /\ In reshape (g_nodes g')
    /\ get_shape g' new = Some [4%Z]
    /\ (forall m, In m (g_nodes g') -> ~ In old (node_input m))
    /\ (forall m, In m (g_nodes g) ->
          exists m', In m' (g_nodes g') /\ same_node m m'
                     /\ node_input m' = map (rewired old new) (node_input m)).
Proof.
  intros scan g old.
  apply (connect_exit_rewires_consumers Scenario.obliging g
           "scan_output_reshape" scan 1 (Scenario.float_4 old) old "scan:1"
           [1%Z; 4%Z]); reflexivity.
Defined.

(** ** Initial values without a static shape *)

Section UnknownInitialValue.

Variable factory : Graph -> string -> list string -> creation.
Hypothesis obliging : forall h op_type inputs, factory h op_type inputs = Created.

Lemma adapt_initial_value_unknown (g : Graph) (acc : list string)
      (input_id : string) :
  get_shape g input_id = None ->
  exists g',
    adapt_initial_value factory acc input_id g = (g', Raise TypeError)
    /\ appends g g'.
Proof.
  intros Hs. unfold adapt_initial_value.
  rewrite (bind_raise _ _ _ _ _
             (adapt_input_unknown factory obliging g "input" input_id Hs)).
  eexists. split; [reflexivity|].
  eexists. cbn [concat_stage fst add_node add_const bump g_nodes].
  rewrite <- !app_assoc. reflexivity.
Qed.

(** The loop over a list of initial values none of which the supply hands
    out: it stops with [TypeError] at the first one without a static shape,
    and completes when there is none. *)
Lemma adapt_initial_values_run (l : list string) :
  forall (g : Graph) (acc : list string),
    forallb (foreign (g_counter g)) l = true ->
    exists g',
      appends g g'
      /\ if existsb (shape_unknown g) l
         then for_each (adapt_initial_value factory) l acc g
              = (g', Raise TypeError)
         else keeps_tensors g g'
              /\ exists values,
                   for_each (adapt_initial_value factory) l acc g
                   = (g', Return values).
Proof.
  induction l as [|id rest IH]; intros g acc Hf.
  - exists g. split; [apply appends_refl|]. cbn.
    split; [split; auto|]. eexists. reflexivity.
  - cbn [forallb] in Hf. apply andb_prop in Hf as [Hid Hrest].
    cbn [existsb for_each]. unfold shape_unknown at 1.
    destruct (get_shape g id) as [s|] eqn:Hs.
    + destruct (adapt_initial_value_known factory obliging g acc id s Hs)
        as (g1 & out & Hrun & Happ & Hkeep).
      rewrite (bind_return _ _ _ _ _ Hrun). cbn [orb].
      assert (Hrest1 : forallb (foreign (g_counter g1)) rest = true).
      { apply forallb_forall. intros x Hx.
        eapply foreign_mono; [|apply Hkeep].
        revert x Hx. now apply forallb_forall. }
      assert (Hsame : existsb (shape_unknown g1) rest
                      = existsb (shape_unknown g) rest).
      { clear IH Hrest1. induction rest as [|x rest IHr]; [reflexivity|].
        cbn [forallb] in Hrest. apply andb_prop in Hrest as [Hx Hrest].
        cbn [existsb]. unfold shape_unknown at 1 3.
        destruct Hkeep as [_ Hk]. rewrite (Hk x Hx). now rewrite IHr. }
      destruct (IH g1 (acc ++ [out])%list Hrest1) as (g2 & Happ2 & H2).
      exists g2. split; [eapply appends_trans; eassumption|].
      rewrite Hsame in H2.
      destruct (existsb (shape_unknown g) rest); [exact H2|].
      destruct H2 as [Hkeep2 Hvalues].
      split; [eapply keeps_trans; eassumption | exact Hvalues].
    + destruct (adapt_initial_value_unknown g acc id Hs) as (g1 & Hrun & Happ).
      exists g1. split; [exact Happ|]. cbn [orb].
      now rewrite (bind_raise _ _ _ _ _ Hrun).
Qed.

End UnknownInitialValue.

(** X19: on a graph that builds every node, a loop one of whose initial
    values (state or scan) has no static shape is not rewritten: [rewrite]
    returns FAIL, the [TypeError] of the adapter being caught.  The nodes
    the graph held before are all still there, exits included, followed by
    the adapter nodes built until the fault.  The ids of the initial values
    must not be ones the name supply hands out. *)
Theorem rewrite_fails_on_unknown_initial_shape
        (factory : Graph -> string -> list string -> creation)
        (context : CustomRnnContext) (g : Graph) :
  (forall h op_type inputs, factory h op_type inputs = Created) ->
  forallb (foreign (g_counter g)) (loop_initial_values context) = true ->
  existsb (shape_unknown g) (loop_initial_values context) = true ->
  snd (rewrite factory context g) = Return FAIL
  /\ exists added,
       g_nodes (fst (rewrite factory context g)) = (g_nodes g ++ added)%list.
Proof.
  intros obliging Hf Hu.
  unfold loop_initial_values in Hf, Hu.
  rewrite forallb_app in Hf. apply andb_prop in Hf as [Hf1 Hf2].
  rewrite existsb_app in Hu.
  assert (Hinit : exists g', initial_values factory context g
                             = (g', Raise TypeError) /\ appends g g').
  { unfold initial_values.
    destruct (adapt_initial_values_run factory obliging
                (state_inputs_initial_values (loop_properties context)) g []
                Hf1) as (g1 & Happ1 & H1).
    destruct (existsb (shape_unknown g)
                      (state_inputs_initial_values (loop_properties context))).
    - exists g1. split; [|exact Happ1].
      now rewrite (bind_raise _ _ _ _ _ H1).
    - destruct H1 as [Hkeep1 [values H1]]. cbn [orb] in Hu.
      rewrite (bind_return _ _ _ _ _ H1).
      assert (Hf2' : forallb (foreign (g_counter g1))
                       (scan_inputs_initial_values (loop_properties context))
                     = true).
      { apply forallb_forall. intros x Hx.
        eapply foreign_mono; [|apply Hkeep1].
        revert x Hx. now apply forallb_forall. }
      assert (Hu' : existsb (shape_unknown g1)
                      (scan_inputs_initial_values (loop_properties context))
                    = true).
      { apply existsb_exists in Hu as (x & Hx & Hux).
        apply existsb_exists. exists x. split; [exact Hx|].
        unfold shape_unknown in *. destruct Hkeep1 as [_ Hk].
        rewrite Hk; [exact Hux|].
        exact (proj1 (forallb_forall _ _) Hf2 x Hx). }
      destruct (adapt_initial_values_run factory obliging
                  (scan_inputs_initial_values (loop_properties context)) g1 []
                  Hf2') as (g2 & Happ2 & H2).
      rewrite Hu' in H2. exists g2.
      split; [|eapply appends_trans; eassumption].
      now rewrite (bind_raise _ _ _ _ _ H2). }
  destruct Hinit as (g' & Hinit & Happ).
  unfold rewrite, try_except. rewrite rewrite_body_stages.
  unfold scan_stage. rewrite bind_assoc, (bind_raise _ _ _ _ _ Hinit).
  split; [reflexivity|exact Happ].
Qed.

Lemma rewrite_fails_on_unknown_initial_shape_scenario :
  let props := loop_properties Scenario.context in
  let context :=
    loop_context "rnn/while/"
      {| all_variables := all_variables props;
         tensor_array_inputs := tensor_array_inputs props;
         state_inputs := state_inputs props;
         state_inputs_initial_values := ["rnn/zeros:0"];
         state_outputs := state_outputs props;
         state_outputs_exits := state_outputs_exits props;
         scan_inputs := scan_inputs props;
         scan_inputs_initial_values := ["rnn/time:0"];
         scan_outputs := scan_outputs props;
         scan_outputs_exits := scan_outputs_exits props |}
      Scenario.cell in
  snd (rewrite Scenario.obliging context Scenario.graph) = Return FAIL
  /\ exists added,
       g_nodes (fst (rewrite Scenario.obliging context Scenario.graph))
       = (g_nodes Scenario.graph ++ added)%list.
Proof.
  intros props context.
  apply rewrite_fails_on_unknown_initial_shape; reflexivity.
Defined.

Lemma with_attr_other_names (name key : string) (v : AttrValue) (l : list Node) :
  find (fun n => String.eqb (node_name n) name) l = None ->
  map (with_attr name key v) l = l.
Proof.
  induction l as [|m l IH]; [reflexivity|].
  cbn [find map]. unfold with_attr at 1.
  destruct (String.eqb (node_name m) name); [discriminate|].
  intros H. now rewrite (IH H).
Qed.

(** X20: a loop that carries nothing (no state, no sequence, no exit) is
    still rewritten when the graph builds the node: [rewrite] returns OK
    and the graph gains exactly one node, a Scan with the empty placeholder
    as its only input, no output, [num_scan_inputs] 0 and the cell graph
    without declared input as its body; shapes and dtypes are untouched.
    No node of the graph may already bear the name the Scan node gets. *)
Theorem rewrite_of_loop_carrying_nothing
        (factory : Graph -> string -> list string -> creation)
        (context : CustomRnnContext) (g : Graph) :
  carries_nothing context ->
  factory g "Scan" [EmptyString] = Created ->
  get_node_by_name g (node_name (bare_scan_node context (g_counter g))) = None ->
  rewrite factory context g
  = ({| g_nodes := g_nodes g ++ [bare_scan_node context (g_counter g)];
        g_shapes := g_shapes g;
        g_dtypes := g_dtypes g;
        g_counter := S (g_counter g) |},
     Return OK).
Proof.
  intros (Hsi & Hsv & Hso & Hse & Hxi & Hxv & Hxo & Hxe) Hfactory Hfresh.
  assert (Hloop : for_each collect_exit (loop_exits context) ([], []) g
                  = (g, Return ([], []))).
  { unfold loop_exits. rewrite Hse, Hxe. reflexivity. }
  assert (Hstage :
    scan_stage factory context g
    = (add_node g (new_node (g_counter g) "Scan" [EmptyString]
                            [("num_scan_inputs", AttrInt 0)] 0
                            (Some "custom_rnn_scan"))
                (Some []) (Some []),
       Return (Some (new_node (g_counter g) "Scan" [EmptyString]
                              [("num_scan_inputs", AttrInt 0)] 0
                              (Some "custom_rnn_scan"))))).
  { unfold scan_stage, initial_values. rewrite Hsv, Hxv. cbn [for_each].
    rewrite !bind_assoc. rewrite (bind_return _ _ _ _ _ eq_refl).
    rewrite !bind_assoc. rewrite (bind_return _ _ _ _ _ eq_refl).
    rewrite (bind_return _ _ _ _ _ eq_refl). cbn [app].
    rewrite (create_scan_node_request factory context [] g g ([], []) Hloop).
    unfold scan_request, make_node. cbn [app].
    rewrite Hfactory, Hxi, Hso, Hxo. reflexivity. }
  unfold rewrite, try_except. rewrite rewrite_body_stages.
  rewrite (bind_return _ _ _ _ _ Hstage).
  unfold finish, _connect_scan_with_output, scan_body_graph.
  rewrite Hsi, Hxi, Hse, Hxe. cbn [declare_inputs fold_left for_each].
  unfold bind, set_body_graph_as_attr, update, ret, add_node.
  cbn [g_nodes g_shapes g_dtypes g_counter new_node node_name node_output
       map seq bind_outputs combine app].
  rewrite map_app, (with_attr_other_names _ _ _ _ Hfresh).
  cbn [map]. unfold with_attr. cbn [node_name]. rewrite String.eqb_refl.
  reflexivity.
Qed.

Lemma rewrite_of_loop_carrying_nothing_scenario :
  let context :=
    loop_context "rnn/while/"
      {| all_variables := [];
         tensor_array_inputs := [];
         state_inputs := [];
         state_inputs_initial_values := [];
         state_outputs := [];
         state_outputs_exits := [];
         scan_inputs := [];
         scan_inputs_initial_values := [];
         scan_outputs := [];
         scan_outputs_exits := [] |}
      Scenario.cell in
  snd (rewrite Scenario.scan_raises context Scenario.graph) = Return FAIL
  /\ rewrite Scenario.obliging context Scenario.graph
     = ({| g_nodes := g_nodes Scenario.graph
                      ++ [bare_scan_node context (g_counter Scenario.graph)];
           g_shapes := g_shapes Scenario.graph;
           g_dtypes := g_dtypes Scenario.graph;
           g_counter := S (g_counter Scenario.graph) |},
        Return OK).
Proof.
  intros context. split; [reflexivity|].
  apply rewrite_of_loop_carrying_nothing.
  - repeat split.
  - reflexivity.
  - reflexivity.
Defined.
